(** * NC business document fetcher: a shallow embedding and its properties

    The embedding follows [nc_business_doc_fetcher.py].  What lies outside
    the file is modelled as follows.

    - A Python [str] is a Rocq [string] whose characters are the code points
      U+0000 to U+00FF; the character classes below are the ones CPython uses
      on that range.  Code points above U+00FF are outside the model.
    - An HTML text is represented by the tree that [BeautifulSoup(_, "lxml")]
      builds from it ([Soup.Node]).
    - The network, the clock, the file system and the stack of the
      interpreter form an environment [Env] that answers as a function of
      everything the run did before.
    - A Python [float] is a rational, an infinity or a NaN; [time.sleep] is
      given with what it refuses.
    - Exceptions are a class and a message, and every exception of the
      model is an [Exception].  A [KeyboardInterrupt] is not: it ends the
      run where it is, and it is modelled where it is handled, in [main].
    - The recursion of [_perform_request] is bounded by the recursion limit
      of the interpreter; the rest of the program has a call depth that does
      not depend on its input, and is taken to fit.
    - Logging leaves nothing in the model but the frames it needs in
      [_perform_request]. *)

From Stdlib Require Import Bool Arith ZArith NArith QArith Lia List.
From Stdlib Require Import Ascii String.
Import ListNotations.
Close Scope Q_scope.
Local Open Scope string_scope.
Local Open Scope list_scope.

(** String concatenation, Python's [+] on [str]. *)
Infix "+++" := String.append (at level 60, right associativity).

(* ------------------------------------------------------------------ *)
(** ** Python strings *)

Module PyStr.

Definition ord (c : ascii) : N := N_of_ascii c.
Definition chr (n : N) : ascii := ascii_of_N n.

Definition between (lo hi : N) (c : ascii) : bool :=
  ((lo <=? ord c) && (ord c <=? hi))%N.

Definition code_is (n : N) (c : ascii) : bool := (ord c =? n)%N.

(** [str.isspace], which is also the class [\s] of [re] and the set that
    [str.strip()] removes. *)
Definition isspace (c : ascii) : bool :=
  between 9 13 c || between 28 32 c || code_is 133 c || code_is 160 c.

(** [str.isalpha]. *)
Definition isalpha (c : ascii) : bool :=
  between 65 90 c || between 97 122 c || code_is 170 c || code_is 181 c || code_is 186 c
  || between 192 214 c || between 216 246 c || between 248 255 c.

(** [str.isnumeric] (it contains [str.isdecimal] and [str.isdigit]). *)
Definition isnumeric (c : ascii) : bool :=
  between 48 57 c || between 178 179 c || code_is 185 c || between 188 190 c.

(** The letters of ASCII: [c.isascii() and c.isalpha()]. *)
Definition isascii_alpha (c : ascii) : bool :=
  between 65 90 c || between 97 122 c.

(** [str.lower] on one character. *)
Definition lower_char (c : ascii) : ascii :=
  if between 65 90 c || between 192 214 c || between 216 222 c
  then chr (ord c + 32) else c.

Fixpoint smap (f : ascii -> ascii) (s : string) : string :=
  match s with
  | EmptyString => EmptyString
  | String c r => String (f c) (smap f r)
  end.

Fixpoint sfilter (p : ascii -> bool) (s : string) : string :=
  match s with
  | EmptyString => EmptyString
  | String c r => if p c then String c (sfilter p r) else sfilter p r
  end.

Fixpoint sforall (p : ascii -> bool) (s : string) : bool :=
  match s with
  | EmptyString => true
  | String c r => p c && sforall p r
  end.

Fixpoint sexists (p : ascii -> bool) (s : string) : bool :=
  match s with
  | EmptyString => false
  | String c r => p c || sexists p r
  end.

Definition lower (s : string) : string := smap lower_char s.

(** [c in s] for a character [c]. *)
Definition has_char (c : ascii) (s : string) : bool := sexists (Ascii.eqb c) s.

(** [s[:n]]. *)
Fixpoint take (n : nat) (s : string) : string :=
  match n, s with
  | S m, String c r => String c (take m r)
  | _, _ => EmptyString
  end.

(** [s[n:]]. *)
Fixpoint drop (n : nat) (s : string) : string :=
  match n, s with
  | S m, String _ r => drop m r
  | _, _ => s
  end.

Fixpoint rev_onto (s acc : string) : string :=
  match s with
  | EmptyString => acc
  | String c r => rev_onto r (String c acc)
  end.

Definition srev (s : string) : string := rev_onto s EmptyString.

(** [s.startswith(p)]. *)
Fixpoint startswith (p s : string) : bool :=
  match p, s with
  | EmptyString, _ => true
  | String a p', String b s' => Ascii.eqb a b && startswith p' s'
  | String _ _, EmptyString => false
  end.

(** [s.endswith(p)]. *)
Definition endswith (p s : string) : bool := startswith (srev p) (srev s).

(** [p in s] for a string [p]. *)
Fixpoint contains (p s : string) : bool :=
  startswith p s ||
  match s with
  | EmptyString => false
  | String _ r => contains p r
  end.

(** [s.lstrip(chars)] with the set of characters given as a predicate. *)
Fixpoint lstrip_by (p : ascii -> bool) (s : string) : string :=
  match s with
  | EmptyString => EmptyString
  | String c r => if p c then lstrip_by p r else s
  end.

Definition rstrip_by (p : ascii -> bool) (s : string) : string :=
  srev (lstrip_by p (srev s)).

(** [s.strip()]. *)
Definition strip (s : string) : string := rstrip_by isspace (lstrip_by isspace s).

(** [s.partition(c)] for a character [c] that may be absent: the text before
    the first [c], and the text after it when there is one. *)
Fixpoint cut (c : ascii) (s : string) : string * option string :=
  match s with
  | EmptyString => (EmptyString, None)
  | String a r =>
      if Ascii.eqb a c then (EmptyString, Some r)
      else let '(h, t) := cut c r in (String a h, t)
  end.

(** [s.split(c)]. *)
Fixpoint split (c : ascii) (s : string) : list string :=
  match s with
  | EmptyString => [EmptyString]
  | String a r =>
      if Ascii.eqb a c then EmptyString :: split c r
      else match split c r with
           | h :: t => String a h :: t
           | [] => [String a EmptyString]
           end
  end.

(** [sep.join(parts)]. *)
Fixpoint join (sep : string) (parts : list string) : string :=
  match parts with
  | [] => EmptyString
  | [p] => p
  | p :: rest => p +++ sep +++ join sep rest
  end.

(** [s.split()]: the maximal runs of characters that are not whitespace. *)
Fixpoint words_from (cur : string) (s : string) : list string :=
  match s with
  | EmptyString => match cur with EmptyString => [] | _ => [srev cur] end
  | String c r =>
      if isspace c
      then match cur with
           | EmptyString => words_from EmptyString r
           | _ => srev cur :: words_from EmptyString r
           end
      else words_from (String c cur) r
  end.

Definition words (s : string) : list string := words_from EmptyString s.

(** Decimal digits of a natural number, and [str(n)] for an integer. *)
Definition digit (n : N) : ascii := chr (48 + n mod 10).

Fixpoint digits_fuel (fuel : nat) (n : N) (acc : string) : string :=
  match fuel with
  | O => acc
  | S f =>
      let acc' := String (digit n) acc in
      if (n <? 10)%N then acc' else digits_fuel f (n / 10)%N acc'
  end.

Definition str_of_N (n : N) : string := digits_fuel (S (N.to_nat (N.log2 n))) n EmptyString.

Definition str_of_Z (z : Z) : string :=
  if (z <? 0)%Z then String "-" (str_of_N (Z.to_N (- z))) else str_of_N (Z.to_N z).

(** ["%0<w>d" % n]: at least [w] digits, zeros on the left. *)
Fixpoint zeros (n : nat) : string :=
  match n with
  | O => EmptyString
  | S m => String "0" (zeros m)
  end.

Definition zfill (w : nat) (n : N) : string :=
  let d := str_of_N n in zeros (w - String.length d) +++ d.

Definition hexdigit (n : N) : ascii :=
  if (n <? 10)%N then chr (48 + n) else chr (87 + n).

(** Two lower-case hexadecimal digits of a byte. *)
Definition hex2 (b : N) : string :=
  String (hexdigit ((b / 16) mod 16)) (String (hexdigit (b mod 16)) EmptyString).

(** Two upper-case hexadecimal digits of a byte, as in a percent escape. *)
Definition HEX2 (b : N) : string :=
  let up (n : N) := if (n <? 10)%N then chr (48 + n) else chr (55 + n) in
  String (up ((b / 16) mod 16)%N) (String (up (b mod 16)%N) EmptyString).

(** [s.encode()]: the UTF-8 bytes of a string of code points below U+0100. *)
Fixpoint encode (s : string) : list N :=
  match s with
  | EmptyString => []
  | String c r =>
      let n := ord c in
      if (n <? 128)%N then n :: encode r
      else (192 + n / 64)%N :: (128 + n mod 64)%N :: encode r
  end.

End PyStr.

(* ------------------------------------------------------------------ *)
(** ** [hashlib.md5]

    RFC 1321 on 32-bit words kept in [Z], the wrap-around written with
    [Z.land]. *)

Module MD5.

Local Open Scope Z_scope.

Definition mask32 (x : Z) : Z := Z.land x 0xffffffff.

Definition add32 (x y : Z) : Z := mask32 (x + y).

Definition not32 (x : Z) : Z := Z.lxor x 0xffffffff.

Definition rotl32 (x c : Z) : Z :=
  mask32 (Z.lor (Z.shiftl x c) (Z.shiftr x (32 - c))).

Definition K : list Z :=
  [ 0xd76aa478; 0xe8c7b756; 0x242070db; 0xc1bdceee;
    0xf57c0faf; 0x4787c62a; 0xa8304613; 0xfd469501;
    0x698098d8; 0x8b44f7af; 0xffff5bb1; 0x895cd7be;
    0x6b901122; 0xfd987193; 0xa679438e; 0x49b40821;
    0xf61e2562; 0xc040b340; 0x265e5a51; 0xe9b6c7aa;
    0xd62f105d; 0x02441453; 0xd8a1e681; 0xe7d3fbc8;
    0x21e1cde6; 0xc33707d6; 0xf4d50d87; 0x455a14ed;
    0xa9e3e905; 0xfcefa3f8; 0x676f02d9; 0x8d2a4c8a;
    0xfffa3942; 0x8771f681; 0x6d9d6122; 0xfde5380c;
    0xa4beea44; 0x4bdecfa9; 0xf6bb4b60; 0xbebfbc70;
    0x289b7ec6; 0xeaa127fa; 0xd4ef3085; 0x04881d05;
    0xd9d4d039; 0xe6db99e5; 0x1fa27cf8; 0xc4ac5665;
    0xf4292244; 0x432aff97; 0xab9423a7; 0xfc93a039;
    0x655b59c3; 0x8f0ccc92; 0xffeff47d; 0x85845dd1;
    0x6fa87e4f; 0xfe2ce6e0; 0xa3014314; 0x4e0811a1;
    0xf7537e82; 0xbd3af235; 0x2ad7d2bb; 0xeb86d391 ].

Definition shifts : list Z :=
  [ 7; 12; 17; 22; 7; 12; 17; 22; 7; 12; 17; 22; 7; 12; 17; 22;
    5;  9; 14; 20; 5;  9; 14; 20; 5;  9; 14; 20; 5;  9; 14; 20;
    4; 11; 16; 23; 4; 11; 16; 23; 4; 11; 16; 23; 4; 11; 16; 23;
    6; 10; 15; 21; 6; 10; 15; 21; 6; 10; 15; 21; 6; 10; 15; 21 ].

(** The four chaining words. *)
Definition Chain : Type := (Z * Z * Z * Z)%type.

Definition init : Chain := (0x67452301, 0xefcdab89, 0x98badcfe, 0x10325476).

(** One of the 64 steps on the message words [M] of a block. *)
Definition step (M : list Z) (st : Chain) (i : nat) : Chain :=
  let '(A, B, C, D) := st in
  let iz := Z.of_nat i in
  let '(F, g) :=
    if iz <? 16 then (Z.lor (Z.land B C) (Z.land (not32 B) D), iz)
    else if iz <? 32 then (Z.lor (Z.land D B) (Z.land (not32 D) C), (5 * iz + 1) mod 16)
    else if iz <? 48 then (Z.lxor B (Z.lxor C D), (3 * iz + 5) mod 16)
    else (Z.lxor C (Z.lor B (not32 D)), (7 * iz) mod 16) in
  let F' := add32 (add32 (add32 F A) (nth i K 0)) (nth (Z.to_nat g) M 0) in
  (D, add32 B (rotl32 F' (nth i shifts 0)), B, C).

(** A little-endian word of four bytes. *)
Definition word_le (b0 b1 b2 b3 : Z) : Z :=
  b0 + 256 * b1 + 65536 * b2 + 16777216 * b3.

Fixpoint words_le (bytes : list Z) : list Z :=
  match bytes with
  | b0 :: b1 :: b2 :: b3 :: rest => word_le b0 b1 b2 b3 :: words_le rest
  | _ => []
  end.

Definition compress (st : Chain) (block : list Z) : Chain :=
  let '(a0, b0, c0, d0) := st in
  let '(A, B, C, D) := fold_left (step (words_le block)) (seq 0 64) st in
  (add32 a0 A, add32 b0 B, add32 c0 C, add32 d0 D).

Fixpoint blocks (n : nat) (bytes : list Z) : list (list Z) :=
  match n with
  | O => []
  | S m => firstn 64 bytes :: blocks m (skipn 64 bytes)
  end.

Definition bytes_le (n : nat) (x : Z) : list Z :=
  map (fun k => (Z.shiftr x (8 * Z.of_nat k)) mod 256) (seq 0 n).

(** The message, a one bit, zeros up to 56 modulo 64, and the bit length. *)
Definition pad (msg : list Z) : list Z :=
  let len := Z.of_nat (List.length msg) in
  let z := Z.to_nat ((55 - len) mod 64) in
  msg ++ [0x80] ++ repeat 0 z ++ bytes_le 8 (Z.land (8 * len) 0xffffffffffffffff).

Definition digest (msg : list Z) : list Z :=
  let p := pad msg in
  let '(A, B, C, D) := fold_left compress (blocks (List.length p / 64) p) init in
  bytes_le 4 A ++ bytes_le 4 B ++ bytes_le 4 C ++ bytes_le 4 D.

(** [hashlib.md5(data).hexdigest()]. *)
Definition hexdigest (data : list N) : string :=
  String.concat "" (map (fun b => PyStr.hex2 (Z.to_N b)) (digest (map Z.of_N data))).

End MD5.

(* ------------------------------------------------------------------ *)
(** ** Exceptions and results *)

(** The exception classes the program raises or handles.
    [RequestException] stands for [requests.RequestException] and its
    subclasses ([HTTPError], [ConnectionError], [Timeout], ...);
    [OtherException] for any other subclass of [Exception].  Every class
    here is a subclass of [Exception]: [except Exception] catches them all.
    A [KeyboardInterrupt] is no [Exception] and no handler of the class
    catches it; it is dealt with where [main] handles it ([Cli.main]). *)
Inductive ExnClass : Type :=
| RequestException
| SearchOperationError
| DocumentRetrievalError
| ValueError
| OSError
| OverflowError
| RecursionError
| OtherException.

(** An exception: its class and [str(exception)]. *)
Record Exn : Type := mkExn { exn_class : ExnClass; exn_str : string }.

(** What a call does: it returns a value or raises. *)
Inductive Result (A : Type) : Type :=
| Return (a : A)
| Raise (e : Exn).
Arguments Return {A} a.
Arguments Raise {A} e.

Definition is_Raise {A} (r : Result A) : bool :=
  match r with Raise _ => true | Return _ => false end.

Definition ExnClass_eqb (a b : ExnClass) : bool :=
  match a, b with
  | RequestException, RequestException
  | SearchOperationError, SearchOperationError
  | DocumentRetrievalError, DocumentRetrievalError
  | ValueError, ValueError
  | OSError, OSError
  | OverflowError, OverflowError
  | RecursionError, RecursionError
  | OtherException, OtherException => true
  | _, _ => false
  end.

(* ------------------------------------------------------------------ *)
(** ** [urllib.parse]

    [urlencode], [urlsplit], [urlparse], [urlunparse] and [urljoin] as in
    CPython 3.11.  The validation of a host written in brackets needs the
    [ipaddress] module and differs between releases: it is the parameter
    [check_bracketed_netloc], which gives [None] when the release accepts
    the netloc and the text of the [ValueError] it raises otherwise. *)

Module UrlParse.

Import PyStr.

Definition uses_relative : list string :=
  [ ""; "ftp"; "http"; "gopher"; "nntp"; "imap"; "wais"; "file"; "https";
    "shttp"; "mms"; "prospero"; "rtsp"; "rtspu"; "sftp"; "svn"; "svn+ssh";
    "ws"; "wss" ].

Definition uses_netloc : list string :=
  [ ""; "ftp"; "http"; "gopher"; "nntp"; "telnet"; "imap"; "wais"; "file";
    "mms"; "https"; "shttp"; "snews"; "prospero"; "rtsp"; "rtspu"; "rsync";
    "svn"; "svn+ssh"; "sftp"; "nfs"; "git"; "git+ssh"; "ws"; "wss" ].

Definition uses_params : list string :=
  [ ""; "ftp"; "hdl"; "prospero"; "http"; "imap"; "https"; "shttp"; "rtsp";
    "rtspu"; "sip"; "sips"; "mms"; "sftp"; "tel" ].

Definition mem (s : string) (l : list string) : bool := existsb (String.eqb s) l.

Definition nonempty (s : string) : bool :=
  match s with EmptyString => false | _ => true end.

(** Letters and digits of ASCII and [+-.]. *)
Definition scheme_char (c : ascii) : bool :=
  between 97 122 c || between 65 90 c || between 48 57 c
  || code_is 43 c || code_is 45 c || code_is 46 c.

(** The bytes [quote] never escapes: letters and digits of ASCII and [_.-~]. *)
Definition always_safe (b : N) : bool :=
  let c := chr b in
  (b <? 128)%N &&
  (between 65 90 c || between 97 122 c || between 48 57 c
   || code_is 95 c || code_is 46 c || code_is 45 c || code_is 126 c).

(** [quote_plus(s)]. *)
Definition quote_plus (s : string) : string :=
  String.concat ""
    (map (fun b : N =>
            if always_safe b then String (chr b) EmptyString
            else if (b =? 32)%N then "+"
            else String "%" (HEX2 b))
         (encode s)).

(** [urlencode({key: value})]. *)
Definition urlencode1 (key value : string) : string :=
  quote_plus key +++ "=" +++ quote_plus value.

Definition c0_or_space (c : ascii) : bool := (ord c <=? 32)%N.

Definition unsafe_byte (c : ascii) : bool :=
  code_is 9 c || code_is 13 c || code_is 10 c.

Definition remove_unsafe (s : string) : string :=
  sfilter (fun c => negb (unsafe_byte c)) s.

(** [_splitnetloc(url, 2)] on the text after the two slashes: the netloc runs
    up to the first of [/?#]. *)
Fixpoint splitnetloc (s : string) : string * string :=
  match s with
  | EmptyString => (EmptyString, EmptyString)
  | String c r =>
      if code_is 47 c || code_is 63 c || code_is 35 c then (EmptyString, s)
      else let '(n, rest) := splitnetloc r in (String c n, rest)
  end.

Record SplitResult : Type := mkSplit {
  s_scheme : string; s_netloc : string; s_path : string;
  s_query : string; s_fragment : string }.

Record ParseResult : Type := mkParse {
  scheme : string; netloc : string; path : string; params : string;
  query : string; fragment : string }.

Section Release.

Variable check_bracketed_netloc : string -> option string.

Definition urlsplit (url0 scheme0 : string) : Result SplitResult :=
  let url := remove_unsafe (lstrip_by c0_or_space url0) in
  let scheme := remove_unsafe (rstrip_by c0_or_space (lstrip_by c0_or_space scheme0)) in
  let '(scheme, url) :=
    match cut ":" url with
    | (String c0 pre, Some rest) =>
        if isascii_alpha c0 && sforall scheme_char (String c0 pre)
        then (lower (String c0 pre), rest)
        else (scheme, url)
    | _ => (scheme, url)
    end in
  let after_netloc :=
    if startswith "//" url then
      let '(netloc, rest) := splitnetloc (drop 2 url) in
      let lb := has_char "[" netloc in
      let rb := has_char "]" netloc in
      if (lb && negb rb) || (rb && negb lb)
      then Raise (mkExn ValueError "Invalid IPv6 URL")
      else
        match (if lb && rb then check_bracketed_netloc netloc else None) with
        | Some refusal => Raise (mkExn ValueError refusal)
        | None => Return (netloc, rest)
        end
    else Return (EmptyString, url) in
  match after_netloc with
  | Raise e => Raise e
  | Return (netloc, url) =>
      let '(url, fragment) :=
        match cut "#" url with
        | (u, Some f) => (u, f)
        | (u, None) => (u, EmptyString)
        end in
      let '(url, query) :=
        match cut "?" url with
        | (u, Some q) => (u, q)
        | (u, None) => (u, EmptyString)
        end in
      Return (mkSplit scheme netloc url query fragment)
  end.

(** [_splitparams(url)] when [';' in url]. *)
Definition splitparams (url : string) : string * string :=
  if has_char "/" url then
    (* the last segment, after the last slash, is searched for [;] *)
    match cut "/" (srev url) with
    | (rlast, Some rhead) =>
        match cut ";" (srev rlast) with
        | (before, Some after) => (srev rhead +++ "/" +++ before, after)
        | (_, None) => (url, EmptyString)
        end
    | (_, None) => (url, EmptyString)
    end
  else
    match cut ";" url with
    | (before, Some after) => (before, after)
    | (before, None) => (before, EmptyString)
    end.

Definition urlparse (url scheme0 : string) : Result ParseResult :=
  match urlsplit url scheme0 with
  | Raise e => Raise e
  | Return r =>
      let '(p, prm) :=
        if mem (s_scheme r) uses_params && has_char ";" (s_path r)
        then splitparams (s_path r)
        else (s_path r, EmptyString) in
      Return (mkParse (s_scheme r) (s_netloc r) p prm (s_query r) (s_fragment r))
  end.

Definition urlunsplit (scheme netloc url query fragment : string) : string :=
  let url :=
    if nonempty netloc
       || (nonempty scheme && mem scheme uses_netloc && negb (startswith "//" url))
    then "//" +++ netloc +++
         (if nonempty url && negb (startswith "/" url) then "/" +++ url else url)
    else url in
  let url := if nonempty scheme then scheme +++ ":" +++ url else url in
  let url := if nonempty query then url +++ "?" +++ query else url in
  if nonempty fragment then url +++ "#" +++ fragment else url.

Definition urlunparse (p : ParseResult) : string :=
  let url := if nonempty (params p) then path p +++ ";" +++ params p else path p in
  urlunsplit (scheme p) (netloc p) url (query p) (fragment p).

(** [segments[1:-1] = filter(None, segments[1:-1])]. *)
Definition drop_empty_inner (segments : list string) : list string :=
  match segments with
  | first :: (_ :: _) as rest =>
      first :: filter nonempty (removelast rest) ++ [last rest EmptyString]
  | _ => segments
  end.

(** The loop over the segments: [..] pops, [.] is skipped. *)
Definition resolve_step (resolved_path : list string) (seg : string) : list string :=
  if String.eqb seg ".." then removelast resolved_path
  else if String.eqb seg "." then resolved_path
  else resolved_path ++ [seg].

Definition urljoin (base url : string) : Result string :=
  if negb (nonempty base) then Return url
  else if negb (nonempty url) then Return base
  else
    match urlparse base EmptyString with
    | Raise e => Raise e
    | Return b =>
        match urlparse url (scheme b) with
        | Raise e => Raise e
        | Return u =>
            if negb (String.eqb (scheme u) (scheme b)) || negb (mem (scheme u) uses_relative)
            then Return url
            else if mem (scheme u) uses_netloc && nonempty (netloc u)
            then Return (urlunparse u)
            else
              let netloc' := if mem (scheme u) uses_netloc then netloc b else netloc u in
              if negb (nonempty (path u)) && negb (nonempty (params u))
              then Return (urlunparse
                     (mkParse (scheme u) netloc' (path b) (params b)
                        (if nonempty (query u) then query u else query b)
                        (fragment u)))
              else
                let base_parts := split "/" (path b) in
                let base_parts :=
                  if nonempty (last base_parts EmptyString)
                  then removelast base_parts else base_parts in
                let segments :=
                  if startswith "/" (path u) then split "/" (path u)
                  else drop_empty_inner (base_parts ++ split "/" (path u)) in
                let resolved_path := fold_left resolve_step segments [] in
                let last_seg := last segments EmptyString in
                let resolved_path :=
                  if String.eqb last_seg "." || String.eqb last_seg ".."
                  then resolved_path ++ [EmptyString] else resolved_path in
                let joined := join "/" resolved_path in
                Return (urlunparse
                  (mkParse (scheme u) netloc'
                     (if nonempty joined then joined else "/")
                     (params u) (query u) (fragment u)))
        end
    end.

End Release.

End UrlParse.

(* ------------------------------------------------------------------ *)
(** ** [pathlib] on a POSIX system *)

Module PathLib.

Import PyStr.

(** A path: its root ([""], ["/"] or ["//"]) and its components. *)
Record Path : Type := mkPath { root : string; parts : list string }.

Definition is_slash (c : ascii) : bool := code_is 47 c.

Definition keep_part (p : string) : bool :=
  negb (String.eqb p "") && negb (String.eqb p ".").

(** [Path(s)]. *)
Definition of_str (s : string) : Path :=
  let stripped := lstrip_by is_slash s in
  let lead := String.length s - String.length stripped in
  let r := if Nat.eqb lead 0 then "" else if Nat.eqb lead 2 then "//" else "/" in
  mkPath r (filter keep_part (split "/" stripped)).

(** [a / b]. *)
Definition joinpath (a b : Path) : Path :=
  match root b with
  | EmptyString => mkPath (root a) (parts a ++ parts b)
  | _ => b
  end.

(** [str(p)]. *)
Definition to_str (p : Path) : string :=
  match root p, parts p with
  | EmptyString, [] => "."
  | r, ps => r +++ join "/" ps
  end.

End PathLib.

(* ------------------------------------------------------------------ *)
(** ** The tree [BeautifulSoup] builds *)

Module Soup.

Import PyStr.

(** A tag with its attributes and children, a text string, or a string
    that is not text (a comment, a declaration). *)
#[warnings="-register-all"]
Inductive Node : Type :=
| Tag (name : string) (attrs : list (string * string)) (contents : list Node)
| NavigableString (text : string)
| Comment (text : string).

(** [node.descendants], in document order. *)
Fixpoint descendants (n : Node) : list Node :=
  match n with
  | Tag _ _ cs => flat_map (fun c => c :: descendants c) cs
  | _ => []
  end.

Definition is_tag (nm : string) (n : Node) : bool :=
  match n with
  | Tag name _ _ => String.eqb name nm
  | _ => false
  end.

Fixpoint lookup (key : string) (attrs : list (string * string)) : option string :=
  match attrs with
  | [] => None
  | (k, v) :: rest => if String.eqb k key then Some v else lookup key rest
  end.

(** [tag.get(key)]. *)
Definition attr (key : string) (n : Node) : option string :=
  match n with
  | Tag _ attrs _ => lookup key attrs
  | _ => None
  end.

(** [tag.get(key, default)]. *)
Definition get (key default : string) (n : Node) : string :=
  match attr key n with
  | Some v => v
  | None => default
  end.

(** [node.find_all(name)]. *)
Definition find_all (nm : string) (n : Node) : list Node :=
  filter (is_tag nm) (descendants n).

(** [node.find_all(name, href=True)]. *)
Definition has_attr (key : string) (n : Node) : bool :=
  match attr key n with Some _ => true | None => false end.

Definition find_all_with (nm key : string) (n : Node) : list Node :=
  filter (fun d => is_tag nm d && has_attr key d) (descendants n).

(** [node.find(name)]: the first descendant of that name, or [None]. *)
Definition find (nm : string) (n : Node) : option Node :=
  List.find (is_tag nm) (descendants n).

(** [re.compile(r".*<word>.*", re.I).search(s)] for a lower-case word. *)
Definition re_search_word (word s : string) : bool := contains word (lower s).

(** How [find] matches an attribute against a compiled pattern.  The values
    of [class] are a list: one of them has to match, or their join by a
    space.  Any other attribute is matched as one string; an absent
    attribute does not match. *)
Definition attr_matches (key word : string) (n : Node) : bool :=
  match attr key n with
  | None => false
  | Some v =>
      if String.eqb key "class"
      then existsb (re_search_word word) (words v)
           || re_search_word word (join " " (words v))
      else re_search_word word v
  end.

(** [node.find(name, {key: re.compile(r".*<word>.*", re.I)})]. *)
Definition find_matching (nm key word : string) (n : Node) : option Node :=
  List.find (fun d => is_tag nm d && attr_matches key word d) (descendants n).

(** The text strings below a node, each stripped, the empty ones dropped. *)
Definition stripped_strings (n : Node) : list string :=
  flat_map (fun d =>
              match d with
              | NavigableString s =>
                  match strip s with
                  | EmptyString => []
                  | s' => [s']
                  end
              | _ => []
              end)
           (descendants n).

(** [node.get_text(strip=True)]. *)
Definition get_text_strip (n : Node) : string :=
  String.concat "" (stripped_strings n).

End Soup.

(* ------------------------------------------------------------------ *)
(** ** The data model *)

Definition FILENAME_MAX_LENGTH : nat := 50.

(** One business entity of the search results. *)
Record BusinessRecord : Type := mkBusinessRecord {
  entity_name : string;
  sos_identifier : string;
  status_text : string;
  date_registered : string;
  detail_link : string;
  pdf_documents : list string }.

(** [BusinessRecord(...)] with the five required fields:
    [pdf_documents] takes its default, a new empty list. *)
Definition new_BusinessRecord (name ident status date link : string) : BusinessRecord :=
  mkBusinessRecord name ident status date link [].

(** A Python [float]: a finite value, taken as the rational it stands for,
    an infinity or a NaN. *)
Inductive PyFloat : Type :=
| Finite (x : Q)
| Infinity (negative : bool)
| NaN.

(** The seconds a float stands for, when it is finite. *)
Definition seconds (x : PyFloat) : Q :=
  match x with
  | Finite q => q
  | _ => 0%Q
  end.

Record ScraperConfiguration : Type := mkScraperConfiguration {
  target_base_url : string;
  search_endpoint : string;
  storage_directory : string;
  request_delay_seconds : PyFloat;
  connection_timeout : Z;
  max_retry_attempts : Z;
  http_user_agent : string }.

(** [ScraperConfiguration()]. *)
Definition default_configuration : ScraperConfiguration :=
  {| target_base_url := "https://www.sosnc.gov";
     search_endpoint := "/online_services/search/by_title/_Business_Registration";
     storage_directory := "./fetched_documents";
     request_delay_seconds := Finite (3 # 2)%Q;
     connection_timeout := 30%Z;
     max_retry_attempts := 3%Z;
     http_user_agent := "NCBusinessDocFetcher/1.0" |}.

(** A [requests.Response]: the fields the program and [raise_for_status]
    read.  [text] is the markup as the tree the parser builds from it;
    [content] is the body as bytes. *)
Record Response : Type := mkResponse {
  status_code : Z;
  reason : string;
  url : string;
  text : Soup.Node;
  content : string }.

(** The dictionary [process_search_and_download] returns. *)
Record Summary : Type := mkSummary {
  search_query : string;
  businesses_found : nat;
  documents_downloaded : nat;
  downloaded_files : list string;
  errors : list string }.

(** [datetime.now()]. *)
Record DateTime : Type := mkDateTime {
  year : N; month : N; day : N; hour : N; minute : N; second : N }.

(** [dt.strftime("%Y%m%d_%H%M%S")] with the C library of Linux: [%Y] is
    the year as it is, without zeros on the left (three digits for the
    year 999); the other fields have two digits. *)
Definition strftime (dt : DateTime) : string :=
  PyStr.str_of_N (year dt) +++ PyStr.zfill 2 (month dt) +++ PyStr.zfill 2 (day dt)
  +++ "_" +++
  PyStr.zfill 2 (hour dt) +++ PyStr.zfill 2 (minute dt) +++ PyStr.zfill 2 (second dt).

(* ------------------------------------------------------------------ *)
(** ** The environment and the run *)

(** What a run does to the outside, in order.
    - [ESleep s]: a call of [time.sleep] that slept [s] seconds;
    - [EGet url timeout]: one call of [Session.get(url, timeout=timeout)],
      whatever it gave.  It is a call, not a request on the wire: the
      library follows redirects inside the call and may send several
      requests for it;
    - [EWrite path data]: the file [path] was opened for writing, which
      creates it or empties it, and [data] was written to it;
    - [ETruncate path]: the file [path] was opened for writing, which
      creates it or empties it, and the write failed: the file is left
      empty or with a part of the data. *)
Inductive Event : Type :=
| ESleep (seconds : Q)
| EGet (target_url : string) (timeout : Z)
| EWrite (file_path : string) (data : string)
| ETruncate (file_path : string).

Definition Trace : Type := list Event.

(** The outside of the program.  Each answer may depend on everything the
    run did so far.
    - [session_get]: [requests.Session.get(url, timeout=...)], a response
      or an exception;
    - [system_sleep]: what becomes of a sleep of so many seconds once
      [time.sleep] has accepted its argument, [None] when it sleeps.  A
      length near the end of the range of the clock is refused: with an
      [OSError] where the deadline cannot be represented, and at the very
      end, where the conversion to an integer overflows, with what the
      platform makes of that;
    - [recursion_room]: how many times a call of [_perform_request] entered
      now can call itself before the interpreter's recursion limit is
      reached (about 990 with the default limit of 1000);
    - [datetime_now]: the clock;
    - [open_file]: [open(path, "wb")], [None] when the file is opened;
    - [write_file]: [write(data)] on the file opened and its closing,
      [None] when they succeed;
    - [check_bracketed_netloc]: see [UrlParse]. *)
Record Env : Type := mkEnv {
  session_get : Trace -> string -> Z -> Result Response;
  system_sleep : Trace -> Q -> option Exn;
  recursion_room : Trace -> nat;
  datetime_now : Trace -> DateTime;
  open_file : Trace -> string -> option Exn;
  write_file : Trace -> string -> string -> option Exn;
  check_bracketed_netloc : string -> option string }.

(** A computation: from the trace so far to its outcome and the trace
    after it. *)
Definition M (A : Type) : Type := Trace -> Result A * Trace.

Definition ret {A} (a : A) : M A := fun t => (Return a, t).

Definition raise {A} (e : Exn) : M A := fun t => (Raise e, t).

Definition bind {A B} (m : M A) (k : A -> M B) : M B :=
  fun t =>
    match m t with
    | (Return a, t') => k a t'
    | (Raise e, t') => (Raise e, t')
    end.

(** [try: body  except <classes> as e: handler e]; an exception of another
    class passes through. *)
Definition try_except {A} (body : M A) (catches : Exn -> bool) (handler : Exn -> M A) : M A :=
  fun t =>
    match body t with
    | (Return a, t') => (Return a, t')
    | (Raise e, t') => if catches e then handler e t' else (Raise e, t')
    end.

(** A pure call that may raise. *)
Definition lift {A} (r : Result A) : M A := fun t => (r, t).

Declare Scope fetch_scope.
Delimit Scope fetch_scope with fetch.
Notation "x <- m ;; k" := (bind m (fun x => k))
  (at level 61, m at next level, right associativity) : fetch_scope.
Notation "m ;;; k" := (bind m (fun _ => k))
  (at level 61, right associativity) : fetch_scope.

(** [except Exception]. *)
Definition any_Exception (_ : Exn) : bool := true.

(** [except <class>]. *)
Definition of_class (c : ExnClass) (e : Exn) : bool := ExnClass_eqb (exn_class e) c.

(** The argument of [time.sleep]: an [int] or a [float]. *)
Inductive Seconds : Type :=
| IntSeconds (n : Z)
| FloatSeconds (x : PyFloat).

Definition length_of (s : Seconds) : Q :=
  match s with
  | IntSeconds n => inject_Z n
  | FloatSeconds x => seconds x
  end.

Definition timestamp_too_large : Exn :=
  mkExn OverflowError "timestamp too large to convert to C _PyTime_t".

Definition negative_sleep_length : Exn :=
  mkExn ValueError "sleep length must be non-negative".

(** What [time.sleep] raises on its argument before it sleeps.  The length
    is converted to nanoseconds in a signed integer of 64 bits: an [int]
    must fit after the multiplication by [10^9]; a [float] is multiplied
    as a double, so that the product is rounded to the nearest double
    before it is compared with [-2^63] and [2^63] (the next double beyond
    each of them is 2048 away: a product up to 1024 beyond is rounded
    back), and a NaN is refused by name.  A negative length is refused
    after the conversion. *)
Definition sleep_argument_error (s : Seconds) : option Exn :=
  match s with
  | IntSeconds n =>
      if ((-9223372036 <=? n) && (n <=? 9223372036))%Z
      then if (n <? 0)%Z then Some negative_sleep_length else None
      else Some timestamp_too_large
  | FloatSeconds NaN => Some (mkExn ValueError "Invalid value NaN (not a number)")
  | FloatSeconds (Infinity _) => Some timestamp_too_large
  | FloatSeconds (Finite x) =>
      let nanoseconds := (x * inject_Z (10 ^ 9))%Q in
      if Qle_bool (inject_Z (- 2 ^ 63 - 1024)) nanoseconds
         && Qle_bool nanoseconds (inject_Z (2 ^ 63 + 1024))
      then if Qle_bool 0 x then None else Some negative_sleep_length
      else Some timestamp_too_large
  end.

(** What [time.sleep(length)] raises, if anything: the argument is
    checked, then the system is asked to sleep. *)
Definition sleep_refusal (env : Env) (length : Seconds) (t : Trace) : option Exn :=
  match sleep_argument_error length with
  | Some e => Some e
  | None => system_sleep env t (length_of length)
  end.

(** [time.sleep(length)]. *)
Definition time_sleep (env : Env) (length : Seconds) : M unit :=
  fun t =>
    match sleep_refusal env length t with
    | Some e => (Raise e, t)
    | None => (Return tt, t ++ [ESleep (length_of length)])
    end.

(** [response.raise_for_status()]. *)
Definition raise_for_status (r : Response) : Result unit :=
  let describe kind :=
    PyStr.str_of_Z (status_code r) +++ kind +++ reason r +++ " for url: " +++ url r in
  if ((400 <=? status_code r) && (status_code r <? 500))%Z
  then Raise (mkExn RequestException (describe " Client Error: "))
  else if ((500 <=? status_code r) && (status_code r <? 600))%Z
  then Raise (mkExn RequestException (describe " Server Error: "))
  else Return tt.

(* ------------------------------------------------------------------ *)
(** ** [NCBusinessDocumentFetcher] *)

Section Fetcher.

Variable env : Env.
Variable _config : ScraperConfiguration.

Local Open Scope fetch_scope.

Definition urljoin (base reference : string) : Result string :=
  UrlParse.urljoin (check_bracketed_netloc env) base reference.

(** [self._http_session.get(target_url, timeout=self._config.connection_timeout)]. *)
Definition http_get (target_url : string) : M Response :=
  fun t =>
    (session_get env t target_url (connection_timeout _config),
     t ++ [EGet target_url (connection_timeout _config)]).

(** [self._storage_path]. *)
Definition _storage_path : PathLib.Path := PathLib.of_str (storage_directory _config).

(** [datetime.now()]. *)
Definition now : M DateTime := fun t => (Return (datetime_now env t), t).

(** [with open(file_path, "wb") as pdf_file: pdf_file.write(data)].  When
    the file cannot be opened nothing has happened to it; when it is opened
    and the write fails, it is left created or emptied. *)
Definition write_bytes (file_path data : string) : M unit :=
  fun t =>
    match open_file env t file_path with
    | Some e => (Raise e, t)
    | None =>
        match write_file env t file_path data with
        | Some e => (Raise e, t ++ [ETruncate file_path])
        | None => (Return tt, t ++ [EWrite file_path data])
        end
    end.

(** What the interpreter raises when a call finds the recursion limit
    reached. *)
Definition recursion_limit_reached : Exn :=
  mkExn RecursionError "maximum recursion depth exceeded while calling a Python object".

(** [_perform_request] with [room] calls of itself left before the
    recursion limit.  The function calls itself from its handler, one
    frame deeper for each retry.  The handler first logs a warning, which
    takes more frames than the call and the sleep after it: when there is
    no room left it is there that the [RecursionError] is raised, after
    the failed attempt and before the backoff.  It is raised inside the
    handler and is no [RequestException]: it leaves the call. *)
Fixpoint perform_request_rec (room : nat) (target_url : string) (retry_count : Z)
  : M Response :=
  try_except
    (time_sleep env (FloatSeconds (request_delay_seconds _config)) ;;;
     response <- http_get target_url ;;
     lift (raise_for_status response) ;;;
     ret response)
    (of_class RequestException)
    (fun req_error =>
       if (retry_count <? max_retry_attempts _config)%Z then
         let wait_duration := ((retry_count + 1) * 2)%Z in
         match room with
         | O => raise recursion_limit_reached
         | S room' =>
             time_sleep env (IntSeconds wait_duration) ;;;
             perform_request_rec room' target_url (retry_count + 1)
         end
       else
         raise (mkExn SearchOperationError
                  ("Request failed after retries: " +++ exn_str req_error))).

(** [_perform_request(target_url, retry_count)]. *)
Definition _perform_request (target_url : string) (retry_count : Z) : M Response :=
  fun t => perform_request_rec (recursion_room env t) target_url retry_count t.

(** [cells[i].get_text(strip=True) if len(cells) > i else ""]. *)
Definition cell_text (cells : list Soup.Node) (i : nat) : string :=
  match nth_error cells i with
  | Some cell => Soup.get_text_strip cell
  | None => ""
  end.

(** The body of the loop of [_extract_business_records] for one row. *)
Definition extract_row (business_list : list BusinessRecord) (row : Soup.Node)
  : Result (list BusinessRecord) :=
  let cells := Soup.find_all "td" row in
  if (3 <=? List.length cells)%nat then
    match nth_error cells 0 with
    | None => Raise (mkExn OtherException "list index out of range")
    | Some name_cell =>
        match Soup.find "a" name_cell with
        | Some link_element =>
            match urljoin (target_base_url _config) (Soup.get "href" "" link_element) with
            | Raise e => Raise e
            | Return link =>
                let record :=
                  new_BusinessRecord
                    (Soup.get_text_strip link_element)
                    (cell_text cells 1)
                    (cell_text cells 2)
                    (cell_text cells 3)
                    link in
                Return (business_list ++ [record])
            end
        | None => Return business_list
        end
    end
  else Return business_list.

(** A [for] loop whose body may raise, on a list built up on the way. *)
Fixpoint for_each {A B} (body : B -> A -> Result B) (items : list A) (acc : B) : Result B :=
  match items with
  | [] => Return acc
  | x :: rest =>
      match body acc x with
      | Raise e => Raise e
      | Return acc' => for_each body rest acc'
      end
  end.

(** The results table: by class, or else by id. *)
Definition locate_result_table (parsed_html : Soup.Node) : option Soup.Node :=
  match Soup.find_matching "table" "class" "result" parsed_html with
  | Some result_table => Some result_table
  | None => Soup.find_matching "table" "id" "search" parsed_html
  end.

Definition _extract_business_records (html_content : Soup.Node)
  : Result (list BusinessRecord) :=
  match locate_result_table html_content with
  | None => Return []
  | Some result_table =>
      let table_rows := Soup.find_all "tr" result_table in
      for_each extract_row (tl table_rows) []
  end.

(** [search_businesses(query_term)].  The two lines that form the URL come
    before the [try]: what [urljoin] raises leaves the function as it is.
    [urlencode] returns on every string of this model; on a term with a
    code point that UTF-8 cannot encode (a lone surrogate, above U+00FF) it
    raises a [UnicodeEncodeError] at the same place. *)
Definition search_businesses (query_term : string) : M (list BusinessRecord) :=
  search_url <- lift (urljoin (target_base_url _config) (search_endpoint _config)) ;;
  let full_search_url := search_url +++ "?" +++ UrlParse.urlencode1 "Words" query_term in
  try_except
    (response <- _perform_request full_search_url 0 ;;
     lift (_extract_business_records (text response)))
    any_Exception
    (fun err => raise (mkExn SearchOperationError ("Unable to search: " +++ exn_str err))).

(** [full_url not in pdf_urls]. *)
Definition not_in (x : string) (l : list string) : bool :=
  negb (existsb (String.eqb x) l).

(** The body of the loop of [_locate_pdf_links] for one link. *)
Definition locate_link (pdf_urls : list string) (link : Soup.Node) : Result (list string) :=
  let href := Soup.get "href" "" link in
  if PyStr.endswith ".pdf" (PyStr.lower href) then
    match urljoin (target_base_url _config) href with
    | Raise e => Raise e
    | Return full_url =>
        if not_in full_url pdf_urls then Return (pdf_urls ++ [full_url])
        else Return pdf_urls
    end
  else Return pdf_urls.

Definition _locate_pdf_links (html_content : Soup.Node) : Result (list string) :=
  let all_links := Soup.find_all_with "a" "href" html_content in
  for_each locate_link all_links [].

(** [re.sub(r'[^\w\s-]', '', s)]: what the pattern keeps. *)
Definition re_word (c : ascii) : bool :=
  PyStr.between 48 57 c || PyStr.between 65 90 c || PyStr.code_is 95 c
  || PyStr.between 97 122 c || PyStr.code_is 170 c || PyStr.between 178 179 c
  || PyStr.code_is 181 c || PyStr.between 185 186 c || PyStr.between 188 190 c
  || PyStr.between 192 214 c || PyStr.between 216 246 c || PyStr.between 248 255 c.

Definition safe_char (c : ascii) : bool :=
  re_word c || PyStr.isspace c || PyStr.code_is 45 c.

Definition safe_name_of (business_name : string) : string :=
  PyStr.take FILENAME_MAX_LENGTH (PyStr.sfilter safe_char business_name).

Definition url_hash_of (pdf_url : string) : string :=
  PyStr.take 8 (MD5.hexdigest (PyStr.encode pdf_url)).

(** [f"{safe_name}_{url_hash}_{timestamp}.pdf"]. *)
Definition filename_of (business_name pdf_url : string) (dt : DateTime) : string :=
  safe_name_of business_name +++ "_" +++ url_hash_of pdf_url +++ "_"
  +++ strftime dt +++ ".pdf".

(** [_download_pdf_file(pdf_url, business_name)]. *)
Definition _download_pdf_file (pdf_url business_name : string) : M string :=
  try_except
    (response <- _perform_request pdf_url 0 ;;
     dt <- now ;;
     let filename := filename_of business_name pdf_url dt in
     let file_path := PathLib.joinpath _storage_path (PathLib.of_str filename) in
     write_bytes (PathLib.to_str file_path) (content response) ;;;
     ret (PathLib.to_str file_path))
    any_Exception
    (fun err => raise (mkExn DocumentRetrievalError ("PDF download failed: " +++ exn_str err))).

(** The loop of [fetch_business_documents] over the links found. *)
Fixpoint download_all (business_name : string) (pdf_links downloaded_paths : list string)
  : M (list string) :=
  match pdf_links with
  | [] => ret downloaded_paths
  | pdf_url :: rest =>
      paths <- try_except
                 (saved_path <- _download_pdf_file pdf_url business_name ;;
                  ret (downloaded_paths ++ [saved_path]))
                 (of_class DocumentRetrievalError)
                 (fun doc_err => ret downloaded_paths) ;;
      download_all business_name rest paths
  end.

(** [fetch_business_documents(business)].  No statement of it assigns to the
    record, which is therefore passed by value. *)
Definition fetch_business_documents (business : BusinessRecord) : M (list string) :=
  try_except
    (response <- _perform_request (detail_link business) 0 ;;
     pdf_links <- lift (_locate_pdf_links (text response)) ;;
     download_all (entity_name business) pdf_links [])
    any_Exception
    (fun err => ret []).

(** [except SearchOperationError as search_err] of
    [process_search_and_download], on the dictionary as it is when the
    exception arrives. *)
Definition on_search_error (results_summary : Summary) (e : Exn) (t : Trace)
  : Result Summary * Trace :=
  if of_class SearchOperationError e
  then (Return {| search_query := search_query results_summary;
                  businesses_found := businesses_found results_summary;
                  documents_downloaded := documents_downloaded results_summary;
                  downloaded_files := downloaded_files results_summary;
                  errors := errors results_summary ++ [exn_str e] |}, t)
  else (Raise e, t).

(** The loop of [process_search_and_download] over the businesses. *)
Fixpoint process_businesses (businesses : list BusinessRecord) (results_summary : Summary)
  : M Summary :=
  fun t =>
    match businesses with
    | [] => (Return results_summary, t)
    | business :: rest =>
        match fetch_business_documents business t with
        | (Raise e, t') => on_search_error results_summary e t'
        | (Return doc_paths, t') =>
            process_businesses rest
              {| search_query := search_query results_summary;
                 businesses_found := businesses_found results_summary;
                 documents_downloaded :=
                   documents_downloaded results_summary + List.length doc_paths;
                 downloaded_files := downloaded_files results_summary ++ doc_paths;
                 errors := errors results_summary |} t'
        end
    end.

(** [process_search_and_download(search_query)]. *)
Definition process_search_and_download (query : string) : M Summary :=
  fun t =>
    let results_summary :=
      {| search_query := query; businesses_found := 0; documents_downloaded := 0;
         downloaded_files := []; errors := [] |} in
    match search_businesses query t with
    | (Raise e, t') => on_search_error results_summary e t'
    | (Return businesses, t') =>
        process_businesses businesses
          {| search_query := search_query results_summary;
             businesses_found := List.length businesses;
             documents_downloaded := documents_downloaded results_summary;
             downloaded_files := downloaded_files results_summary;
             errors := errors results_summary |} t'
    end.

End Fetcher.

(* ------------------------------------------------------------------ *)
(** ** The records as objects

    A [BusinessRecord] is an object with attributes that can be assigned
    (a [@dataclass] that is not frozen), and the list a search returns, the
    loop of the pipeline and [fetch_business_documents] hold references to
    the records.  To say what a call does to a record, the records are kept
    in a store, by address, and the functions that are handed a record are
    given again on addresses, with the store they leave. *)

Section Objects.

Variable env : Env.
Variable _config : ScraperConfiguration.

Local Open Scope fetch_scope.

Definition Address : Type := nat.

(** The attributes of the record objects, by address. *)
Definition Store : Type := list BusinessRecord.

(** [business.<attribute>], read. *)
Definition getattr {A} (attribute : BusinessRecord -> A) (business : Address) (store : Store)
  : Result A :=
  match nth_error store business with
  | Some fields => Return (attribute fields)
  | None => Raise (mkExn OtherException "no record at this address")
  end.

(** The records a search returns are the objects the extractor has built
    with [BusinessRecord(...)]: new objects, behind those of the store. *)
Definition allocate (store : Store) (records : list BusinessRecord) : Store * list Address :=
  (store ++ records, seq (List.length store) (List.length records)).

(** The outcome of a call that leaves the store [store]. *)
Definition with_store {A} (store : Store) (outcome : Result A * Trace)
  : Result (A * Store) * Trace :=
  match outcome with
  | (Return a, t) => (Return (a, store), t)
  | (Raise e, t) => (Raise e, t)
  end.

(** The loop of [fetch_business_documents] on an address: the name is read
    from the record for each link. *)
Fixpoint download_all_at (business : Address) (store : Store)
         (pdf_links downloaded_paths : list string) : M (list string) :=
  match pdf_links with
  | [] => ret downloaded_paths
  | pdf_url :: rest =>
      paths <- try_except
                 (business_name <- lift (getattr entity_name business store) ;;
                  saved_path <- _download_pdf_file env _config pdf_url business_name ;;
                  ret (downloaded_paths ++ [saved_path]))
                 (of_class DocumentRetrievalError)
                 (fun doc_err => ret downloaded_paths) ;;
      download_all_at business store rest paths
  end.

(** [fetch_business_documents(business)] on an address.  The body reads
    [business.detail_link] and [business.entity_name]; it has no statement
    that assigns to an attribute, and it hands the record to no other
    function: the store it leaves is the store it was given. *)
Definition fetch_business_documents_at (business : Address) (store : Store)
  : M (list string * Store) :=
  try_except
    (link <- lift (getattr detail_link business store) ;;
     response <- _perform_request env _config link 0 ;;
     pdf_links <- lift (_locate_pdf_links env _config (text response)) ;;
     downloaded_paths <- download_all_at business store pdf_links [] ;;
     ret (downloaded_paths, store))
    any_Exception
    (fun err => ret ([], store)).

(** The loop of [process_search_and_download] on addresses. *)
Fixpoint process_businesses_at (businesses : list Address) (results_summary : Summary)
         (store : Store) : M (Summary * Store) :=
  fun t =>
    match businesses with
    | [] => (Return (results_summary, store), t)
    | business :: rest =>
        match fetch_business_documents_at business store t with
        | (Raise e, t') =>
            match on_search_error results_summary e t' with
            | (Return s, t'') => (Return (s, store), t'')
            | (Raise e', t'') => (Raise e', t'')
            end
        | (Return (doc_paths, store'), t') =>
            process_businesses_at rest
              {| search_query := search_query results_summary;
                 businesses_found := businesses_found results_summary;
                 documents_downloaded :=
                   documents_downloaded results_summary + List.length doc_paths;
                 downloaded_files := downloaded_files results_summary ++ doc_paths;
                 errors := errors results_summary |} store' t'
        end
    end.

(** [process_search_and_download(search_query)] with the store of the
    records: the outcome, and the store after the run. *)
Definition process_search_and_download_at (query : string) (store : Store)
  : M (Summary * Store) :=
  fun t =>
    let results_summary :=
      {| search_query := query; businesses_found := 0; documents_downloaded := 0;
         downloaded_files := []; errors := [] |} in
    match search_businesses env _config query t with
    | (Raise e, t') =>
        match on_search_error results_summary e t' with
        | (Return s, t'') => (Return (s, store), t'')
        | (Raise e', t'') => (Raise e', t'')
        end
    | (Return records, t') =>
        let '(store', businesses) := allocate store records in
        process_businesses_at businesses
          {| search_query := search_query results_summary;
             businesses_found := List.length businesses;
             documents_downloaded := documents_downloaded results_summary;
             downloaded_files := downloaded_files results_summary;
             errors := errors results_summary |} store' t'
    end.

(** The records the search of a run returns, none when it raises. *)
Definition records_found (query : string) (t : Trace) : list BusinessRecord :=
  match fst (search_businesses env _config query t) with
  | Return records => records
  | Raise _ => []
  end.

End Objects.

(* ------------------------------------------------------------------ *)
(** ** The command line: [main] *)

Module Cli.

(** The parsed arguments ([argparse.Namespace]). *)
Record Namespace : Type := mkNamespace {
  business_query : string;
  output : string;
  delay : PyFloat;
  verbose : bool }.

(** [ScraperConfiguration(storage_directory=args.output,
    request_delay_seconds=args.delay)]. *)
Definition configuration_of (args : Namespace) : ScraperConfiguration :=
  {| target_base_url := target_base_url default_configuration;
     search_endpoint := search_endpoint default_configuration;
     storage_directory := output args;
     request_delay_seconds := delay args;
     connection_timeout := connection_timeout default_configuration;
     max_retry_attempts := max_retry_attempts default_configuration;
     http_user_agent := http_user_agent default_configuration |}.

Definition newline : string := String (PyStr.chr 10) EmptyString.

(** ["=" * 60]. *)
Definition rule : string :=
  "============================================================".

(** [str(n)] for a count. *)
Definition str_of_nat (n : nat) : string := PyStr.str_of_N (N.of_nat n).

(** What [main] prints, one string for each call of [print]. *)
Definition printed (results : Summary) : list string :=
  [newline +++ rule;
   "DOCUMENT FETCH RESULTS";
   rule;
   "Search Query:        " +++ search_query results;
   "Businesses Found:    " +++ str_of_nat (businesses_found results);
   "Documents Downloaded: " +++ str_of_nat (documents_downloaded results)]
  ++ match downloaded_files results with
     | [] => []
     | files => (newline +++ "Downloaded Files:")
                :: map (fun file_path => "  - " +++ file_path) files
     end
  ++ match errors results with
     | [] => []
     | errs => (newline +++ "Errors Encountered:")
               :: map (fun error => "  ! " +++ error) errs
     end
  ++ [rule].

(** [0 if not results['errors'] else 1]. *)
Definition exit_status (results : Summary) : Z :=
  match errors results with
  | [] => 0%Z
  | _ => 1%Z
  end.

(** When the user interrupts [main] inside its [try].  The
    [KeyboardInterrupt] arrives
    - while the run is at work: [completed] of the operations the run would
      do to the outside are done, and the next one is [under_way] or has
      not begun; or
    - while the report is printed, after [lines] calls of [print]. *)
Inductive Interrupt : Type :=
| DuringRun (completed : nat) (under_way : bool)
| DuringReport (lines : nat).

(** What an operation has done to the outside when it is cut short: a
    sleep has not lasted, a call of [Session.get] has been made, a file
    has been opened and is left as it was then. *)
Definition cut_short (ev : Event) : list Event :=
  match ev with
  | ESleep _ => []
  | EGet target_url timeout => [EGet target_url timeout]
  | EWrite file_path _ => [ETruncate file_path]
  | ETruncate file_path => [ETruncate file_path]
  end.

(** [print("\nOperation cancelled by user")]. *)
Definition cancelled : string := newline +++ "Operation cancelled by user".

(** The statements of the [try] after the run: the report and the status,
    or the handler of the interrupt when it arrives after [lines] calls of
    [print]. *)
Definition report (results : Summary) (interrupt : option nat) : list string * Z :=
  match interrupt with
  | Some lines =>
      if (lines <? List.length (printed results))%nat
      then (firstn lines (printed results) ++ [cancelled], 130%Z)
      else (printed results, exit_status results)
  | None => (printed results, exit_status results)
  end.

(** [main()] after the arguments are parsed: what it prints and the status
    it returns.  [ensure_storage] is what creating the storage directory in
    the constructor of the fetcher does, [None] when it succeeds; it happens
    before the [try].  No handler between [main] and the operation that is
    interrupted catches a [KeyboardInterrupt]: the run ends where it is, and
    [main] prints the message and returns 130.  An interrupt that comes
    after the run is over is met while the report is printed, or not at
    all.  Any exception of the run passes through [main].  Closing the
    session in the [finally] and the level of the logger leave nothing in
    the model, and [print] is taken not to fail; the line under way when an
    interrupt arrives is taken as not printed. *)
Definition main (ensure_storage : option Exn) (interrupt : option Interrupt)
           (env : Env) (args : Namespace) : M (list string * Z) :=
  match ensure_storage with
  | Some e => raise e
  | None =>
      fun t =>
        let '(outcome, t') :=
          process_search_and_download env (configuration_of args) (business_query args) t in
        let events := skipn (List.length t) t' in
        let after_run (lines : option nat) :=
          match outcome with
          | Raise e => (Raise e, t')
          | Return results => (Return (report results lines), t')
          end in
        match interrupt with
        | None => after_run None
        | Some (DuringReport lines) => after_run (Some lines)
        | Some (DuringRun completed under_way) =>
            match nth_error events completed with
            | Some ev =>
                (Return ([cancelled], 130%Z),
                 t ++ firstn completed events ++ (if under_way then cut_short ev else []))
            | None => after_run (Some 0)
            end
        end
  end.

End Cli.

(* ------------------------------------------------------------------ *)
(** ** Notions used in the statements *)

Section Notions.

Variable env : Env.
Variable _config : ScraperConfiguration.

(** The events of one attempt on a URL: the fixed delay, then the call
    of [Session.get]. *)
Definition attempt_events (target_url : string) : Trace :=
  [ESleep (seconds (request_delay_seconds _config));
   EGet target_url (connection_timeout _config)].

(** The events of retry number [j] (1 for the first retry): the backoff of
    [j * 2] seconds, then an attempt. *)
Definition retry_events (target_url : string) (j : Z) : Trace :=
  ESleep (inject_Z (j * 2)) :: attempt_events target_url.

(** The events of an attempt followed by [k] retries, the first of them
    being retry number [retry_count + 1]. *)
Definition events_from (target_url : string) (retry_count : Z) (k : nat) : Trace :=
  attempt_events target_url
  ++ flat_map (fun j => retry_events target_url (retry_count + Z.of_nat j)) (seq 1 k).

(** The events of a first attempt followed by [k] retries. *)
Definition request_events (target_url : string) (k : nat) : Trace :=
  events_from target_url 0 k.

(** The trace just before attempt number [j] of a call entered with trace
    [t] (attempt 0 is the first one, attempt [j] is retry number [j]). *)
Definition trace_before_from (target_url : string) (retry_count : Z) (t : Trace) (j : nat)
  : Trace :=
  match j with
  | O => t
  | S i => t ++ events_from target_url retry_count i
             ++ [ESleep (inject_Z ((retry_count + Z.of_nat j) * 2))]
  end.

Definition trace_before (target_url : string) (t : Trace) (j : nat) : Trace :=
  trace_before_from target_url 0 t j.

(** What an attempt made after trace [t] gives: the response, or what
    [get] or [raise_for_status] raises. *)
Definition attempt_outcome (target_url : string) (t : Trace) : Result Response :=
  match session_get env (t ++ [ESleep (seconds (request_delay_seconds _config))])
          target_url (connection_timeout _config) with
  | Raise e => Raise e
  | Return r =>
      match raise_for_status r with
      | Raise e => Raise e
      | Return _ => Return r
      end
  end.

(** The outcome is a recoverable failure: a [RequestException]. *)
Definition request_failure (o : Result Response) : bool :=
  match o with
  | Raise e => of_class RequestException e
  | Return _ => false
  end.

(** Attempts [0 .. k-1] of a call entered with trace [t] all fail with a
    [RequestException]. *)
Definition attempts_fail (target_url : string) (t : Trace) (k : nat) : Prop :=
  forall j, j < k ->
    request_failure (attempt_outcome target_url (trace_before target_url t j)) = true.

(** [time.sleep(length)] sleeps whenever it is called: the length is one
    that [time.sleep] takes, and the system carries the sleep out. *)
Definition always_sleeps (length : Seconds) : Prop :=
  forall t, time_sleep env length t = (Return tt, t ++ [ESleep (length_of length)]).

(** The sleeps of a call of [_perform_request] that makes up to [k] retries
    are carried out: the fixed delay, and the backoffs of 2, 4, ... and
    [2 * k] seconds. *)
Definition sleeps_carried_out (k : Z) : Prop :=
  always_sleeps (FloatSeconds (request_delay_seconds _config))
  /\ forall j, (1 <= j <= k)%Z -> always_sleeps (IntSeconds (j * 2)).

(** The number of calls of [Session.get] in a trace. *)
Definition count_gets (t : Trace) : nat :=
  List.length (filter (fun ev => match ev with EGet _ _ => true | _ => false end) t).

(** The sleeps of a trace, in order. *)
Definition sleeps (t : Trace) : list Q :=
  flat_map (fun ev => match ev with ESleep s => [s] | _ => [] end) t.

(** Every call of [Session.get] of the trace comes right after a sleep of
    the fixed delay. *)
Definition delay_before_each_get (t : Trace) : Prop :=
  forall pre post u timeout,
    t = pre ++ EGet u timeout :: post ->
    exists pre', pre = pre' ++ [ESleep (seconds (request_delay_seconds _config))].

End Notions.

(** The paths [fetch_business_documents] returns for each business in
    turn, and the trace after the last of them. *)
Fixpoint fetch_each (env : Env) (_config : ScraperConfiguration)
         (businesses : list BusinessRecord) (t : Trace) : list (list string) * Trace :=
  match businesses with
  | [] => ([], t)
  | business :: rest =>
      match fetch_business_documents env _config business t with
      | (Return doc_paths, t1) =>
          let '(others, t2) := fetch_each env _config rest t1 in
          (doc_paths :: others, t2)
      | (Raise _, t1) => ([], t1)
      end
  end.

(** The URL [search_businesses] requests, given the resolved search page. *)
Definition full_search_url (search_url query_term : string) : string :=
  search_url +++ "?" +++ UrlParse.urlencode1 "Words" query_term.

(** The count of documents of an outcome, when there is one. *)
Definition documents_downloaded_of (r : Result Summary) : option nat :=
  match r with
  | Return s => Some (documents_downloaded s)
  | Raise _ => None
  end.

(** The paths of the files written in a trace, in order: the writes that
    were completed. *)
Definition written (t : Trace) : list string :=
  flat_map (fun ev => match ev with EWrite file_path _ => [file_path] | _ => [] end) t.

(** The paths of the files a trace left incomplete, in order: opened for
    writing, and the write failed. *)
Definition truncated (t : Trace) : list string :=
  flat_map (fun ev => match ev with ETruncate file_path => [file_path] | _ => [] end) t.

(** The URLs [Session.get] was called with in a trace, in order. *)
Definition requested (t : Trace) : list string :=
  flat_map (fun ev => match ev with EGet target_url _ => [target_url] | _ => [] end) t.

(** The events [evs] keep every call of [Session.get] right behind a sleep
    of the fixed delay, and the files they write are [files]. *)
Definition tidy (_config : ScraperConfiguration) (evs : Trace) (files : list string) : Prop :=
  delay_before_each_get _config evs /\ written evs = files.

(** What the events of a call of [_perform_request] are like: sleeps and
    calls of [Session.get] with its own URL, each call behind the fixed
    delay, at most one call more than the retries left and than the room
    of the recursion, and nothing done to a file. *)
Definition request_like (_config : ScraperConfiguration) (target_url : string)
           (bound : nat) (evs : Trace) : Prop :=
  tidy _config evs []
  /\ (forall u, In u (requested evs) -> u = target_url)
  /\ count_gets evs <= S bound
  /\ truncated evs = [].

(** The seconds slept in a trace, added up. *)
Definition total_sleep (t : Trace) : Q :=
  fold_right Qplus 0%Q (sleeps t).

(** A character [urlencode] leaves in a query: a letter or digit of ASCII,
    one of [_.-~], the plus that stands for a space, or the percent sign of
    an escape. *)
Definition query_safe (c : ascii) : bool :=
  PyStr.between 65 90 c || PyStr.between 97 122 c || PyStr.between 48 57 c
  || PyStr.code_is 95 c || PyStr.code_is 46 c || PyStr.code_is 45 c
  || PyStr.code_is 126 c || PyStr.code_is 43 c || PyStr.code_is 37 c.

(** The sum of a list of rationals. *)
Definition qsum (l : list Q) : Q := fold_right Qplus 0%Q l.

(** [urljoin] on each reference in turn, up to the first that raises. *)
Fixpoint resolve_all (resolve : string -> Result string) (refs : list string)
  : Result (list string) :=
  match refs with
  | [] => Return []
  | r :: rest =>
      match resolve r with
      | Raise e => Raise e
      | Return u =>
          match resolve_all resolve rest with
          | Raise e => Raise e
          | Return us => Return (u :: us)
          end
      end
  end.

(** The elements of a list in the order of their first occurrence: the head
    stays, and what equals it is dropped from the rest. *)
Fixpoint first_seen (l : list string) : list string :=
  match l with
  | [] => []
  | u :: rest => u :: filter (fun v => negb (String.eqb v u)) (first_seen rest)
  end.

(** What the loop of [_locate_pdf_links] does with a resolved URL. *)
Definition add_unseen (pdf_urls : list string) (full_url : string) : list string :=
  if not_in full_url pdf_urls then pdf_urls ++ [full_url] else pdf_urls.

(** The link a row gives its record: the first anchor of the first cell of
    a row of at least three cells. *)
Definition row_link (row : Soup.Node) : option Soup.Node :=
  match Soup.find_all "td" row with
  | name_cell :: _ :: _ :: _ => Soup.find "a" name_cell
  | _ => None
  end.

(** The record of a row with a link that resolves to [link]. *)
Definition record_of_row (row link_element : Soup.Node) (link : string) : BusinessRecord :=
  let cells := Soup.find_all "td" row in
  new_BusinessRecord (Soup.get_text_strip link_element)
    (cell_text cells 1) (cell_text cells 2) (cell_text cells 3) link.

Definition has_row_link (row : Soup.Node) : bool :=
  match row_link row with Some _ => true | None => false end.

(** The targets of the hyperlinks of a page that end in [.pdf], whatever the
    case of the letters. *)
Definition pdf_hrefs (html_content : Soup.Node) : list string :=
  filter (fun href => PyStr.endswith ".pdf" (PyStr.lower href))
    (map (Soup.get "href" "") (Soup.find_all_with "a" "href" html_content)).

(** A table that [_extract_business_records] takes for the results. *)
Definition results_like (d : Soup.Node) : bool :=
  Soup.is_tag "table" d
  && (Soup.attr_matches "class" "result" d || Soup.attr_matches "id" "search" d).

(** A letter, a digit, whitespace or a hyphen. *)
Definition letter_digit_space_hyphen (c : ascii) : bool :=
  PyStr.isalpha c || PyStr.isnumeric c || PyStr.isspace c || PyStr.code_is 45 c.

Definition is_underscore (c : ascii) : bool := PyStr.code_is 95 c.

Definition is_decimal (c : ascii) : bool := PyStr.between 48 57 c.

(** A lower-case hexadecimal digit. *)
Definition is_hex (c : ascii) : bool := PyStr.between 48 57 c || PyStr.between 97 102 c.

(** A string of [n] decimal digits. *)
Definition digits_exactly (n : nat) (s : string) : bool :=
  Nat.eqb (String.length s) n && PyStr.sforall is_decimal s.

(** [YYYYMMDD_HHMMSS]. *)
Definition timestamp_shaped (s : string) : bool :=
  Nat.eqb (String.length s) 15
  && PyStr.sforall is_decimal (PyStr.take 8 s)
  && String.eqb (PyStr.take 1 (PyStr.drop 8 s)) "_"
  && PyStr.sforall is_decimal (PyStr.drop 9 s).

(** The values [datetime.now()] takes from the year 1000 on, where [%Y]
    gives four digits on every platform. *)
Definition wf_datetime (dt : DateTime) : Prop :=
  (1000 <= year dt <= 9999 /\ 1 <= month dt <= 12 /\ 1 <= day dt <= 31
   /\ hour dt <= 23 /\ minute dt <= 59 /\ second dt <= 59)%N.

(** The length of [_<8 hex>_<YYYYMMDD_HHMMSS>.pdf]. *)
Definition FILENAME_SUFFIX_LENGTH : nat := 1 + 8 + 1 + 15 + 4.

(** The path component of a link target ([urlsplit(href).path]). *)
Definition target_path (chk : string -> option string) (href : string) : option string :=
  match UrlParse.urlsplit chk href "" with
  | Return r => Some (UrlParse.s_path r)
  | Raise _ => None
  end.

(* ------------------------------------------------------------------ *)
(** ** Example inputs *)

Module Examples.

Import Soup.

Definition td (s : string) : Node := Tag "td" [] [NavigableString s].

Definition a_href (href label : string) : Node :=
  Tag "a" [("href", href)] [NavigableString label].

Definition document (body : list Node) : Node :=
  Tag "[document]" [] [Tag "html" [] [Tag "body" [] body]].

Definition header_row : Node :=
  Tag "tr" [] [Tag "th" [] [NavigableString "Name"]].

Definition results_table (rows : list Node) : Node :=
  Tag "table" [("class", "resultsTable")] (header_row :: rows).

(** A row of four cells: the name with its link, the identifier, the
    status and the date. *)
Definition acme_row : Node :=
  Tag "tr" []
    [Tag "td" [] [a_href "/biz/1" "Acme LLC"];
     td "12345678"; td "Active"; td "2020-06-15"].

Definition search_page : Node := document [results_table [acme_row]].

Definition acme_record : BusinessRecord :=
  new_BusinessRecord "Acme LLC" "12345678" "Active" "2020-06-15"
    "https://www.sosnc.gov/biz/1".

(** The links [/d/a.pdf], [/d/B.PDF], [/d/a.pdf] and a page that is not a
    document. *)
Definition detail_page : Node :=
  document [a_href "/d/a.pdf" "Articles"; a_href "/d/B.PDF" "Report";
            a_href "/d/a.pdf" "Articles again"; a_href "/other/page.html" "About"].

(** A row whose link cannot be resolved. *)
Definition bracket_row : Node :=
  Tag "tr" [] [Tag "td" [] [a_href "//[" "Broken"]; td "1"; td "Active"].

(** A row whose anchor has no [href]. *)
Definition anchor_row : Node :=
  Tag "tr" []
    [Tag "td" [] [Tag "a" [("name", "top")] [NavigableString "No Link Inc"]];
     td "7"; td "Active"].

(** Two documents whose URLs have MD5 digests that start with the same
    eight hexadecimal digits. *)
Definition twin_url_1 : string := "https://www.sosnc.gov/d/138937.pdf".
Definition twin_url_2 : string := "https://www.sosnc.gov/d/158467.pdf".

Definition twins_page : Node :=
  document [a_href "/d/138937.pdf" "First"; a_href "/d/158467.pdf" "Second"].

Definition ok_response (page : Node) (body : string) : Response :=
  {| status_code := 200; reason := "OK"; url := ""; text := page; content := body |}.

Definition noon : DateTime :=
  {| year := 2024; month := 3; day := 9; hour := 12; minute := 0; second := 5 |}.

Definition search_url : string :=
  "https://www.sosnc.gov/online_services/search/by_title/_Business_Registration?Words=Acme".

Definition timeout_error : Exn := mkExn RequestException "Read timed out.".

(** A site that serves the search page, one detail page and any document. *)
Definition site (detail : Node) (target_url : string) : Result Response :=
  if String.eqb target_url search_url then Return (ok_response search_page "")
  else if String.eqb target_url "https://www.sosnc.gov/biz/1"
       then Return (ok_response detail "")
       else Return (ok_response (document []) "%PDF-1.4").

(** Everything works. *)
Definition env_up (detail : Node) : Env :=
  {| session_get := fun _ target_url _ => site detail target_url;
     datetime_now := fun _ => noon;
     system_sleep := fun _ _ => None;
     recursion_room := fun _ => 985;
     open_file := fun _ _ => None;
     write_file := fun _ _ _ => None;
     check_bracketed_netloc := fun _ => None |}.

(** Every request times out. *)
Definition env_down : Env :=
  {| session_get := fun _ _ _ => Raise timeout_error;
     datetime_now := fun _ => noon;
     system_sleep := fun _ _ => None;
     recursion_room := fun _ => 985;
     open_file := fun _ _ => None;
     write_file := fun _ _ _ => None;
     check_bracketed_netloc := fun _ => None |}.

(** The search works, every other request times out. *)
Definition env_search_only : Env :=
  {| session_get := fun _ target_url _ =>
       if String.eqb target_url search_url then Return (ok_response search_page "")
       else Raise timeout_error;
     datetime_now := fun _ => noon;
     system_sleep := fun _ _ => None;
     recursion_room := fun _ => 985;
     open_file := fun _ _ => None;
     write_file := fun _ _ _ => None;
     check_bracketed_netloc := fun _ => None |}.


(** The outcome of a run on [env_up detail_page]. *)
Definition acme_outcome : Summary :=
  {| search_query := "Acme"; businesses_found := 1; documents_downloaded := 2;
     downloaded_files :=
       ["fetched_documents/Acme LLC_b4284ef3_20240309_120005.pdf";
        "fetched_documents/Acme LLC_18ac954c_20240309_120005.pdf"];
     errors := [] |}.

(** No request can be made: the certificate bundle is missing, which is an
    [OSError] and no [RequestException]. *)
Definition bundle_error : Exn :=
  mkExn OSError "Could not find a suitable TLS CA certificate bundle".

Definition env_no_bundle : Env :=
  {| session_get := fun _ _ _ => Raise bundle_error;
     datetime_now := fun _ => noon;
     system_sleep := fun _ _ => None;
     recursion_room := fun _ => 985;
     open_file := fun _ _ => None;
     write_file := fun _ _ _ => None;
     check_bracketed_netloc := fun _ => None |}.


(** Everything works but the disk: a file can be opened and not
    written. *)
Definition disk_full : Exn := mkExn OSError "[Errno 28] No space left on device".

Definition env_disk_full : Env :=
  {| session_get := fun _ target_url _ => site detail_page target_url;
     datetime_now := fun _ => noon;
     system_sleep := fun _ _ => None;
     recursion_room := fun _ => 985;
     open_file := fun _ _ => None;
     write_file := fun _ _ _ => Some disk_full;
     check_bracketed_netloc := fun _ => None |}.

(** A page where a table whose id matches [search] comes before the
    table whose class matches [result]. *)
Definition two_tables_page : Node :=
  document [Tag "table" [("id", "searchForm")] [header_row; anchor_row];
            results_table [acme_row]].

(** A row whose link has an image and no text. *)
Definition logo_row : Node :=
  Tag "tr" []
    [Tag "td" [] [Tag "a" [("href", "/biz/9")]
                    [Tag "img" [("src", "/logo.png")] []; NavigableString "  "]];
     td "9"; td "Active"].

End Examples.

(* ------------------------------------------------------------------ *)
(** ** The transport: [_perform_request] *)

Section Transport.

Variable env : Env.
Variable _config : ScraperConfiguration.

Local Abbreviation delay := (seconds (request_delay_seconds _config)).
Local Abbreviation max_retries := (max_retry_attempts _config).

Lemma app_assoc3 (a b c : Trace) : (a ++ b) ++ c = a ++ b ++ c.
Proof. now rewrite <- app_assoc. Qed.

(** [time.sleep] by what it refuses. *)
Lemma always_sleeps_iff (length : Seconds) :
  always_sleeps env length
  <-> sleep_argument_error length = None
      /\ forall t, system_sleep env t (length_of length) = None.
Proof.
  unfold always_sleeps, time_sleep, sleep_refusal. split.
  - intros H. destruct (sleep_argument_error length) as [e|].
    + specialize (H []). discriminate H.
    + split; [reflexivity|]. intros t. specialize (H t).
      destruct (system_sleep env t (length_of length)); [discriminate H | reflexivity].
  - intros [-> H] t. now rewrite H.
Qed.

(** The lengths [time.sleep] takes as they are, in numbers: a delay that
    is a finite float from 0 to 9223372036 seconds, and the backoffs of a
    retry limit up to 4611686018. *)
Lemma sleeps_carried_out_within (q : Q) (k : Z) :
  request_delay_seconds _config = Finite q ->
  (0 <= q)%Q -> (q <= 9223372036)%Q -> (k <= 4611686018)%Z ->
  (forall t s, system_sleep env t s = None) ->
  sleeps_carried_out env _config k.
Proof.
  intros Hq H0 Hmax Hk Hsys. split.
  - apply always_sleeps_iff. split; [|intros t; apply Hsys].
    rewrite Hq. cbn [sleep_argument_error].
    assert (Hlo : Qle_bool (inject_Z (- 2 ^ 63 - 1024)) (q * inject_Z (10 ^ 9)) = true).
    { apply Qle_bool_iff. apply Qle_trans with 0%Q; [discriminate|].
      apply Qmult_le_0_compat; [exact H0 | discriminate]. }
    assert (Hhi : Qle_bool (q * inject_Z (10 ^ 9)) (inject_Z (2 ^ 63 + 1024)) = true).
    { apply Qle_bool_iff.
      apply Qle_trans with (9223372036 * inject_Z (10 ^ 9))%Q; [|discriminate].
      apply Qmult_le_compat_r; [exact Hmax | discriminate]. }
    rewrite Hlo, Hhi. cbn [andb].
    apply Qle_bool_iff in H0. now rewrite H0.
  - intros j Hj. apply always_sleeps_iff. split; [|intros t; apply Hsys].
    cbn [sleep_argument_error].
    assert (Hin : ((-9223372036 <=? j * 2) && (j * 2 <=? 9223372036))%Z = true).
    { apply andb_true_iff. split; apply Z.leb_le; lia. }
    assert (Hpos : (j * 2 <? 0)%Z = false) by (apply Z.ltb_ge; lia).
    now rewrite Hin, Hpos.
Qed.

(** One call of [_perform_request], unfolded once, when the fixed delay is
    slept. *)
Lemma perform_request_rec_step (room : nat) (target_url : string) (retry_count : Z)
      (t : Trace) :
  always_sleeps env (FloatSeconds (request_delay_seconds _config)) ->
  perform_request_rec env _config room target_url retry_count t =
  let t1 := t ++ attempt_events _config target_url in
  match attempt_outcome env _config target_url t with
  | Return r => (Return r, t1)
  | Raise e =>
      if of_class RequestException e then
        if (retry_count <? max_retries)%Z then
          match room with
          | O => (Raise recursion_limit_reached, t1)
          | S room' =>
              match time_sleep env (IntSeconds ((retry_count + 1) * 2)) t1 with
              | (Return _, t2) =>
                  perform_request_rec env _config room' target_url (retry_count + 1) t2
              | (Raise e', t2) => (Raise e', t2)
              end
          end
        else (Raise (mkExn SearchOperationError
                       ("Request failed after retries: " +++ exn_str e)), t1)
      else (Raise e, t1)
  end.
Proof.
  intros Hd.
  assert (Hget : forall t0, http_get env _config target_url (t0 ++ [ESleep delay]) =
            (session_get env (t0 ++ [ESleep delay]) target_url (connection_timeout _config),
             t0 ++ attempt_events _config target_url)).
  { intros t0. unfold http_get, attempt_events. now rewrite app_assoc3. }
  destruct room; cbn [perform_request_rec];
    unfold try_except, bind, attempt_outcome, lift, ret, raise;
    rewrite (Hd t); cbn [length_of]; rewrite Hget;
    destruct (session_get env _ _ _) as [r|e]; cbn;
    try destruct (raise_for_status r) as [[]|e]; cbn;
    try reflexivity;
    destruct (of_class RequestException e); try reflexivity;
    destruct (retry_count <? max_retries)%Z; try reflexivity;
    destruct (time_sleep env _ _) as [[[]|e'] t2]; reflexivity.
Qed.

Lemma seq_shift1 (k : nat) : seq 2 k = map S (seq 1 k).
Proof. now rewrite seq_shift. Qed.

Lemma events_from_S (target_url : string) (retry_count : Z) (k : nat) :
  events_from _config target_url retry_count (S k) =
  attempt_events _config target_url
  ++ [ESleep (inject_Z ((retry_count + 1) * 2))]
  ++ events_from _config target_url (retry_count + 1) k.
Proof.
  unfold events_from. f_equal.
  change (seq 1 (S k)) with (1 :: seq 2 k).
  cbn [flat_map]. unfold retry_events at 1. cbn [app Z.of_nat].
  change (Z.pos (Pos.of_succ_nat 0)) with 1%Z.
  f_equal. f_equal.
  rewrite seq_shift1, flat_map_concat_map, map_map, <- flat_map_concat_map.
  apply flat_map_ext. intros j. f_equal. lia.
Qed.

Lemma events_from_last (target_url : string) (retry_count : Z) (k : nat) :
  events_from _config target_url retry_count (S k) =
  events_from _config target_url retry_count k
  ++ retry_events _config target_url (retry_count + Z.of_nat (S k)).
Proof.
  unfold events_from. rewrite seq_S, flat_map_app. cbn [flat_map].
  rewrite app_nil_r, app_assoc. reflexivity.
Qed.

Lemma trace_before_shift (target_url : string) (retry_count : Z) (t : Trace) (j : nat) :
  trace_before_from _config target_url (retry_count + 1)
    ((t ++ attempt_events _config target_url)
       ++ [ESleep (inject_Z ((retry_count + 1) * 2))]) j
  = trace_before_from _config target_url retry_count t (S j).
Proof.
  destruct j as [|i]; cbn [trace_before_from].
  - unfold events_from. cbn [seq flat_map]. rewrite app_nil_r, !app_assoc3.
    reflexivity.
  - rewrite events_from_S, !app_assoc3. cbn [app].
    replace (retry_count + 1 + Z.of_nat (S i))%Z
      with (retry_count + Z.of_nat (S (S i)))%Z by lia.
    reflexivity.
Qed.

Lemma events_from_0 (target_url : string) (retry_count : Z) :
  events_from _config target_url retry_count 0 = attempt_events _config target_url.
Proof. unfold events_from. cbn [seq flat_map]. apply app_nil_r. Qed.

(** The step of the recursion when the attempt fails, the retries are not
    used up and there is room for one more call. *)
Lemma perform_request_rec_retry (room : nat) (target_url : string) (retry_count : Z)
      (t : Trace) (k : Z) :
  sleeps_carried_out env _config k ->
  (0 <= retry_count < k)%Z -> (retry_count < max_retries)%Z ->
  request_failure (attempt_outcome env _config target_url t) = true ->
  perform_request_rec env _config (S room) target_url retry_count t
  = perform_request_rec env _config room target_url (retry_count + 1)
      ((t ++ attempt_events _config target_url)
         ++ [ESleep (inject_Z ((retry_count + 1) * 2))]).
Proof.
  intros [Hd Hb] Hrc Hlt Hf. rewrite (perform_request_rec_step _ _ _ _ Hd). cbv zeta.
  destruct (attempt_outcome env _config target_url t) as [r|e]; [discriminate|].
  cbn in Hf. rewrite Hf.
  assert (Hltb : (retry_count <? max_retries)%Z = true) by (apply Z.ltb_lt; lia).
  rewrite Hltb, (Hb (retry_count + 1)%Z ltac:(lia)). reflexivity.
Qed.


(** Every attempt fails with a [RequestException] and there is room for
    every retry: the call fails with a [SearchOperationError] made of the
    text of the last one. *)
Lemma perform_request_rec_exhausts (target_url : string) (n : nat) :
  forall (room : nat) (retry_count : Z) (t : Trace) (e : Exn),
    sleeps_carried_out env _config (retry_count + Z.of_nat n) ->
    (0 <= retry_count)%Z -> n <= room ->
    Z.to_nat (max_retries - retry_count) = n ->
    (forall j, j < n ->
       request_failure
         (attempt_outcome env _config target_url
            (trace_before_from _config target_url retry_count t j)) = true) ->
    attempt_outcome env _config target_url
      (trace_before_from _config target_url retry_count t n) = Raise e ->
    of_class RequestException e = true ->
    perform_request_rec env _config room target_url retry_count t
    = (Raise (mkExn SearchOperationError
                ("Request failed after retries: " +++ exn_str e)),
       t ++ events_from _config target_url retry_count n).
Proof.
  induction n as [|d IH]; intros room retry_count t e Hs Hrc Hroom Hn Hfail He Hcls.
  - rewrite (perform_request_rec_step _ _ _ _ (proj1 Hs)). cbv zeta.
    cbn [trace_before_from] in He. rewrite He, Hcls, events_from_0.
    assert (Hge : (retry_count <? max_retries)%Z = false) by (apply Z.ltb_ge; lia).
    now rewrite Hge.
  - destruct room as [|room]; [lia|].
    pose proof (Hfail 0 ltac:(lia)) as H0. cbn [trace_before_from] in H0.
    rewrite (perform_request_rec_retry _ _ _ _ _ Hs) by (auto; lia).
    rewrite (IH room (retry_count + 1)%Z _ e); try lia.
    + now rewrite events_from_S, !app_assoc3.
    + replace (retry_count + 1 + Z.of_nat d)%Z
        with (retry_count + Z.of_nat (S d))%Z by lia. exact Hs.
    + intros j Hj. rewrite trace_before_shift. apply Hfail. lia.
    + now rewrite trace_before_shift.
    + assumption.
Qed.


Lemma count_gets_app (a b : Trace) : count_gets (a ++ b) = count_gets a + count_gets b.
Proof. unfold count_gets. now rewrite filter_app, length_app. Qed.




Lemma sleeps_app (a b : Trace) : sleeps (a ++ b) = sleeps a ++ sleeps b.
Proof. unfold sleeps. apply flat_map_app. Qed.

Lemma sleeps_request_events (target_url : string) (k : nat) :
  sleeps (request_events _config target_url k)
  = delay :: flat_map (fun j => [inject_Z (Z.of_nat j * 2); delay]) (seq 1 k).
Proof.
  unfold request_events. induction k as [|k IH].
  - now rewrite events_from_0.
  - rewrite events_from_last, sleeps_app, IH, seq_S, flat_map_app.
    rewrite <- app_comm_cons. reflexivity.
Qed.


(** C8, as amended.  For a delay and backoffs that [time.sleep] carries
    out and a retry limit that the recursion has room for: when every
    attempt, the last retry included, fails with a [RequestException],
    [_perform_request] raises a [SearchOperationError] whose text is
    ["Request failed after retries: "] followed by the text of the last of
    these exceptions, and nothing else: the URL is not added.  No response
    is returned. *)
Theorem perform_request_exhausted_error (target_url : string) (t : Trace) :
  sleeps_carried_out env _config max_retries ->
  (0 <= max_retries <= Z.of_nat (recursion_room env t))%Z ->
  attempts_fail env _config target_url t (S (Z.to_nat max_retries)) ->
  exists last_error,
    attempt_outcome env _config target_url
      (trace_before _config target_url t (Z.to_nat max_retries)) = Raise last_error
    /\ of_class RequestException last_error = true
    /\ fst (_perform_request env _config target_url 0 t)
       = Raise (mkExn SearchOperationError
                  ("Request failed after retries: " +++ exn_str last_error))
    /\ (forall r, fst (_perform_request env _config target_url 0 t) <> Return r).
Proof.
  intros Hs Hm Hfail.
  pose proof (Hfail (Z.to_nat max_retries) ltac:(lia)) as Hlast.
  unfold trace_before in *.
  destruct (attempt_outcome env _config target_url
              (trace_before_from _config target_url 0 t (Z.to_nat max_retries)))
    as [r|e] eqn:Ho; [discriminate|].
  exists e. split; [reflexivity|]. split; [exact Hlast|].
  unfold _perform_request.
  rewrite (perform_request_rec_exhausts target_url (Z.to_nat max_retries)
             (recursion_room env t) 0%Z t e); auto; try lia.
  - cbn [fst]. split; [reflexivity|]. intros r. discriminate.
  - destruct Hs as [Hd Hb]. split; [exact Hd|]. intros j Hj. apply Hb. lia.
  - intros j Hj. apply Hfail. lia.
Qed.

End Transport.

(** The default configuration on a system that carries out every sleep:
    the delay of 1.5 seconds and the backoffs of 2, 4 and 6 seconds. *)
Lemma default_sleeps_carried_out (env : Env) :
  (forall t s, system_sleep env t s = None) ->
  sleeps_carried_out env default_configuration (max_retry_attempts default_configuration).
Proof.
  intros Hsys.
  apply (sleeps_carried_out_within env default_configuration (3 # 2) 3 eq_refl);
    [discriminate | discriminate | discriminate | exact Hsys].
Defined.

Lemma default_retries_fit (env : Env) (t : Trace) :
  recursion_room env t = 985 ->
  (0 <= max_retry_attempts default_configuration <= Z.of_nat (recursion_room env t))%Z.
Proof. intros ->. cbn. lia. Defined.


(** C8, the claim as stated fails: all four attempts on
    [https://www.sosnc.gov/biz/1] time out, and the error raised does not
    contain that URL. *)
Lemma perform_request_error_omits_url :
  fst (_perform_request Examples.env_down default_configuration
         "https://www.sosnc.gov/biz/1" 0 [])
  = Raise (mkExn SearchOperationError "Request failed after retries: Read timed out.")
  /\ PyStr.contains "https://www.sosnc.gov/biz/1"
       "Request failed after retries: Read timed out." = false.
Proof. split; vm_compute; reflexivity. Qed.

Lemma perform_request_exhausted_error_witness :
  exists last_error,
    attempt_outcome Examples.env_down default_configuration
      "https://www.sosnc.gov/biz/1"
      (trace_before default_configuration "https://www.sosnc.gov/biz/1" [] 3)
    = Raise last_error
    /\ of_class RequestException last_error = true
    /\ fst (_perform_request Examples.env_down default_configuration
              "https://www.sosnc.gov/biz/1" 0 [])
       = Raise (mkExn SearchOperationError
                  ("Request failed after retries: " +++ exn_str last_error))
    /\ (forall r, fst (_perform_request Examples.env_down default_configuration
                         "https://www.sosnc.gov/biz/1" 0 []) <> Return r).
Proof.
  apply (perform_request_exhausted_error Examples.env_down default_configuration
           "https://www.sosnc.gov/biz/1" []
           (default_sleeps_carried_out Examples.env_down (fun _ _ => eq_refl))
           (default_retries_fit Examples.env_down [] eq_refl)).
  intros j Hj. reflexivity.
Defined.

(* ------------------------------------------------------------------ *)
(** ** The extractors: [_extract_business_records] and [_locate_pdf_links] *)

Section Extractors.

Variable env : Env.
Variable _config : ScraperConfiguration.

Local Abbreviation base := (target_base_url _config).

(** Resolving the empty reference gives the base. *)
Lemma urljoin_empty (b : string) : urljoin env b "" = Return b.
Proof. unfold urljoin, UrlParse.urljoin. now destruct b. Qed.

Lemma for_each_app {A B} (body : B -> A -> Result B) (l1 l2 : list A) (acc : B) :
  for_each body (l1 ++ l2) acc =
  match for_each body l1 acc with
  | Raise e => Raise e
  | Return acc' => for_each body l2 acc'
  end.
Proof.
  revert acc. induction l1 as [|x l1 IH]; intros acc; cbn; [reflexivity|].
  destruct (body acc x); [apply IH | reflexivity].
Qed.

(** What one row does to the list of records. *)
Lemma extract_row_spec (business_list : list BusinessRecord) (row : Soup.Node) :
  extract_row env _config business_list row =
  match row_link row with
  | None => Return business_list
  | Some link_element =>
      match urljoin env base (Soup.get "href" "" link_element) with
      | Raise e => Raise e
      | Return link => Return (business_list ++ [record_of_row row link_element link])
      end
  end.
Proof.
  unfold extract_row, row_link, record_of_row.
  destruct (Soup.find_all "td" row) as [|c0 [|c1 [|c2 cells]]]; try reflexivity.
Qed.

Lemma for_each_extract_skip (rows : list Soup.Node) (acc : list BusinessRecord) :
  for_each (extract_row env _config) rows acc
  = for_each (extract_row env _config) (filter has_row_link rows) acc.
Proof.
  revert acc. induction rows as [|row rows IH]; intros acc; [reflexivity|].
  cbn [filter for_each]. unfold has_row_link at 1. rewrite extract_row_spec.
  destruct (row_link row) as [link|] eqn:Hl.
  - cbn [for_each]. rewrite extract_row_spec, Hl.
    destruct (urljoin env base _); [apply IH | reflexivity].
  - apply IH.
Qed.

(** The loop over the rows fails only with what [urljoin] raises on the
    link of a row that has one. *)
Lemma for_each_extract_raise (rows : list Soup.Node) (acc : list BusinessRecord) (e : Exn) :
  for_each (extract_row env _config) rows acc = Raise e ->
  exists row link_element,
    In row rows /\ row_link row = Some link_element
    /\ urljoin env base (Soup.get "href" "" link_element) = Raise e.
Proof.
  revert acc. induction rows as [|row rows IH]; intros acc H; [discriminate|].
  cbn [for_each] in H. rewrite extract_row_spec in H.
  destruct (row_link row) as [link|] eqn:Hl.
  - destruct (urljoin env base (Soup.get "href" "" link)) as [u|e'] eqn:Hu.
    + destruct (IH _ H) as (r & l & Hin & Hr & He). exists r, l. cbn. auto.
    + injection H as <-. exists row, link. cbn. auto.
  - destruct (IH _ H) as (r & l & Hin & Hr & He). exists r, l. cbn. auto.
Qed.

(** When it returns, it has added one record for each row that has a link,
    in the order of the rows. *)
Lemma for_each_extract_return (rows : list Soup.Node) (acc bs : list BusinessRecord) :
  for_each (extract_row env _config) rows acc = Return bs ->
  exists added,
    bs = acc ++ added
    /\ List.length added = List.length (filter has_row_link rows)
    /\ Forall (fun r => pdf_documents r = []) added.
Proof.
  revert acc. induction rows as [|row rows IH]; intros acc H.
  - injection H as <-. exists []. now rewrite app_nil_r.
  - cbn [for_each filter] in H |- *. unfold has_row_link at 1.
    rewrite extract_row_spec in H.
    destruct (row_link row) as [link|] eqn:Hl.
    + destruct (urljoin env base (Soup.get "href" "" link)) as [u|e']; [|discriminate].
      destruct (IH _ H) as (added & -> & Hlen & Hall).
      exists (record_of_row row link u :: added). rewrite <- app_assoc. cbn.
      split; [reflexivity|]. split; [now rewrite Hlen|]. now constructor.
    + apply IH, H.
Qed.

(** It returns when the link of every row that has one resolves. *)
Lemma for_each_extract_total (rows : list Soup.Node) (acc : list BusinessRecord) :
  (forall row link_element,
      In row rows -> row_link row = Some link_element ->
      exists u, urljoin env base (Soup.get "href" "" link_element) = Return u) ->
  exists bs, for_each (extract_row env _config) rows acc = Return bs.
Proof.
  revert acc. induction rows as [|row rows IH]; intros acc H.
  - now exists acc.
  - cbn [for_each]. rewrite extract_row_spec.
    destruct (row_link row) as [link|] eqn:Hl.
    + destruct (H row link (or_introl eq_refl) Hl) as [u ->].
      apply IH. intros r l Hin. apply H. now right.
    + apply IH. intros r l Hin. apply H. now right.
Qed.

Lemma find_all_false {A} (f : A -> bool) (l : list A) :
  (forall x, In x l -> f x = false) -> List.find f l = None.
Proof.
  induction l as [|x l IH]; intros H; [reflexivity|]. cbn.
  rewrite (H x (or_introl eq_refl)). apply IH. intros y Hy. apply H. now right.
Qed.

(** A page without a results-like table has no results table. *)
Lemma locate_result_table_none (html_content : Soup.Node) :
  (forall d, In d (Soup.descendants html_content) -> results_like d = false) ->
  locate_result_table html_content = None.
Proof.
  intros H. unfold locate_result_table, Soup.find_matching.
  rewrite !find_all_false; [reflexivity| |]; intros d Hd; apply H in Hd;
    unfold results_like in Hd; destruct (Soup.is_tag "table" d); cbn in *;
    try reflexivity; apply orb_false_iff in Hd; tauto.
Qed.

(** C4, as amended.  [_extract_business_records] fails only when the link
    of a row that yields a record cannot be resolved against the base URL
    ([urljoin] raises).  Degenerate input never makes it fail and yields no
    record: a page with no table whose class matches [result] and no table
    whose id matches [search] gives the empty list; in a results table the
    first row is skipped; a row of fewer than three cells, or of at least
    three cells without a link in the first one, adds nothing. *)
Theorem extract_business_records_filters (html_content : Soup.Node) :
  ((forall d, In d (Soup.descendants html_content) ->
      Soup.is_tag "table" d = true ->
      Soup.attr_matches "class" "result" d = false
      /\ Soup.attr_matches "id" "search" d = false) ->
   _extract_business_records env _config html_content = Return [])
  /\ (forall result_table header rows,
        locate_result_table html_content = Some result_table ->
        Soup.find_all "tr" result_table = header :: rows ->
        _extract_business_records env _config html_content
        = for_each (extract_row env _config) (filter has_row_link rows) [])
  /\ (forall business_list row,
        List.length (Soup.find_all "td" row) < 3 ->
        extract_row env _config business_list row = Return business_list)
  /\ (forall business_list row name_cell,
        3 <= List.length (Soup.find_all "td" row) ->
        hd_error (Soup.find_all "td" row) = Some name_cell ->
        Soup.find "a" name_cell = None ->
        extract_row env _config business_list row = Return business_list)
  /\ (forall e,
        _extract_business_records env _config html_content = Raise e ->
        exists result_table row link_element,
          locate_result_table html_content = Some result_table
          /\ In row (tl (Soup.find_all "tr" result_table))
          /\ row_link row = Some link_element
          /\ urljoin env base (Soup.get "href" "" link_element) = Raise e)
  /\ ((forall result_table row link_element,
         locate_result_table html_content = Some result_table ->
         In row (tl (Soup.find_all "tr" result_table)) ->
         row_link row = Some link_element ->
         exists u, urljoin env base (Soup.get "href" "" link_element) = Return u) ->
      exists bs, _extract_business_records env _config html_content = Return bs).
Proof.
  split; [|split; [|split; [|split; [|split]]]].
  - intros H. unfold _extract_business_records.
    rewrite locate_result_table_none; [reflexivity|].
    intros d Hd. unfold results_like.
    destruct (Soup.is_tag "table" d) eqn:Ht; [|reflexivity].
    destruct (H d Hd Ht) as [-> ->]. reflexivity.
  - intros table header rows Hloc Hrows. unfold _extract_business_records.
    rewrite Hloc, Hrows. cbn [tl]. apply for_each_extract_skip.
  - intros acc row Hlen. rewrite extract_row_spec. unfold row_link.
    destruct (Soup.find_all "td" row) as [|c0 [|c1 [|c2 cells]]]; try reflexivity.
    cbn in Hlen. lia.
  - intros acc row name_cell Hlen Hhd Hfind. rewrite extract_row_spec. unfold row_link.
    destruct (Soup.find_all "td" row) as [|c0 [|c1 [|c2 cells]]]; try reflexivity.
    cbn in Hhd. injection Hhd as ->. now rewrite Hfind.
  - intros e H. unfold _extract_business_records in H.
    destruct (locate_result_table html_content) as [table|]; [|discriminate].
    apply for_each_extract_raise in H. destruct H as (row & link & Hin & Hl & Hu).
    now exists table, row, link.
  - intros H. unfold _extract_business_records.
    destruct (locate_result_table html_content) as [table|] eqn:Hloc; [|now exists []].
    apply for_each_extract_total. intros row link Hin Hl. now apply (H table row link).
Qed.

(** C10.  A row of at least three cells whose first cell has an anchor
    without [href] adds a record whose [detail_link] is the configured base
    URL, which is what the empty reference resolves to.  The result of
    [_extract_business_records] on a table with that row has this record
    whenever it returns, and it returns when the links of the other rows
    resolve. *)
Theorem anchor_without_href_yields_record
        (row name_cell link_element : Soup.Node) :
  3 <= List.length (Soup.find_all "td" row) ->
  hd_error (Soup.find_all "td" row) = Some name_cell ->
  Soup.find "a" name_cell = Some link_element ->
  Soup.attr "href" link_element = None ->
  urljoin env base "" = Return base
  /\ detail_link (record_of_row row link_element base) = base
  /\ (forall business_list,
        extract_row env _config business_list row
        = Return (business_list ++ [record_of_row row link_element base]))
  /\ (forall html_content result_table header before after,
        locate_result_table html_content = Some result_table ->
        Soup.find_all "tr" result_table = header :: before ++ row :: after ->
        (forall bs,
            _extract_business_records env _config html_content = Return bs ->
            In (record_of_row row link_element base) bs)
        /\ ((forall other link',
               In other (before ++ after) -> row_link other = Some link' ->
               exists u, urljoin env base (Soup.get "href" "" link') = Return u) ->
            exists bs,
              _extract_business_records env _config html_content = Return bs
              /\ In (record_of_row row link_element base) bs)).
Proof.
  intros Hlen Hhd Hfind Hattr.
  assert (Hlink : row_link row = Some link_element).
  { unfold row_link.
    destruct (Soup.find_all "td" row) as [|c0 [|c1 [|c2 cells]]];
      cbn in Hlen; try lia. cbn in Hhd. now injection Hhd as ->. }
  assert (Hhref : Soup.get "href" "" link_element = "").
  { unfold Soup.get. now rewrite Hattr. }
  assert (Hrow : forall acc,
             extract_row env _config acc row
             = Return (acc ++ [record_of_row row link_element base])).
  { intros acc. now rewrite extract_row_spec, Hlink, Hhref, urljoin_empty. }
  assert (Hin : forall html table header before after bs,
             locate_result_table html = Some table ->
             Soup.find_all "tr" table = header :: before ++ row :: after ->
             _extract_business_records env _config html = Return bs ->
             In (record_of_row row link_element base) bs).
  { intros html table header before after bs Hloc Hrows H.
    unfold _extract_business_records in H. rewrite Hloc, Hrows in H. cbn [tl] in H.
    rewrite for_each_app in H.
    destruct (for_each (extract_row env _config) before []) as [acc|e]; [|discriminate].
    cbn [for_each] in H. rewrite Hrow in H.
    apply for_each_extract_return in H. destruct H as (added & -> & _).
    apply in_or_app. left. apply in_or_app. right. now left. }
  split; [apply urljoin_empty|]. split; [reflexivity|]. split; [exact Hrow|].
  intros html table header before after Hloc Hrows. split.
  - intros bs. now apply (Hin html table header before after).
  - intros Hothers.
    assert (Hret : exists bs, _extract_business_records env _config html = Return bs).
    { unfold _extract_business_records. rewrite Hloc, Hrows. cbn [tl].
      apply for_each_extract_total. intros r l Hr Hl.
      apply in_app_or in Hr. destruct Hr as [Hr|[<-|Hr]].
      - apply (Hothers r l); [apply in_or_app; now left | exact Hl].
      - rewrite Hlink in Hl. injection Hl as <-. rewrite Hhref.
        exists base. apply urljoin_empty.
      - apply (Hothers r l); [apply in_or_app; now right | exact Hl]. }
    destruct Hret as [bs Hbs].
    exists bs. split; [exact Hbs|]. now apply (Hin html table header before after).
Qed.

End Extractors.

(** C4, the claim as stated fails: a results table with a row whose link
    is [//[] makes the extractor raise. *)
Lemma extract_business_records_raises :
  _extract_business_records Examples.env_down default_configuration
    (Examples.document [Examples.results_table [Examples.bracket_row]])
  = Raise (mkExn ValueError "Invalid IPv6 URL").
Proof. vm_compute. reflexivity. Qed.

(** A page without a table, and a row of two cells. *)
Lemma extract_business_records_filters_witness :
  _extract_business_records Examples.env_down default_configuration
    (Examples.document [Soup.Tag "p" [] [Soup.NavigableString "No results"]])
  = Return []
  /\ extract_row Examples.env_down default_configuration []
       (Soup.Tag "tr" [] [Examples.td "Acme LLC"; Examples.td "12345678"])
     = Return [].
Proof.
  destruct (extract_business_records_filters Examples.env_down default_configuration
              (Examples.document [Soup.Tag "p" [] [Soup.NavigableString "No results"]]))
    as (Hnone & _ & Hshort & _).
  split.
  - apply Hnone. intros d Hd Ht. cbn in Hd.
    repeat (destruct Hd as [<-|Hd]; [discriminate Ht|]). contradiction.
  - apply Hshort. cbn. lia.
Defined.

(** The row of [anchor_row]: its record points to the base URL. *)
Lemma anchor_without_href_yields_record_witness :
  extract_row Examples.env_down default_configuration [] Examples.anchor_row
  = Return [new_BusinessRecord "No Link Inc" "7" "Active" "" "https://www.sosnc.gov"].
Proof.
  apply (proj1 (proj2 (proj2
           (anchor_without_href_yields_record Examples.env_down default_configuration
              Examples.anchor_row
              (Soup.Tag "td" [] [Soup.Tag "a" [("name", "top")]
                                   [Soup.NavigableString "No Link Inc"]])
              (Soup.Tag "a" [("name", "top")] [Soup.NavigableString "No Link Inc"])
              ltac:(cbn; lia) eq_refl eq_refl eq_refl))) []).
Defined.

Section LinkExtractor.

Variable env : Env.
Variable _config : ScraperConfiguration.

Local Abbreviation base := (target_base_url _config).

(** The loop of [_locate_pdf_links]: resolve the targets that end in
    [.pdf], then keep the unseen ones. *)
Lemma for_each_locate_link (links : list Soup.Node) (acc : list string) :
  for_each (locate_link env _config) links acc =
  match resolve_all (urljoin env base)
          (filter (fun href => PyStr.endswith ".pdf" (PyStr.lower href))
                  (map (Soup.get "href" "") links)) with
  | Raise e => Raise e
  | Return urls => Return (fold_left add_unseen urls acc)
  end.
Proof.
  revert acc. induction links as [|link links IH]; intros acc; [reflexivity|].
  cbn [for_each map filter]. unfold locate_link at 1.
  destruct (PyStr.endswith ".pdf" (PyStr.lower (Soup.get "href" "" link))).
  - cbn [resolve_all].
    destruct (urljoin env base (Soup.get "href" "" link)) as [u|e]; [|reflexivity].
    destruct (not_in u acc) eqn:Hn; rewrite IH; destruct (resolve_all _ _);
      try reflexivity; cbn [fold_left];
      change (add_unseen acc u) with (if not_in u acc then acc ++ [u] else acc);
      now rewrite Hn.
  - apply IH.
Qed.

Lemma not_in_app (v : string) (a b : list string) :
  not_in v (a ++ b) = not_in v a && not_in v b.
Proof. unfold not_in. now rewrite existsb_app, negb_orb. Qed.

Lemma not_in_false (v : string) (l : list string) : not_in v l = false <-> In v l.
Proof.
  unfold not_in. rewrite negb_false_iff, existsb_exists. split.
  - intros (x & Hx & He). apply String.eqb_eq in He. now subst.
  - intros H. exists v. split; [exact H | apply String.eqb_refl].
Qed.

(** Adding the unseen URLs one by one keeps the first occurrences. *)
Lemma fold_left_add_unseen (l acc : list string) :
  fold_left add_unseen l acc = acc ++ filter (fun v => not_in v acc) (first_seen l).
Proof.
  revert acc. induction l as [|u l IH]; intros acc; cbn [fold_left first_seen filter].
  - now rewrite app_nil_r.
  - rewrite IH. unfold add_unseen.
    assert (Hcomp : forall f g (xs : list string),
               filter f (filter g xs) = filter (fun v => g v && f v) xs).
    { intros f g xs. induction xs as [|x xs IHx]; [reflexivity|]. cbn.
      destruct (g x); cbn; [destruct (f x)|]; now rewrite IHx. }
    destruct (not_in u acc) eqn:Hu.
    + rewrite <- app_assoc. cbn [app]. do 2 f_equal. rewrite Hcomp.
      apply filter_ext. intros v. rewrite not_in_app.
      change (not_in v [u]) with (negb (String.eqb v u || false)).
      rewrite orb_false_r. apply andb_comm.
    + f_equal. rewrite Hcomp. apply filter_ext. intros v.
      destruct (String.eqb v u) eqn:Hv; [|reflexivity].
      apply String.eqb_eq in Hv. subst v. now rewrite Hu.
Qed.

Lemma first_seen_In (l : list string) (u : string) : In u (first_seen l) <-> In u l.
Proof.
  induction l as [|x l IH]; [reflexivity|]. cbn [first_seen In].
  rewrite filter_In, IH, negb_true_iff. split.
  - intros [H|[H _]]; auto.
  - intros [H|H]; auto. destruct (String.eqb u x) eqn:E; [|now right].
    apply String.eqb_eq in E. now left.
Qed.

Lemma first_seen_NoDup (l : list string) : NoDup (first_seen l).
Proof.
  induction l as [|x l IH]; cbn [first_seen]; constructor.
  - rewrite filter_In, negb_true_iff, String.eqb_refl. intros [_ H]. discriminate.
  - now apply NoDup_filter.
Qed.

Lemma resolve_all_In (f : string -> Result string) (refs urls : list string) :
  resolve_all f refs = Return urls ->
  forall u, In u urls <-> exists r, In r refs /\ f r = Return u.
Proof.
  revert urls. induction refs as [|r refs IH]; intros urls H u.
  - injection H as <-. split; [intros [] | intros (r & [] & _)].
  - cbn [resolve_all] in H. destruct (f r) as [v|e] eqn:Hr; [|discriminate].
    destruct (resolve_all f refs) as [vs|e]; [|discriminate].
    injection H as <-. cbn [In]. rewrite (IH vs eq_refl u). split.
    + intros [<-|(r' & Hin & Hf)]; [exists r | exists r']; auto.
    + intros (r' & [<-|Hin] & Hf); [left; congruence | right; now exists r'].
Qed.

(** What [_locate_pdf_links] returns. *)
Lemma locate_pdf_links_spec (html_content : Soup.Node) :
  _locate_pdf_links env _config html_content
  = match resolve_all (urljoin env base) (pdf_hrefs html_content) with
    | Raise e => Raise e
    | Return urls => Return (first_seen urls)
    end
  /\ (forall urls,
        _locate_pdf_links env _config html_content = Return urls ->
        NoDup urls
        /\ forall u, In u urls <->
             exists link,
               In link (Soup.find_all_with "a" "href" html_content)
               /\ PyStr.endswith ".pdf" (PyStr.lower (Soup.get "href" "" link)) = true
               /\ urljoin env base (Soup.get "href" "" link) = Return u).
Proof.
  assert (Heq : _locate_pdf_links env _config html_content
                = match resolve_all (urljoin env base) (pdf_hrefs html_content) with
                  | Raise e => Raise e
                  | Return urls => Return (first_seen urls)
                  end).
  { unfold _locate_pdf_links, pdf_hrefs. rewrite for_each_locate_link.
    destruct (resolve_all _ _) as [urls|e]; [|reflexivity].
    rewrite fold_left_add_unseen. cbn [app]. f_equal.
    apply forallb_filter_id. apply forallb_forall. reflexivity. }
  split; [exact Heq|]. intros urls H. rewrite Heq in H.
  destruct (resolve_all (urljoin env base) (pdf_hrefs html_content)) as [us|e] eqn:Hres;
    [|discriminate].
  injection H as <-. split; [apply first_seen_NoDup|].
  intros u. rewrite first_seen_In, (resolve_all_In _ _ _ Hres u). unfold pdf_hrefs. split.
  - intros (r & Hin & Hr). apply filter_In in Hin. destruct Hin as [Hin Hpdf].
    apply in_map_iff in Hin. destruct Hin as (link & <- & Hlink). now exists link.
  - intros (link & Hlink & Hpdf & Hr). exists (Soup.get "href" "" link).
    split; [|exact Hr]. apply filter_In. split; [|exact Hpdf].
    apply in_map_iff. now exists link.
Qed.

End LinkExtractor.

(** C5, as amended.  [_locate_pdf_links] takes the hyperlinks that have an
    [href], keeps the targets whose text as a whole ends in [.pdf] whatever
    the case, resolves each against the base URL, and returns the resolved
    URLs in the order of their first occurrence, duplicates dropped; it
    raises what [urljoin] raises on the first of these targets that does not
    resolve.  With the base [https://www.sosnc.gov], the links
    [/d/a.pdf], [/d/B.PDF], [/d/a.pdf] give two absolute URLs, in that order. *)
Theorem locate_pdf_links_first_seen
        (env : Env) (_config : ScraperConfiguration) (html_content : Soup.Node) :
  _locate_pdf_links env _config html_content
  = match resolve_all (urljoin env (target_base_url _config)) (pdf_hrefs html_content) with
    | Raise e => Raise e
    | Return urls => Return (first_seen urls)
    end
  /\ (forall urls,
        _locate_pdf_links env _config html_content = Return urls ->
        NoDup urls
        /\ forall u, In u urls <->
             exists link,
               In link (Soup.find_all_with "a" "href" html_content)
               /\ PyStr.endswith ".pdf" (PyStr.lower (Soup.get "href" "" link)) = true
               /\ urljoin env (target_base_url _config) (Soup.get "href" "" link)
                  = Return u)
  /\ _locate_pdf_links env default_configuration
       (Examples.document
          [Examples.a_href "/d/a.pdf" "Articles"; Examples.a_href "/d/B.PDF" "Report";
           Examples.a_href "/d/a.pdf" "Articles again"])
     = Return ["https://www.sosnc.gov/d/a.pdf"; "https://www.sosnc.gov/d/B.PDF"].
Proof.
  destruct (locate_pdf_links_spec env _config html_content) as [H1 H2].
  split; [exact H1|]. split; [exact H2|]. vm_compute. reflexivity.
Qed.

(** A run of the theorem on the page of the unit test. *)
Lemma locate_pdf_links_first_seen_witness :
  NoDup ["https://www.sosnc.gov/d/a.pdf"; "https://www.sosnc.gov/d/B.PDF"].
Proof.
  apply (proj1 (proj2 (locate_pdf_links_first_seen Examples.env_down default_configuration
                         Examples.detail_page))
           ["https://www.sosnc.gov/d/a.pdf"; "https://www.sosnc.gov/d/B.PDF"]).
  vm_compute. reflexivity.
Defined.

(** C5, the claim as stated fails.  The target [/d/a.pdf?v=1] has a path
    that ends in [.pdf] and is not returned; the target [/view?file=a.pdf]
    has the path [/view] and is returned; on the target [//[.pdf] nothing is
    returned, the call raises. *)
Lemma locate_pdf_links_not_by_path :
  (target_path (fun _ => None) "/d/a.pdf?v=1" = Some "/d/a.pdf"
   /\ _locate_pdf_links Examples.env_down default_configuration
        (Examples.document [Examples.a_href "/d/a.pdf?v=1" "Articles"])
      = Return [])
  /\ (target_path (fun _ => None) "/view?file=a.pdf" = Some "/view"
      /\ _locate_pdf_links Examples.env_down default_configuration
           (Examples.document [Examples.a_href "/view?file=a.pdf" "Articles"])
         = Return ["https://www.sosnc.gov/view?file=a.pdf"])
  /\ _locate_pdf_links Examples.env_down default_configuration
       (Examples.document [Examples.a_href "//[.pdf" "Articles"])
     = Raise (mkExn ValueError "Invalid IPv6 URL").
Proof. repeat split; vm_compute; reflexivity. Qed.

(* ------------------------------------------------------------------ *)
(** ** The pipeline: [process_search_and_download] *)

Section Pipeline.

Variable env : Env.
Variable _config : ScraperConfiguration.

(** [_download_pdf_file] by the outcome of its request and of its write. *)
Lemma download_pdf_file_spec (pdf_url business_name : string) (t : Trace) :
  _download_pdf_file env _config pdf_url business_name t =
  match _perform_request env _config pdf_url 0 t with
  | (Raise e, t1) =>
      (Raise (mkExn DocumentRetrievalError ("PDF download failed: " +++ exn_str e)), t1)
  | (Return response, t1) =>
      let file_path :=
        PathLib.to_str
          (PathLib.joinpath (_storage_path _config)
             (PathLib.of_str (filename_of business_name pdf_url (datetime_now env t1)))) in
      match open_file env t1 file_path with
      | Some e =>
          (Raise (mkExn DocumentRetrievalError ("PDF download failed: " +++ exn_str e)), t1)
      | None =>
          match write_file env t1 file_path (content response) with
          | Some e =>
              (Raise (mkExn DocumentRetrievalError ("PDF download failed: " +++ exn_str e)),
               t1 ++ [ETruncate file_path])
          | None => (Return file_path, t1 ++ [EWrite file_path (content response)])
          end
      end
  end.
Proof.
  unfold _download_pdf_file, try_except, bind, now, write_bytes, ret, raise, any_Exception.
  destruct (_perform_request env _config pdf_url 0 t) as [[r|e] t1]; [|reflexivity].
  cbv zeta. destruct (open_file env t1 _); [reflexivity|].
  destruct (write_file env t1 _ _); reflexivity.
Qed.

(** [_download_pdf_file] raises nothing but a [DocumentRetrievalError]. *)
Lemma download_pdf_file_raises (pdf_url business_name : string) (t t' : Trace) (e : Exn) :
  _download_pdf_file env _config pdf_url business_name t = (Raise e, t') ->
  of_class DocumentRetrievalError e = true.
Proof.
  rewrite download_pdf_file_spec.
  destruct (_perform_request env _config pdf_url 0 t) as [[r|e0] t1].
  - cbv zeta. destruct (open_file env t1 _); [intros H; now injection H as <- _|].
    destruct (write_file env t1 _ _); intros H; [|discriminate].
    now injection H as <- _.
  - intros H. now injection H as <- _.
Qed.

(** One turn of the loop over the links: a document that fails is left
    out, and the loop goes on. *)
Lemma download_all_step (business_name pdf_url : string) (rest acc : list string) (t : Trace) :
  download_all env _config business_name (pdf_url :: rest) acc t =
  match _download_pdf_file env _config pdf_url business_name t with
  | (Return saved_path, t1) =>
      download_all env _config business_name rest (acc ++ [saved_path]) t1
  | (Raise _, t1) => download_all env _config business_name rest acc t1
  end.
Proof.
  cbn [download_all]. unfold bind at 1, try_except, bind, ret.
  destruct (_download_pdf_file env _config pdf_url business_name t) as [[p|e] t1] eqn:Hd;
    [reflexivity|].
  now rewrite (download_pdf_file_raises _ _ _ _ _ Hd).
Qed.

(** The loop over the links returns, with at most one path per link. *)
Lemma download_all_returns (business_name : string) (pdf_links acc : list string) (t : Trace) :
  exists added t',
    download_all env _config business_name pdf_links acc t = (Return (acc ++ added), t')
    /\ List.length added <= List.length pdf_links.
Proof.
  revert acc t. induction pdf_links as [|u rest IH]; intros acc t.
  - exists [], t. rewrite app_nil_r. split; [reflexivity | apply le_n].
  - rewrite download_all_step.
    destruct (_download_pdf_file env _config u business_name t) as [[p|e] t1].
    + destruct (IH (acc ++ [p]) t1) as (added & t' & -> & Hlen).
      exists (p :: added), t'. rewrite <- app_assoc. split; [reflexivity|]. cbn. lia.
    + destruct (IH acc t1) as (added & t' & -> & Hlen).
      exists added, t'. split; [reflexivity|]. cbn. lia.
Qed.

(** [fetch_business_documents] by the outcome of the detail fetch. *)
Lemma fetch_business_documents_spec (business : BusinessRecord) (t : Trace) :
  fetch_business_documents env _config business t =
  match _perform_request env _config (detail_link business) 0 t with
  | (Raise _, t1) => (Return [], t1)
  | (Return response, t1) =>
      match _locate_pdf_links env _config (text response) with
      | Raise _ => (Return [], t1)
      | Return pdf_links =>
          download_all env _config (entity_name business) pdf_links [] t1
      end
  end.
Proof.
  unfold fetch_business_documents, try_except, bind, lift, ret, any_Exception.
  destruct (_perform_request env _config (detail_link business) 0 t) as [[r|e] t1];
    [|reflexivity].
  destruct (_locate_pdf_links env _config (text r)) as [links|e]; [|reflexivity].
  destruct (download_all_returns (entity_name business) links [] t1) as (added & t' & -> & _).
  reflexivity.
Qed.

(** [fetch_business_documents] never raises. *)
Lemma fetch_business_documents_returns (business : BusinessRecord) (t : Trace) :
  exists doc_paths t',
    fetch_business_documents env _config business t = (Return doc_paths, t').
Proof.
  rewrite fetch_business_documents_spec.
  destruct (_perform_request env _config (detail_link business) 0 t) as [[r|e] t1];
    [|now exists [], t1].
  destruct (_locate_pdf_links env _config (text r)) as [links|e]; [|now exists [], t1].
  destruct (download_all_returns (entity_name business) links [] t1) as (added & t' & -> & _).
  now exists ([] ++ added), t'.
Qed.

Lemma fetch_each_length (businesses : list BusinessRecord) (t : Trace) :
  List.length (fst (fetch_each env _config businesses t)) = List.length businesses.
Proof.
  revert t. induction businesses as [|b rest IH]; intros t; [reflexivity|].
  cbn [fetch_each].
  destruct (fetch_business_documents_returns b t) as (p & t1 & ->).
  specialize (IH t1). destruct (fetch_each env _config rest t1) as [ps t2].
  cbn in *. now rewrite IH.
Qed.

(** The loop over the businesses adds what each of them gave to the counts
    and to the files, and leaves the errors as they are. *)
Lemma process_businesses_spec (businesses : list BusinessRecord) (s : Summary) (t : Trace) :
  process_businesses env _config businesses s t =
  let '(per_business, t') := fetch_each env _config businesses t in
  (Return {| search_query := search_query s;
             businesses_found := businesses_found s;
             documents_downloaded :=
               documents_downloaded s + List.length (List.concat per_business);
             downloaded_files := downloaded_files s ++ List.concat per_business;
             errors := errors s |}, t').
Proof.
  revert s t. induction businesses as [|b rest IH]; intros s t.
  - cbn. rewrite Nat.add_0_r, app_nil_r. now destruct s.
  - cbn [process_businesses fetch_each].
    destruct (fetch_business_documents_returns b t) as (p & t1 & ->).
    rewrite IH. destruct (fetch_each env _config rest t1) as [ps t2].
    cbn [List.concat search_query businesses_found documents_downloaded downloaded_files errors].
    rewrite length_app, Nat.add_assoc, app_assoc. reflexivity.
Qed.

(** The whole run, by the outcome of the search. *)
Lemma process_search_and_download_spec (query : string) (t : Trace) :
  process_search_and_download env _config query t =
  match search_businesses env _config query t with
  | (Raise e, t1) =>
      if of_class SearchOperationError e
      then (Return {| search_query := query; businesses_found := 0;
                      documents_downloaded := 0; downloaded_files := [];
                      errors := [exn_str e] |}, t1)
      else (Raise e, t1)
  | (Return businesses, t1) =>
      let '(per_business, t2) := fetch_each env _config businesses t1 in
      (Return {| search_query := query;
                 businesses_found := List.length businesses;
                 documents_downloaded := List.length (List.concat per_business);
                 downloaded_files := List.concat per_business;
                 errors := [] |}, t2)
  end.
Proof.
  unfold process_search_and_download.
  destruct (search_businesses env _config query t) as [[bs|e] t1].
  - rewrite process_businesses_spec.
    destruct (fetch_each env _config bs t1) as [pb t2]. reflexivity.
  - unfold on_search_error. destruct (of_class SearchOperationError e); reflexivity.
Qed.

(** [search_businesses] by the outcome of its request and of the
    extraction. *)
Lemma search_businesses_spec (query_term : string) (t : Trace) :
  search_businesses env _config query_term t =
  match urljoin env (target_base_url _config) (search_endpoint _config) with
  | Raise e => (Raise e, t)
  | Return search_url =>
      match _perform_request env _config (full_search_url search_url query_term) 0 t with
      | (Raise e, t1) =>
          (Raise (mkExn SearchOperationError ("Unable to search: " +++ exn_str e)), t1)
      | (Return response, t1) =>
          match _extract_business_records env _config (text response) with
          | Raise e =>
              (Raise (mkExn SearchOperationError ("Unable to search: " +++ exn_str e)), t1)
          | Return businesses => (Return businesses, t1)
          end
      end
  end.
Proof.
  unfold search_businesses, bind at 1, lift at 1.
  destruct (urljoin env (target_base_url _config) (search_endpoint _config)) as [u|e];
    [|reflexivity].
  unfold try_except, bind, lift, raise, any_Exception, full_search_url.
  destruct (_perform_request env _config _ 0 t) as [[r|e] t1]; [|reflexivity].
  destruct (_extract_business_records env _config (text r)); reflexivity.
Qed.

(** C1.  Only a failure of the search step puts an entry into the errors
    of the outcome.  When the request of the search fails, the run ends
    there: no business, no document, no file, one error message, and the
    trace of the run is the trace of that request.  A detail page that
    cannot be fetched gives its business no document and no error, a
    document that cannot be downloaded is left out without an error, and in
    both cases the run goes on with what remains.  One business whose detail
    fetch raises gives one business found, no document and no error. *)
Theorem only_search_failures_reach_the_outcome (query : string) (t : Trace) :
  (forall search_url e t1,
      urljoin env (target_base_url _config) (search_endpoint _config) = Return search_url ->
      _perform_request env _config (full_search_url search_url query) 0 t = (Raise e, t1) ->
      process_search_and_download env _config query t
      = (Return {| search_query := query; businesses_found := 0;
                   documents_downloaded := 0; downloaded_files := [];
                   errors := ["Unable to search: " +++ exn_str e] |}, t1))
  /\ (forall businesses t1,
        search_businesses env _config query t = (Return businesses, t1) ->
        List.length (fst (fetch_each env _config businesses t1)) = List.length businesses
        /\ process_search_and_download env _config query t
           = (Return {| search_query := query;
                        businesses_found := List.length businesses;
                        documents_downloaded :=
                          List.length (List.concat (fst (fetch_each env _config businesses t1)));
                        downloaded_files :=
                          List.concat (fst (fetch_each env _config businesses t1));
                        errors := [] |},
              snd (fetch_each env _config businesses t1)))
  /\ (forall business t0 e t1,
        _perform_request env _config (detail_link business) 0 t0 = (Raise e, t1) ->
        fetch_business_documents env _config business t0 = (Return [], t1))
  /\ (forall business_name pdf_url rest acc t0 e t1,
        _download_pdf_file env _config pdf_url business_name t0 = (Raise e, t1) ->
        download_all env _config business_name (pdf_url :: rest) acc t0
        = download_all env _config business_name rest acc t1)
  /\ (forall business t1 e t2,
        search_businesses env _config query t = (Return [business], t1) ->
        _perform_request env _config (detail_link business) 0 t1 = (Raise e, t2) ->
        process_search_and_download env _config query t
        = (Return {| search_query := query; businesses_found := 1;
                     documents_downloaded := 0; downloaded_files := [];
                     errors := [] |}, t2))
  /\ (forall s t',
        process_search_and_download env _config query t = (Return s, t') ->
        errors s <> [] ->
        exists e,
          search_businesses env _config query t = (Raise e, t')
          /\ of_class SearchOperationError e = true
          /\ s = {| search_query := query; businesses_found := 0;
                    documents_downloaded := 0; downloaded_files := [];
                    errors := [exn_str e] |}).
Proof.
  split; [|split; [|split; [|split; [|split]]]].
  - intros search_url e t1 Hu Hreq.
    rewrite process_search_and_download_spec, search_businesses_spec, Hu, Hreq.
    reflexivity.
  - intros bs t1 Hs. split; [apply fetch_each_length|].
    rewrite process_search_and_download_spec, Hs.
    destruct (fetch_each env _config bs t1) as [pb t2]. reflexivity.
  - intros b t0 e t1 Hreq. now rewrite fetch_business_documents_spec, Hreq.
  - intros name u rest acc t0 e t1 Hd. now rewrite download_all_step, Hd.
  - intros b t1 e t2 Hs Hreq.
    rewrite process_search_and_download_spec, Hs. cbn [fetch_each].
    rewrite fetch_business_documents_spec, Hreq. reflexivity.
  - intros s t' Hrun Herr. rewrite process_search_and_download_spec in Hrun.
    destruct (search_businesses env _config query t) as [[bs|e] t1].
    + destruct (fetch_each env _config bs t1) as [pb t2].
      injection Hrun as <- _. now cbn in Herr.
    + destruct (of_class SearchOperationError e) eqn:Hc; [|discriminate].
      injection Hrun as <- <-. now exists e.
Qed.

(** C9.  The outcome of a run has as many documents downloaded as it has
    downloaded files, and a run gives an outcome whenever the URL of the
    search page can be formed. *)
Theorem documents_downloaded_counts_files (query : string) (t : Trace) :
  (forall s t',
      process_search_and_download env _config query t = (Return s, t') ->
      documents_downloaded s = List.length (downloaded_files s))
  /\ (forall search_url,
        urljoin env (target_base_url _config) (search_endpoint _config) = Return search_url ->
        exists s t', process_search_and_download env _config query t = (Return s, t')).
Proof.
  split.
  - intros s t' Hrun. rewrite process_search_and_download_spec in Hrun.
    destruct (search_businesses env _config query t) as [[bs|e] t1].
    + destruct (fetch_each env _config bs t1) as [pb t2]. now injection Hrun as <- _.
    + destruct (of_class SearchOperationError e); [|discriminate].
      now injection Hrun as <- _.
  - intros search_url Hu.
    rewrite process_search_and_download_spec, search_businesses_spec, Hu.
    destruct (_perform_request env _config _ 0 t) as [[r|e] t1]; [|now eexists _, _].
    destruct (_extract_business_records env _config (text r)) as [bs|e]; [|now eexists _, _].
    destruct (fetch_each env _config bs t1) as [pb t2]. now eexists _, _.
Qed.

(** The loop over the links on an address is the loop on the name read
    from the record. *)
Lemma download_all_at_spec (business : Address) (store : Store) (fields : BusinessRecord)
      (pdf_links : list string) :
  nth_error store business = Some fields ->
  forall acc t,
    download_all_at env _config business store pdf_links acc t
    = download_all env _config (entity_name fields) pdf_links acc t.
Proof.
  intros Hload. induction pdf_links as [|u rest IH]; intros acc t; [reflexivity|].
  cbn [download_all_at download_all]. unfold bind at 1 3, try_except, bind at 1, lift, getattr.
  rewrite Hload. unfold bind.
  destruct (_download_pdf_file env _config u (entity_name fields) t) as [[p|e] t1];
    cbn [ret]; [apply IH|].
  destruct (of_class DocumentRetrievalError e); [apply IH | reflexivity].
Qed.

(** [fetch_business_documents] on an address does what it does on the
    fields of the record, and leaves the store as it was. *)
Lemma fetch_business_documents_at_spec (business : Address) (store : Store)
      (fields : BusinessRecord) (t : Trace) :
  nth_error store business = Some fields ->
  fetch_business_documents_at env _config business store t
  = with_store store (fetch_business_documents env _config fields t).
Proof.
  intros Hload.
  unfold fetch_business_documents_at, fetch_business_documents, try_except, bind, lift,
    getattr, ret, any_Exception, with_store.
  rewrite Hload.
  destruct (_perform_request env _config (detail_link fields) 0 t) as [[r|e] t1];
    [|reflexivity].
  destruct (_locate_pdf_links env _config (text r)) as [links|e]; [|reflexivity].
  rewrite (download_all_at_spec business store fields links Hload).
  destruct (download_all env _config (entity_name fields) links [] t1) as [[paths|e] t2];
    reflexivity.
Qed.

(** The addresses of new records lead to these records, whatever is
    allocated behind them. *)
Lemma allocate_loads (store : Store) (records later : list BusinessRecord) :
  Forall2 (fun business fields => nth_error ((store ++ records) ++ later) business = Some fields)
    (seq (List.length store) (List.length records)) records.
Proof.
  revert store. induction records as [|b records IH]; intros store; [constructor|].
  cbn [List.length seq]. constructor.
  - rewrite <- app_assoc, nth_error_app2, Nat.sub_diag by apply le_n. reflexivity.
  - specialize (IH (store ++ [b])). rewrite length_app in IH. cbn [List.length] in IH.
    rewrite Nat.add_1_r in IH. rewrite <- (app_assoc store [b] records) in IH. exact IH.
Qed.

(** The loop over the businesses on addresses is the loop on the fields of
    the records, and leaves the store as it was. *)
Lemma process_businesses_at_spec (store : Store) (businesses : list Address)
      (records : list BusinessRecord) :
  Forall2 (fun business fields => nth_error store business = Some fields)
    businesses records ->
  forall s t,
    process_businesses_at env _config businesses s store t
    = with_store store (process_businesses env _config records s t).
Proof.
  induction 1 as [|a b addresses records Hload _ IH]; intros s t; [reflexivity|].
  cbn [process_businesses_at process_businesses].
  rewrite (fetch_business_documents_at_spec a store b t Hload).
  destruct (fetch_business_documents_returns b t) as (p & t1 & ->).
  cbn [with_store]. apply IH.
Qed.

(** The run with the store of the records: the run as it is, and the
    store with the records of the search behind it. *)
Lemma process_search_and_download_at_spec (query : string) (store : Store) (t : Trace) :
  process_search_and_download_at env _config query store t
  = with_store (store ++ records_found env _config query t)
      (process_search_and_download env _config query t).
Proof.
  unfold process_search_and_download_at, process_search_and_download, records_found.
  destruct (search_businesses env _config query t) as [[records|e] t1]; cbn [fst].
  - unfold allocate. rewrite length_seq.
    apply process_businesses_at_spec.
    rewrite <- (app_nil_r (store ++ records)). apply allocate_loads.
  - rewrite app_nil_r. unfold on_search_error.
    destruct (of_class SearchOperationError e); reflexivity.
Qed.

(** C3, as amended.  [pdf_documents] is empty in every record the
    extractor builds, and it is empty in every record a search returns.
    Nothing populates it afterwards.  [fetch_business_documents] reads the
    name and the detail link of a record and nothing else: on two records
    that agree on these it does the same; after a successful detail fetch
    it downloads the links found on the page; and it leaves the store of
    the records as it was.  A run leaves the store as it was, with the
    records of its search behind it as the extractor built them. *)
Theorem pdf_documents_stays_empty :
  (forall html_content businesses,
      _extract_business_records env _config html_content = Return businesses ->
      Forall (fun business => pdf_documents business = []) businesses)
  /\ (forall query t businesses t1,
        search_businesses env _config query t = (Return businesses, t1) ->
        Forall (fun business => pdf_documents business = []) businesses)
  /\ (forall business1 business2 t,
        entity_name business1 = entity_name business2 ->
        detail_link business1 = detail_link business2 ->
        fetch_business_documents env _config business1 t
        = fetch_business_documents env _config business2 t)
  /\ (forall business t response t1 pdf_links,
        _perform_request env _config (detail_link business) 0 t = (Return response, t1) ->
        _locate_pdf_links env _config (text response) = Return pdf_links ->
        fetch_business_documents env _config business t
        = download_all env _config (entity_name business) pdf_links [] t1)
  /\ (forall business store fields t,
        nth_error store business = Some fields ->
        fetch_business_documents_at env _config business store t
        = with_store store (fetch_business_documents env _config fields t))
  /\ (forall query store t,
        process_search_and_download_at env _config query store t
        = with_store (store ++ records_found env _config query t)
            (process_search_and_download env _config query t)
        /\ Forall (fun business => pdf_documents business = [])
             (records_found env _config query t)).
Proof.
  assert (Hext : forall html bs,
             _extract_business_records env _config html = Return bs ->
             Forall (fun b => pdf_documents b = []) bs).
  { intros html bs H. unfold _extract_business_records in H.
    destruct (locate_result_table html) as [table|]; [|injection H as <-; constructor].
    apply for_each_extract_return in H. destruct H as (added & -> & _ & Hall).
    exact Hall. }
  assert (Hsearch : forall query t bs t1,
             search_businesses env _config query t = (Return bs, t1) ->
             Forall (fun b => pdf_documents b = []) bs).
  { intros query t bs t1 H. rewrite search_businesses_spec in H.
    destruct (urljoin env _ _) as [u|e]; [|discriminate].
    destruct (_perform_request env _config _ 0 t) as [[r|e] t']; [|discriminate].
    destruct (_extract_business_records env _config (text r)) as [bs'|e] eqn:He;
      [|discriminate].
    injection H as <- _. now apply (Hext (text r)). }
  split; [exact Hext|]. split; [exact Hsearch|]. split; [|split; [|split; [|split]]].
  - intros b1 b2 t Hn Hl. now rewrite !fetch_business_documents_spec, Hn, Hl.
  - intros b t r t1 links Hreq Hlinks.
    now rewrite fetch_business_documents_spec, Hreq, Hlinks.
  - intros a store b t Hload. now apply fetch_business_documents_at_spec.
  - apply process_search_and_download_at_spec.
  - unfold records_found.
    destruct (search_businesses env _config query t) as [[bs|e] t1] eqn:Hs; cbn [fst];
      [now apply (Hsearch query t bs t1) | constructor].
Qed.

End Pipeline.

(** Scenario D: the search finds Acme LLC, and its detail page times out. *)
Lemma only_search_failures_reach_the_outcome_witness :
  fst (process_search_and_download Examples.env_search_only default_configuration "Acme" [])
  = Return {| search_query := "Acme"; businesses_found := 1;
              documents_downloaded := 0; downloaded_files := []; errors := [] |}.
Proof.
  destruct (only_search_failures_reach_the_outcome Examples.env_search_only
              default_configuration "Acme" []) as (_ & _ & _ & _ & Hd & _).
  rewrite (Hd Examples.acme_record
             (snd (search_businesses Examples.env_search_only default_configuration "Acme" []))
             (mkExn SearchOperationError "Request failed after retries: Read timed out.")
             (snd (_perform_request Examples.env_search_only default_configuration
                     "https://www.sosnc.gov/biz/1" 0
                     (snd (search_businesses Examples.env_search_only
                             default_configuration "Acme" []))))).
  - reflexivity.
  - vm_compute. reflexivity.
  - vm_compute. reflexivity.
Defined.

(** The run on a site where everything works: two documents, two files. *)
Lemma documents_downloaded_counts_files_witness :
  fst (process_search_and_download (Examples.env_up Examples.detail_page)
         default_configuration "Acme" [])
  = Return Examples.acme_outcome
  /\ documents_downloaded Examples.acme_outcome
     = List.length (downloaded_files Examples.acme_outcome).
Proof.
  split; [vm_compute; reflexivity|].
  apply (proj1 (documents_downloaded_counts_files
                  (Examples.env_up Examples.detail_page) default_configuration "Acme" [])
           Examples.acme_outcome
           (snd (process_search_and_download (Examples.env_up Examples.detail_page)
                   default_configuration "Acme" []))).
  vm_compute. reflexivity.
Defined.

(** C3, the claim as stated fails.  The search finds Acme LLC; its detail
    page is fetched and has two document links; both documents are
    downloaded; the record's [pdf_documents] is empty all the same. *)
Lemma pdf_documents_not_populated :
  fst (search_businesses (Examples.env_up Examples.detail_page)
         default_configuration "Acme" [])
  = Return [Examples.acme_record]
  /\ fst (_perform_request (Examples.env_up Examples.detail_page) default_configuration
            (detail_link Examples.acme_record) 0
            (snd (search_businesses (Examples.env_up Examples.detail_page)
                    default_configuration "Acme" [])))
     = Return (Examples.ok_response Examples.detail_page "")
  /\ _locate_pdf_links (Examples.env_up Examples.detail_page) default_configuration
       Examples.detail_page
     = Return ["https://www.sosnc.gov/d/a.pdf"; "https://www.sosnc.gov/d/B.PDF"]
  /\ documents_downloaded_of
       (fst (process_search_and_download (Examples.env_up Examples.detail_page)
               default_configuration "Acme" [])) = Some 2
  /\ pdf_documents Examples.acme_record = []
  /\ pdf_documents Examples.acme_record
     <> ["https://www.sosnc.gov/d/a.pdf"; "https://www.sosnc.gov/d/B.PDF"]
  /\ fst (process_search_and_download_at (Examples.env_up Examples.detail_page)
            default_configuration "Acme" [] [])
     = Return (Examples.acme_outcome, [Examples.acme_record]).
Proof.
  repeat split; try (vm_compute; reflexivity). intros H. discriminate H.
Qed.

Lemma pdf_documents_stays_empty_witness :
  Forall (fun business => pdf_documents business = []) [Examples.acme_record].
Proof.
  apply (proj1 (pdf_documents_stays_empty (Examples.env_up Examples.detail_page)
                  default_configuration) Examples.search_page).
  vm_compute. reflexivity.
Defined.

(* ------------------------------------------------------------------ *)
(** ** The downloader: the name of a saved document *)

Section FileNames.

Lemma length_append (a b : string) :
  String.length (a +++ b) = String.length a + String.length b.
Proof. induction a as [|c a IH]; cbn; [reflexivity | now rewrite IH]. Qed.

Lemma append_assoc (a b c : string) : (a +++ b) +++ c = a +++ b +++ c.
Proof. induction a as [|x a IH]; cbn; [reflexivity | now rewrite IH]. Qed.

Lemma append_inv_head (a b c : string) : a +++ b = a +++ c -> b = c.
Proof. induction a as [|x a IH]; cbn; intros H; [exact H | injection H as H; auto]. Qed.

(** Two strings of the same length in front of two others. *)
Lemma append_inv_length (a b c d : string) :
  String.length a = String.length b -> a +++ c = b +++ d -> a = b /\ c = d.
Proof.
  revert b. induction a as [|x a IH]; intros [|y b] Hlen H; cbn in *; try discriminate.
  - now split.
  - injection H as -> H. injection Hlen as Hlen.
    destruct (IH b Hlen H) as [-> ->]. now split.
Qed.

Lemma sforall_append (p : ascii -> bool) (a b : string) :
  PyStr.sforall p (a +++ b) = PyStr.sforall p a && PyStr.sforall p b.
Proof. induction a as [|c a IH]; cbn; [reflexivity | now rewrite IH, andb_assoc]. Qed.

Lemma sforall_impl (p q : ascii -> bool) (s : string) :
  (forall c, p c = true -> q c = true) ->
  PyStr.sforall p s = true -> PyStr.sforall q s = true.
Proof.
  intros Hpq. induction s as [|c s IH]; cbn; [reflexivity|].
  intros H. apply andb_true_iff in H. destruct H as [Hc Hs].
  now rewrite (Hpq c Hc), IH.
Qed.

Lemma sforall_sfilter (p : ascii -> bool) (s : string) :
  PyStr.sforall p (PyStr.sfilter p s) = true.
Proof.
  induction s as [|c s IH]; cbn; [reflexivity|].
  destruct (p c) eqn:Hc; [cbn; now rewrite Hc | exact IH].
Qed.

Lemma sfilter_ext (p q : ascii -> bool) (s : string) :
  (forall c, p c = q c) -> PyStr.sfilter p s = PyStr.sfilter q s.
Proof. intros H. induction s as [|c s IH]; cbn; [reflexivity | now rewrite H, IH]. Qed.

Lemma sforall_take (p : ascii -> bool) (n : nat) (s : string) :
  PyStr.sforall p s = true -> PyStr.sforall p (PyStr.take n s) = true.
Proof.
  revert s. induction n as [|n IH]; intros [|c s]; cbn; try reflexivity.
  intros H. apply andb_true_iff in H. destruct H as [Hc Hs]. now rewrite Hc, IH.
Qed.

Lemma length_take (n : nat) (s : string) : String.length (PyStr.take n s) <= n.
Proof.
  revert s. induction n as [|n IH]; intros [|c s]; cbn; try lia.
  specialize (IH s). lia.
Qed.

(** The class [\w] is the letters, the digits and the underscore. *)
Lemma re_word_classes (c : ascii) :
  re_word c = PyStr.isalpha c || PyStr.isnumeric c || is_underscore c.
Proof. destruct c as [[] [] [] [] [] [] [] []]; reflexivity. Qed.

Lemma safe_char_classes (c : ascii) :
  safe_char c = letter_digit_space_hyphen c || is_underscore c.
Proof. destruct c as [[] [] [] [] [] [] [] []]; reflexivity. Qed.

Lemma hexdigit_is_hex (n : N) : (n < 16)%N -> is_hex (PyStr.hexdigit n) = true.
Proof.
  intros H.
  assert (Hin : In n (map N.of_nat (seq 0 16))).
  { apply in_map_iff. exists (N.to_nat n). split; [lia|]. apply in_seq. lia. }
  cbn in Hin. repeat (destruct Hin as [<-|Hin]; [reflexivity|]). contradiction.
Qed.

Lemma hex2_shape (b : N) :
  String.length (PyStr.hex2 b) = 2 /\ PyStr.sforall is_hex (PyStr.hex2 b) = true.
Proof.
  split; [reflexivity|]. unfold PyStr.hex2. cbn [PyStr.sforall].
  rewrite !hexdigit_is_hex; [reflexivity | |]; apply N.mod_lt; discriminate.
Qed.

(** The first eight digits of a digest are the first four of its bytes. *)
Lemma url_hash_shape (pdf_url : string) :
  String.length (url_hash_of pdf_url) = 8
  /\ PyStr.sforall is_hex (url_hash_of pdf_url) = true.
Proof.
  unfold url_hash_of, MD5.hexdigest, MD5.digest.
  destruct (fold_left MD5.compress _ MD5.init) as [[[A B] C] D].
  cbn [MD5.bytes_le seq map app String.concat].
  set (h := fun x => PyStr.hex2 (Z.to_N x)).
  destruct (hex2_shape (Z.to_N (Z.shiftr A (8 * Z.of_nat 0) mod 256))) as [_ H0].
  destruct (hex2_shape (Z.to_N (Z.shiftr A (8 * Z.of_nat 1) mod 256))) as [_ H1].
  destruct (hex2_shape (Z.to_N (Z.shiftr A (8 * Z.of_nat 2) mod 256))) as [_ H2].
  destruct (hex2_shape (Z.to_N (Z.shiftr A (8 * Z.of_nat 3) mod 256))) as [_ H3].
  unfold PyStr.hex2 in *. cbn [append PyStr.take String.length PyStr.sforall] in *.
  split; [reflexivity|].
  rewrite andb_true_r in H0, H1, H2, H3.
  apply andb_true_iff in H0, H1, H2, H3.
  destruct H0 as [-> ->], H1 as [-> ->], H2 as [-> ->], H3 as [-> ->]. reflexivity.
Qed.

(** A field of a timestamp has [w] digits for every number of a range, by
    enumeration of the range. *)
Lemma digits_range (field : N -> string) (w : nat) (lo len n : N) :
  forallb (fun k => digits_exactly w (field k))
          (map N.of_nat (seq (N.to_nat lo) (N.to_nat len))) = true ->
  (lo <= n < lo + len)%N ->
  digits_exactly w (field n) = true.
Proof.
  intros Hall Hn. rewrite forallb_forall in Hall.
  apply (Hall n).
  apply in_map_iff. exists (N.to_nat n). split; [lia|]. apply in_seq. lia.
Qed.

Lemma year_digits (y : N) :
  (1000 <= y <= 9999)%N -> digits_exactly 4 (PyStr.str_of_N y) = true.
Proof.
  intros H. apply (digits_range PyStr.str_of_N 4 1000 9000); [vm_compute; reflexivity | lia].
Qed.

Lemma zfill_two (n : N) : (n <= 99)%N -> digits_exactly 2 (PyStr.zfill 2 n) = true.
Proof.
  intros H. apply (digits_range (PyStr.zfill 2) 2 0 100); [vm_compute; reflexivity | lia].
Qed.

Ltac explode4 H s :=
  unfold digits_exactly in H; apply andb_true_iff in H;
  let Hl := fresh "Hl" in let Hd := fresh "Hd" in
  destruct H as [Hl Hd];
  destruct s as [|? [|? [|? [|? [|? ?]]]]]; try discriminate Hl; clear Hl;
  cbn [PyStr.sforall] in Hd; rewrite andb_true_r in Hd;
  let H1 := fresh "Hc" in let H2 := fresh "Hc" in
  let H3 := fresh "Hc" in let H4 := fresh "Hc" in
  apply andb_true_iff in Hd; destruct Hd as [H1 Hd];
  apply andb_true_iff in Hd; destruct Hd as [H2 Hd];
  apply andb_true_iff in Hd; destruct Hd as [H3 H4].

Ltac explode2 H s :=
  unfold digits_exactly in H; apply andb_true_iff in H;
  let Hl := fresh "Hl" in let Hd := fresh "Hd" in
  destruct H as [Hl Hd];
  destruct s as [|? [|? [|? ?]]]; try discriminate Hl; clear Hl;
  cbn [PyStr.sforall] in Hd; rewrite andb_true_r in Hd;
  let H1 := fresh "Hc" in let H2 := fresh "Hc" in
  apply andb_true_iff in Hd; destruct Hd as [H1 H2].

Lemma decimal_not_slash (c : ascii) : is_decimal c = true -> Ascii.eqb "/" c = false.
Proof. destruct c as [[] [] [] [] [] [] [] []]; intros H; try reflexivity; discriminate H. Qed.

(** Six runs of digits of the right lengths make a timestamp, and no
    slash. *)
Lemma timestamp_of_digits (y mo d h mi s : string) :
  digits_exactly 4 y = true -> digits_exactly 2 mo = true -> digits_exactly 2 d = true ->
  digits_exactly 2 h = true -> digits_exactly 2 mi = true -> digits_exactly 2 s = true ->
  timestamp_shaped (y +++ mo +++ d +++ "_" +++ h +++ mi +++ s) = true
  /\ PyStr.has_char "/" (y +++ mo +++ d +++ "_" +++ h +++ mi +++ s) = false
  /\ String.length (y +++ mo +++ d +++ "_" +++ h +++ mi +++ s) = 15.
Proof.
  intros Hy Hmo Hd Hh Hmi Hs.
  explode4 Hy y. explode2 Hmo mo. explode2 Hd d.
  explode2 Hh h. explode2 Hmi mi. explode2 Hs s.
  split; [|split; [|reflexivity]].
  - unfold timestamp_shaped.
    cbn [append String.length PyStr.take PyStr.drop PyStr.sforall Nat.eqb String.eqb
         Ascii.eqb Bool.eqb andb].
    repeat match goal with H : is_decimal _ = true |- _ => rewrite H; clear H end.
    reflexivity.
  - unfold PyStr.has_char. cbn [append PyStr.sexists].
    repeat match goal with
           | H : is_decimal _ = true |- _ => rewrite (decimal_not_slash _ H); clear H
           end.
    reflexivity.
Qed.

Lemma strftime_shape (dt : DateTime) :
  wf_datetime dt ->
  timestamp_shaped (strftime dt) = true
  /\ PyStr.has_char "/" (strftime dt) = false
  /\ String.length (strftime dt) = 15.
Proof.
  intros (Hy & Hmo & Hd & Hh & Hmi & Hs). unfold strftime.
  apply timestamp_of_digits;
    [apply year_digits | apply zfill_two ..]; lia.
Qed.

Lemma is_slash_eqb (c : ascii) : PathLib.is_slash c = Ascii.eqb "/" c.
Proof. destruct c as [[] [] [] [] [] [] [] []]; reflexivity. Qed.

Lemma safe_char_not_slash (c : ascii) : safe_char c = true -> Ascii.eqb "/" c = false.
Proof. destruct c as [[] [] [] [] [] [] [] []]; intros H; try reflexivity; discriminate H. Qed.

Lemma hex_not_slash (c : ascii) : is_hex c = true -> Ascii.eqb "/" c = false.
Proof. destruct c as [[] [] [] [] [] [] [] []]; intros H; try reflexivity; discriminate H. Qed.

Lemma has_char_append (c : ascii) (a b : string) :
  PyStr.has_char c (a +++ b) = PyStr.has_char c a || PyStr.has_char c b.
Proof.
  unfold PyStr.has_char. induction a as [|x a IH]; cbn; [reflexivity|].
  now rewrite IH, orb_assoc.
Qed.

Lemma has_char_sforall (c : ascii) (p : ascii -> bool) (s : string) :
  (forall x, p x = true -> Ascii.eqb c x = false) ->
  PyStr.sforall p s = true -> PyStr.has_char c s = false.
Proof.
  intros Hp. unfold PyStr.has_char. induction s as [|x s IH]; cbn; [reflexivity|].
  intros H. apply andb_true_iff in H. destruct H as [Hx Hs]. now rewrite (Hp x Hx), IH.
Qed.

(** A name without a slash splits into itself. *)
Lemma split_no_slash (f : string) :
  PyStr.has_char "/" f = false -> PyStr.split "/" f = [f].
Proof.
  unfold PyStr.has_char. induction f as [|c f IH]; cbn [PyStr.sexists PyStr.split];
    [reflexivity|].
  intros H. apply orb_false_iff in H. destruct H as [Hc Hf].
  rewrite Ascii.eqb_sym, Hc, (IH Hf). reflexivity.
Qed.

Lemma lstrip_no_slash (f : string) :
  PyStr.has_char "/" f = false -> PyStr.lstrip_by PathLib.is_slash f = f.
Proof.
  unfold PyStr.has_char. destruct f as [|c f]; cbn [PyStr.sexists PyStr.lstrip_by];
    [reflexivity|].
  intros H. apply orb_false_iff in H. destruct H as [Hc _].
  now rewrite is_slash_eqb, Hc.
Qed.

(** [Path(f)] for a name of one component. *)
Lemma of_str_component (f : string) :
  PyStr.has_char "/" f = false -> 2 <= String.length f ->
  PathLib.of_str f = PathLib.mkPath "" [f].
Proof.
  intros Hs Hl. unfold PathLib.of_str.
  rewrite (lstrip_no_slash f Hs), Nat.sub_diag, (split_no_slash f Hs). cbn.
  destruct f as [|c [|c' f]]; cbn in Hl; try lia.
  unfold PathLib.keep_part. cbn. destruct (Ascii.eqb c "."); reflexivity.
Qed.

Lemma join_last_inj (ps : list string) (f1 f2 : string) :
  PyStr.join "/" (ps ++ [f1]) = PyStr.join "/" (ps ++ [f2]) -> f1 = f2.
Proof.
  induction ps as [|p ps IH]; cbn [app PyStr.join]; [auto|].
  destruct ps as [|q ps]; cbn [app] in *.
  - intros H. apply append_inv_head in H. cbn in H. now injection H.
  - intros H. apply append_inv_head in H. cbn in H. injection H as H. now apply IH.
Qed.

(** In one directory, two names of one component give different paths. *)
Lemma child_path_inj (dir : PathLib.Path) (f1 f2 : string) :
  PathLib.to_str (PathLib.joinpath dir (PathLib.mkPath "" [f1]))
  = PathLib.to_str (PathLib.joinpath dir (PathLib.mkPath "" [f2])) ->
  f1 = f2.
Proof.
  unfold PathLib.joinpath, PathLib.to_str. cbn [PathLib.root PathLib.parts].
  intros H. apply (join_last_inj (PathLib.parts dir)).
  destruct (PathLib.root dir) as [|c r];
    destruct (PathLib.parts dir) as [|p ps]; cbn [app] in *;
    try (now apply append_inv_head in H); exact H.
Qed.

Lemma filename_component (business_name pdf_url : string) (dt : DateTime) :
  wf_datetime dt ->
  PyStr.has_char "/" (filename_of business_name pdf_url dt) = false
  /\ 2 <= String.length (filename_of business_name pdf_url dt).
Proof.
  intros Hdt. destruct (strftime_shape dt Hdt) as (_ & Hts & Hlen).
  destruct (url_hash_shape pdf_url) as [Hhl Hhx].
  unfold filename_of. split.
  - rewrite !has_char_append, Hts.
    rewrite (has_char_sforall "/" safe_char);
      [|apply safe_char_not_slash | apply sforall_take, sforall_sfilter].
    rewrite (has_char_sforall "/" is_hex _ hex_not_slash Hhx). reflexivity.
  - rewrite !length_append, Hhl. cbn. lia.
Qed.

(** C6, as amended.  The name of a saved document is the sanitized
    business name, an underscore, eight hexadecimal digits, an underscore,
    the timestamp [YYYYMMDD_HHMMSS] and [.pdf].  The sanitized name is what
    is left of the business name when everything but letters, digits,
    underscores, whitespace and hyphens is removed, cut to 50 characters.
    The name is at most 50 + 29 characters long, and it is the last
    component of the path [_download_pdf_file] writes and returns. *)
Theorem download_filename_shape (business_name pdf_url : string) (dt : DateTime) :
  wf_datetime dt ->
  filename_of business_name pdf_url dt
  = safe_name_of business_name +++ "_" +++ url_hash_of pdf_url +++ "_"
    +++ strftime dt +++ ".pdf"
  /\ safe_name_of business_name
     = PyStr.take FILENAME_MAX_LENGTH
         (PyStr.sfilter (fun c => letter_digit_space_hyphen c || is_underscore c)
            business_name)
  /\ PyStr.sforall (fun c => letter_digit_space_hyphen c || is_underscore c)
       (safe_name_of business_name) = true
  /\ String.length (safe_name_of business_name) <= FILENAME_MAX_LENGTH
  /\ String.length (url_hash_of pdf_url) = 8
  /\ PyStr.sforall is_hex (url_hash_of pdf_url) = true
  /\ timestamp_shaped (strftime dt) = true
  /\ String.length (filename_of business_name pdf_url dt)
     <= FILENAME_MAX_LENGTH + FILENAME_SUFFIX_LENGTH
  /\ (forall env _config t saved_path t',
        _download_pdf_file env _config pdf_url business_name t = (Return saved_path, t') ->
        exists t1 data,
          saved_path
          = PathLib.to_str
              (PathLib.joinpath (_storage_path _config)
                 (PathLib.of_str
                    (filename_of business_name pdf_url (datetime_now env t1))))
          /\ t' = t1 ++ [EWrite saved_path data]).
Proof.
  intros Hdt. destruct (strftime_shape dt Hdt) as (Hts & _ & Htl).
  destruct (url_hash_shape pdf_url) as [Hhl Hhx].
  assert (Hsafe : safe_name_of business_name
                  = PyStr.take FILENAME_MAX_LENGTH
                      (PyStr.sfilter
                         (fun c => letter_digit_space_hyphen c || is_underscore c)
                         business_name)).
  { unfold safe_name_of. f_equal. apply sfilter_ext, safe_char_classes. }
  split; [reflexivity|]. split; [exact Hsafe|]. split; [|split; [|split; [|split; [|split; [|split]]]]].
  - rewrite Hsafe. apply sforall_take, sforall_sfilter.
  - apply length_take.
  - exact Hhl.
  - exact Hhx.
  - exact Hts.
  - unfold filename_of. rewrite !length_append, Hhl, Htl.
    pose proof (length_take FILENAME_MAX_LENGTH (PyStr.sfilter safe_char business_name)).
    unfold safe_name_of, FILENAME_SUFFIX_LENGTH. cbn [String.length]. lia.
  - intros env cfg t p t' H. rewrite download_pdf_file_spec in H.
    destruct (_perform_request env cfg pdf_url 0 t) as [[r|e] t1]; [|discriminate].
    cbv zeta in H. destruct (open_file env t1 _); [discriminate|].
    destruct (write_file env t1 _ _); [discriminate|].
    injection H as <- <-. now exists t1, (content r).
Qed.

(** C7, as amended.  For one business and one timestamp, two source URLs
    get the same file name, and therefore the same path in the storage
    directory, exactly when the first eight hexadecimal digits of their MD5
    digests agree. *)
Theorem same_name_iff_same_hash
        (_config : ScraperConfiguration) (business_name url1 url2 : string) (dt : DateTime) :
  wf_datetime dt ->
  (filename_of business_name url1 dt = filename_of business_name url2 dt
   <-> url_hash_of url1 = url_hash_of url2)
  /\ (PathLib.to_str
        (PathLib.joinpath (_storage_path _config)
           (PathLib.of_str (filename_of business_name url1 dt)))
      = PathLib.to_str
          (PathLib.joinpath (_storage_path _config)
             (PathLib.of_str (filename_of business_name url2 dt)))
      <-> url_hash_of url1 = url_hash_of url2).
Proof.
  intros Hdt.
  assert (Hname : filename_of business_name url1 dt = filename_of business_name url2 dt
                  <-> url_hash_of url1 = url_hash_of url2).
  { unfold filename_of. split.
    - intros H. apply append_inv_head in H. cbn [append] in H. injection H as H.
      apply append_inv_length in H; [tauto|].
      now rewrite (proj1 (url_hash_shape url1)), (proj1 (url_hash_shape url2)).
    - now intros ->. }
  split; [exact Hname|]. rewrite <- Hname.
  destruct (filename_component business_name url1 dt Hdt) as [Hs1 Hl1].
  destruct (filename_component business_name url2 dt Hdt) as [Hs2 Hl2].
  rewrite (of_str_component _ Hs1 Hl1), (of_str_component _ Hs2 Hl2). split.
  - apply child_path_inj.
  - now intros ->.
Qed.

End FileNames.

Lemma noon_wf : wf_datetime Examples.noon.
Proof. unfold wf_datetime. cbn. lia. Defined.

(** C6, the claim as stated fails: the underscore of [A_B] stays in the
    sanitized name, and it is no letter, digit, whitespace or hyphen. *)
Lemma safe_name_keeps_underscore :
  safe_name_of "A_B" = "A_B"
  /\ PyStr.sforall letter_digit_space_hyphen (safe_name_of "A_B") = false
  /\ filename_of "A_B" "https://www.sosnc.gov/d/a.pdf" Examples.noon
     = "A_B_b4284ef3_20240309_120005.pdf".
Proof. repeat split; vm_compute; reflexivity. Qed.

Lemma download_filename_shape_witness :
  String.length (filename_of "Acme LLC" "https://www.sosnc.gov/d/a.pdf" Examples.noon)
  <= FILENAME_MAX_LENGTH + FILENAME_SUFFIX_LENGTH.
Proof.
  apply (download_filename_shape "Acme LLC" "https://www.sosnc.gov/d/a.pdf"
           Examples.noon noon_wf).
Defined.

(** C7, the claim as stated fails.  The two URLs are distinct and share the
    hash [1c69276c]; downloaded for one business in one second they get one
    file name, and the run writes both documents to one path. *)
Lemma distinct_urls_same_file :
  Examples.twin_url_1 <> Examples.twin_url_2
  /\ url_hash_of Examples.twin_url_1 = "1c69276c"
  /\ url_hash_of Examples.twin_url_2 = "1c69276c"
  /\ filename_of "Acme LLC" Examples.twin_url_1 Examples.noon
     = filename_of "Acme LLC" Examples.twin_url_2 Examples.noon
  /\ fst (fetch_business_documents (Examples.env_up Examples.twins_page)
            default_configuration Examples.acme_record [])
     = Return ["fetched_documents/Acme LLC_1c69276c_20240309_120005.pdf";
               "fetched_documents/Acme LLC_1c69276c_20240309_120005.pdf"].
Proof. repeat split; try (vm_compute; reflexivity). discriminate. Qed.

Lemma same_name_iff_same_hash_witness :
  filename_of "Acme LLC" "https://www.sosnc.gov/d/a.pdf" Examples.noon
  <> filename_of "Acme LLC" "https://www.sosnc.gov/d/B.PDF" Examples.noon.
Proof.
  intros H.
  apply (proj1 (same_name_iff_same_hash default_configuration "Acme LLC"
                  "https://www.sosnc.gov/d/a.pdf" "https://www.sosnc.gov/d/B.PDF"
                  Examples.noon noon_wf)) in H.
  vm_compute in H. discriminate H.
Defined.

(* ------------------------------------------------------------------ *)
(** ** What a run does to the outside *)

Section Runs.

Variable env : Env.
Variable _config : ScraperConfiguration.

Local Abbreviation delay := (seconds (request_delay_seconds _config)).

Lemma delay_before_each_get_nil : delay_before_each_get _config [].
Proof. intros pre post u timeout H. destruct pre; discriminate. Qed.

Lemma delay_before_each_get_app (a b : Trace) :
  delay_before_each_get _config a -> delay_before_each_get _config b ->
  delay_before_each_get _config (a ++ b).
Proof.
  intros Ha Hb pre post u timeout Heq.
  apply app_eq_app in Heq. destruct Heq as [l' [[-> Heq]|[-> Heq]]].
  - destruct l' as [|x l'].
    + cbn in Heq. symmetry in Heq.
      destruct (Hb [] post u timeout Heq) as [pre' Hpre]. destruct pre'; discriminate.
    + cbn in Heq. injection Heq as <- _. eapply Ha. reflexivity.
  - destruct (Hb l' post u timeout Heq) as [pre' ->].
    exists (a ++ pre'). now rewrite app_assoc.
Qed.

Lemma delay_before_each_get_other (ev : Event) :
  (forall u timeout, ev <> EGet u timeout) -> delay_before_each_get _config [ev].
Proof.
  intros Hev pre post u timeout H.
  destruct pre as [|x pre]; cbn in H.
  - injection H as H _. now apply Hev in H.
  - injection H as _ H. destruct pre; discriminate.
Qed.

Lemma delay_before_each_get_attempt (target_url : string) :
  delay_before_each_get _config (attempt_events _config target_url).
Proof.
  intros pre post u timeout H. unfold attempt_events in H.
  destruct pre as [|x1 [|x2 pre]]; cbn in H; try discriminate.
  - injection H as <- _. now exists [].
  - injection H as _ _ H. destruct pre; discriminate.
Qed.

Lemma written_app (a b : Trace) : written (a ++ b) = written a ++ written b.
Proof. apply flat_map_app. Qed.

Lemma requested_app (a b : Trace) : requested (a ++ b) = requested a ++ requested b.
Proof. apply flat_map_app. Qed.

Lemma tidy_app (a b : Trace) (fa fb : list string) :
  tidy _config a fa -> tidy _config b fb -> tidy _config (a ++ b) (fa ++ fb).
Proof.
  intros [Ha <-] [Hb <-]. split; [now apply delay_before_each_get_app | apply written_app].
Qed.

Lemma tidy_nil : tidy _config [] [].
Proof. split; [apply delay_before_each_get_nil | reflexivity]. Qed.

Lemma truncated_app (a b : Trace) : truncated (a ++ b) = truncated a ++ truncated b.
Proof. apply flat_map_app. Qed.

(** One call of [_perform_request] unfolded once, whatever the
    configuration and the environment: [retry] is what the handler does
    with an exception raised after the trace [t1]. *)
Lemma perform_request_rec_unfold (room : nat) (target_url : string) (retry_count : Z)
      (t : Trace) :
  perform_request_rec env _config room target_url retry_count t =
  let retry (e : Exn) (t1 : Trace) :=
    if of_class RequestException e then
      if (retry_count <? max_retry_attempts _config)%Z then
        match room with
        | O => (Raise recursion_limit_reached, t1)
        | S room' =>
            match sleep_refusal env (IntSeconds ((retry_count + 1) * 2)) t1 with
            | Some e' => (Raise e', t1)
            | None =>
                perform_request_rec env _config room' target_url (retry_count + 1)
                  (t1 ++ [ESleep (inject_Z ((retry_count + 1) * 2))])
            end
        end
      else (Raise (mkExn SearchOperationError
                     ("Request failed after retries: " +++ exn_str e)), t1)
    else (Raise e, t1) in
  match sleep_refusal env (FloatSeconds (request_delay_seconds _config)) t with
  | Some e => retry e t
  | None =>
      match attempt_outcome env _config target_url t with
      | Return r => (Return r, t ++ attempt_events _config target_url)
      | Raise e => retry e (t ++ attempt_events _config target_url)
      end
  end.
Proof.
  destruct room; cbn [perform_request_rec];
    unfold try_except, bind, lift, ret, raise, time_sleep, http_get, attempt_outcome;
    cbn [length_of];
    (destruct (sleep_refusal env (FloatSeconds _) t) as [e0|];
     [destruct (of_class RequestException e0); [|reflexivity];
      destruct (retry_count <? max_retry_attempts _config)%Z; [|reflexivity];
      try reflexivity;
      destruct (sleep_refusal env (IntSeconds _) t); reflexivity|]);
    rewrite app_assoc3;
    change ([ESleep delay] ++ [EGet target_url (connection_timeout _config)])
      with (attempt_events _config target_url);
    (destruct (session_get env _ target_url _) as [r|e];
     [destruct (raise_for_status r) as [[]|e]|]); cbn; try reflexivity;
    destruct (of_class RequestException e); try reflexivity;
    destruct (retry_count <? max_retry_attempts _config)%Z; try reflexivity;
    destruct (sleep_refusal env (IntSeconds _) _); reflexivity.
Qed.

Lemma request_like_nil (target_url : string) (bound : nat) :
  request_like _config target_url bound [].
Proof.
  repeat split.
  - apply delay_before_each_get_nil.
  - intros u [].
  - cbn. lia.
Qed.

Lemma request_like_attempt (target_url : string) (bound : nat) :
  request_like _config target_url bound (attempt_events _config target_url).
Proof.
  repeat split.
  - apply delay_before_each_get_attempt.
  - cbn. intros u [<-|[]]. reflexivity.
  - cbn. lia.
Qed.

Lemma request_like_sleep (target_url : string) (bound : nat) (s : Q) (evs : Trace) :
  request_like _config target_url bound evs ->
  request_like _config target_url bound (ESleep s :: evs).
Proof.
  intros ([Hd Hw] & Hr & Hc & Ht). repeat split; auto.
  change (ESleep s :: evs) with ([ESleep s] ++ evs).
  apply delay_before_each_get_app; [|exact Hd].
  apply delay_before_each_get_other. discriminate.
Qed.

Lemma request_like_retry (target_url : string) (bound : nat) (s : Q) (evs : Trace) :
  request_like _config target_url bound evs ->
  request_like _config target_url (S bound)
    (attempt_events _config target_url ++ ESleep s :: evs).
Proof.
  intros H. apply (request_like_sleep _ _ s) in H.
  destruct H as ([Hd Hw] & Hr & Hc & Ht).
  destruct (request_like_attempt target_url bound) as ([Hd' Hw'] & Hr' & _ & Ht').
  repeat split.
  - now apply delay_before_each_get_app.
  - now rewrite written_app, Hw, Hw'.
  - intros u Hu. rewrite requested_app in Hu. apply in_app_or in Hu.
    destruct Hu as [Hu|Hu]; [now apply Hr' | now apply Hr].
  - rewrite count_gets_app. cbn in *. lia.
  - now rewrite truncated_app, Ht, Ht'.
Qed.

Lemma request_like_le (target_url : string) (a b : nat) (evs : Trace) :
  a <= b -> request_like _config target_url a evs -> request_like _config target_url b evs.
Proof. intros Hab (H1 & H2 & H3 & H4). repeat split; auto; try apply H1. lia. Qed.

Lemma perform_request_rec_events (target_url : string) (room : nat) :
  forall (retry_count : Z) (t : Trace),
  exists evs,
    snd (perform_request_rec env _config room target_url retry_count t) = t ++ evs
    /\ request_like _config target_url
         (Nat.min room (Z.to_nat (max_retry_attempts _config - retry_count))) evs.
Proof.
  induction room as [|room IH]; intros retry_count t;
    rewrite perform_request_rec_unfold; cbv zeta.
  - destruct (sleep_refusal env (FloatSeconds _) t) as [e0|].
    + exists []. rewrite app_nil_r. split; [|apply request_like_nil].
      destruct (of_class RequestException e0); [|reflexivity].
      destruct (retry_count <? max_retry_attempts _config)%Z; reflexivity.
    + exists (attempt_events _config target_url). split; [|apply request_like_attempt].
      destruct (attempt_outcome env _config target_url t) as [r|e]; [reflexivity|].
      destruct (of_class RequestException e); [|reflexivity].
      destruct (retry_count <? max_retry_attempts _config)%Z; reflexivity.
  - assert (Hstep : forall e t1 pre,
               t1 = t ++ pre ->
               (pre = [] \/ pre = attempt_events _config target_url) ->
               exists evs,
                 snd (if of_class RequestException e then
                        if (retry_count <? max_retry_attempts _config)%Z then
                          match sleep_refusal env (IntSeconds ((retry_count + 1) * 2)) t1 with
                          | Some e' => (Raise e', t1)
                          | None =>
                              perform_request_rec env _config room target_url
                                (retry_count + 1)
                                (t1 ++ [ESleep (inject_Z ((retry_count + 1) * 2))])
                          end
                        else (Raise (mkExn SearchOperationError
                                       ("Request failed after retries: " +++ exn_str e)),
                              t1)
                      else (Raise e, t1)) = t ++ evs
                 /\ request_like _config target_url
                      (Nat.min (S room)
                         (Z.to_nat (max_retry_attempts _config - retry_count))) evs).
    { intros e t1 pre -> Hpre.
      assert (Hstop : exists evs,
                 t ++ pre = t ++ evs
                 /\ request_like _config target_url
                      (Nat.min (S room)
                         (Z.to_nat (max_retry_attempts _config - retry_count))) evs).
      { exists pre. split; [reflexivity|].
        destruct Hpre as [->| ->]; [apply request_like_nil | apply request_like_attempt]. }
      destruct (of_class RequestException e); [|exact Hstop].
      destruct (retry_count <? max_retry_attempts _config)%Z eqn:Hlt; [|exact Hstop].
      destruct (sleep_refusal env (IntSeconds _) (t ++ pre)); [exact Hstop|].
      apply Z.ltb_lt in Hlt.
      destruct (IH (retry_count + 1)%Z
                  ((t ++ pre) ++ [ESleep (inject_Z ((retry_count + 1) * 2))]))
        as (evs' & Hsnd & Hlike).
      exists (pre ++ ESleep (inject_Z ((retry_count + 1) * 2)) :: evs').
      split; [etransitivity; [exact Hsnd|]; now rewrite !app_assoc3|].
      replace (Nat.min (S room) (Z.to_nat (max_retry_attempts _config - retry_count)))
        with (S (Nat.min room
                   (Z.to_nat (max_retry_attempts _config - (retry_count + 1))))) by lia.
      destruct Hpre as [->| ->].
      - cbn [app]. apply request_like_sleep.
        eapply request_like_le; [|exact Hlike]. lia.
      - now apply request_like_retry. }
    destruct (sleep_refusal env (FloatSeconds _) t) as [e0|].
    + apply (Hstep e0 t []); [now rewrite app_nil_r | now left].
    + destruct (attempt_outcome env _config target_url t) as [r|e].
      * exists (attempt_events _config target_url). split; [reflexivity|].
        apply request_like_attempt.
      * apply (Hstep e _ (attempt_events _config target_url)); [reflexivity | now right].
Qed.

Lemma perform_request_events (target_url : string) (t : Trace) :
  exists evs,
    snd (_perform_request env _config target_url 0 t) = t ++ evs
    /\ tidy _config evs []
    /\ (forall u, In u (requested evs) -> u = target_url)
    /\ count_gets evs <= S (Z.to_nat (max_retry_attempts _config))
    /\ count_gets evs <= S (recursion_room env t)
    /\ truncated evs = [].
Proof.
  unfold _perform_request.
  destruct (perform_request_rec_events target_url (recursion_room env t) 0%Z t)
    as (evs & H1 & H2 & H3 & H4 & H5).
  rewrite Z.sub_0_r in H4.
  exists evs. repeat split; auto; try apply H2; lia.
Qed.

(** What [_download_pdf_file] adds to the trace: the events of its
    request, and one write when it returns; a write that fails adds the
    file left incomplete. *)
Lemma download_pdf_file_events (pdf_url business_name : string) (t : Trace) :
  exists evs,
    snd (_download_pdf_file env _config pdf_url business_name t) = t ++ evs
    /\ tidy _config evs
         match fst (_download_pdf_file env _config pdf_url business_name t) with
         | Return saved_path => [saved_path]
         | Raise _ => []
         end.
Proof.
  rewrite download_pdf_file_spec.
  destruct (perform_request_events pdf_url t) as (evs & Hsnd & Htidy & _).
  destruct (_perform_request env _config pdf_url 0 t) as [[r|e] t1]; cbn [snd] in Hsnd;
    subst t1; [|now exists evs].
  cbv zeta. destruct (open_file env (t ++ evs) _) as [e|]; [now exists evs|].
  destruct (write_file env (t ++ evs) _ _) as [e|];
    cbn [fst snd]; eexists; rewrite app_assoc3; (split; [reflexivity|]).
  - apply (tidy_app _ _ [] []); [exact Htidy|].
    split; [|reflexivity]. apply delay_before_each_get_other. discriminate.
  - apply (tidy_app _ _ [] [_]); [exact Htidy|].
    split; [|reflexivity]. apply delay_before_each_get_other. discriminate.
Qed.

Lemma download_all_events (business_name : string) (pdf_links : list string) :
  forall (acc : list string) (t : Trace),
  exists added evs,
    download_all env _config business_name pdf_links acc t = (Return (acc ++ added), t ++ evs)
    /\ tidy _config evs added
    /\ List.length added <= List.length pdf_links.
Proof.
  induction pdf_links as [|u rest IH]; intros acc t.
  - exists [], []. rewrite !app_nil_r.
    split; [reflexivity | split; [apply tidy_nil | apply le_n]].
  - rewrite download_all_step.
    destruct (download_pdf_file_events u business_name t) as (evs & Hsnd & Htidy).
    destruct (_download_pdf_file env _config u business_name t) as [[p|e] t1];
      cbn [fst snd] in *; subst t1.
    + destruct (IH (acc ++ [p]) (t ++ evs)) as (added & evs' & -> & Ht' & Hlen).
      exists (p :: added), (evs ++ evs'). rewrite <- !app_assoc.
      split; [reflexivity | split].
      * apply (tidy_app _ _ [p] added); assumption.
      * cbn. lia.
    + destruct (IH acc (t ++ evs)) as (added & evs' & -> & Ht' & Hlen).
      exists added, (evs ++ evs'). rewrite <- !app_assoc.
      split; [reflexivity | split].
      * apply (tidy_app _ _ [] added); assumption.
      * cbn. lia.
Qed.

Lemma fetch_business_documents_events (business : BusinessRecord) (t : Trace) :
  exists doc_paths evs,
    fetch_business_documents env _config business t = (Return doc_paths, t ++ evs)
    /\ tidy _config evs doc_paths.
Proof.
  rewrite fetch_business_documents_spec.
  destruct (perform_request_events (detail_link business) t) as (evs & Hsnd & Htidy & _).
  destruct (_perform_request env _config (detail_link business) 0 t) as [[r|e] t1];
    cbn [snd] in Hsnd; subst t1; [|now exists [], evs].
  destruct (_locate_pdf_links env _config (text r)) as [links|e]; [|now exists [], evs].
  destruct (download_all_events (entity_name business) links [] (t ++ evs))
    as (added & evs' & -> & Ht' & _).
  exists added, (evs ++ evs'). rewrite <- app_assoc. split; [reflexivity|].
  apply (tidy_app _ _ [] added); assumption.
Qed.

Lemma fetch_each_events (businesses : list BusinessRecord) :
  forall t : Trace,
  exists evs,
    snd (fetch_each env _config businesses t) = t ++ evs
    /\ tidy _config evs (List.concat (fst (fetch_each env _config businesses t))).
Proof.
  induction businesses as [|b rest IH]; intros t.
  - exists []. rewrite app_nil_r. split; [reflexivity | apply tidy_nil].
  - cbn [fetch_each].
    destruct (fetch_business_documents_events b t) as (p & evs & -> & Htidy).
    destruct (IH (t ++ evs)) as (evs' & Hsnd & Ht').
    destruct (fetch_each env _config rest (t ++ evs)) as [ps t2]. cbn [fst snd] in *.
    subst t2. exists (evs ++ evs'). rewrite <- app_assoc. split; [reflexivity|].
    now apply tidy_app.
Qed.

Lemma search_businesses_events (query_term : string) (t : Trace) :
  exists evs,
    snd (search_businesses env _config query_term t) = t ++ evs
    /\ tidy _config evs [] /\ truncated evs = [].
Proof.
  rewrite search_businesses_spec.
  destruct (urljoin env (target_base_url _config) (search_endpoint _config)) as [u|e].
  - destruct (perform_request_events (full_search_url u query_term) t)
      as (evs & Hsnd & Htidy & _ & _ & _ & Htr).
    destruct (_perform_request env _config _ 0 t) as [[r|e] t1]; cbn [snd] in Hsnd;
      subst t1; [|now exists evs].
    destruct (_extract_business_records env _config (text r)); now exists evs.
  - exists []. rewrite app_nil_r. split; [reflexivity | split; [apply tidy_nil | reflexivity]].
Qed.

(** What a run adds to the trace, and the files of its outcome. *)
Lemma process_search_and_download_events (query : string) (t : Trace) :
  exists evs,
    snd (process_search_and_download env _config query t) = t ++ evs
    /\ tidy _config evs
         match fst (process_search_and_download env _config query t) with
         | Return s => downloaded_files s
         | Raise _ => []
         end.
Proof.
  rewrite process_search_and_download_spec.
  destruct (search_businesses_events query t) as (evs & Hsnd & Htidy & _).
  destruct (search_businesses env _config query t) as [[bs|e] t1]; cbn [snd] in Hsnd;
    subst t1.
  - destruct (fetch_each_events bs (t ++ evs)) as (evs' & Hsnd' & Ht').
    destruct (fetch_each env _config bs (t ++ evs)) as [pb t2]. cbn [fst snd] in *.
    subst t2. exists (evs ++ evs'). rewrite <- app_assoc. split; [reflexivity|].
    now apply (tidy_app _ _ [] (List.concat pb)).
  - destruct (of_class SearchOperationError e); now exists evs.
Qed.

(** X1.  In a run of [process_search_and_download], whatever the site and
    the configuration, every call of [Session.get] comes right after a
    sleep of [request_delay_seconds]: the trace after the run is the trace
    before it followed by events in which each call has that sleep just
    before it. *)
Theorem every_request_of_a_run_is_delayed (query : string) (t : Trace) :
  exists evs,
    snd (process_search_and_download env _config query t) = t ++ evs
    /\ delay_before_each_get _config evs
    /\ (delay_before_each_get _config t ->
        delay_before_each_get _config
          (snd (process_search_and_download env _config query t))).
Proof.
  destruct (process_search_and_download_events query t) as (evs & Hsnd & Hd & _).
  exists evs. split; [exact Hsnd|]. split; [exact Hd|].
  intros Ht. rewrite Hsnd. now apply delay_before_each_get_app.
Qed.

(** X2.  The [downloaded_files] of the outcome of a run are the paths of
    the writes the run completed, in the same order.  A run that reports a
    search error has opened no file at all: it has completed no write and
    left no file incomplete. *)
Theorem downloaded_files_are_the_files_written (query : string) (t t' : Trace) (s : Summary) :
  process_search_and_download env _config query t = (Return s, t') ->
  exists evs,
    t' = t ++ evs
    /\ written evs = downloaded_files s
    /\ written t' = written t ++ downloaded_files s
    /\ (errors s <> [] -> written evs = [] /\ truncated evs = []).
Proof.
  intros Hrun.
  destruct (process_search_and_download_events query t) as (evs & Hsnd & _ & Hw).
  rewrite Hrun in Hsnd, Hw. cbn [fst snd] in *. subst t'.
  exists evs. split; [reflexivity|]. split; [exact Hw|].
  split; [now rewrite written_app, Hw|].
  intros Herr. rewrite process_search_and_download_spec in Hrun.
  destruct (search_businesses_events query t) as (evs0 & Hsnd0 & [_ Hw0] & Htr0).
  destruct (search_businesses env _config query t) as [[bs|e] t1].
  - destruct (fetch_each env _config bs t1) as [pb t2]. injection Hrun as <- _.
    now cbn in Herr.
  - destruct (of_class SearchOperationError e); [|discriminate].
    injection Hrun as _ Ht1. cbn [snd] in Hsnd0. rewrite Hsnd0 in Ht1.
    apply app_inv_head in Ht1. subst evs0. now split.
Qed.

(** X3.  One call of [_perform_request] calls [Session.get] at most once
    more than [max_retry_attempts] (once when that is negative) and at most
    once more than the recursion has room for, every time with the URL of
    the call, each time right after a sleep of the fixed delay, and it
    touches no file. *)
Theorem perform_request_bounded (target_url : string) (t : Trace) :
  exists evs,
    snd (_perform_request env _config target_url 0 t) = t ++ evs
    /\ count_gets evs <= S (Z.to_nat (max_retry_attempts _config))
    /\ count_gets evs <= S (recursion_room env t)
    /\ (forall u, In u (requested evs) -> u = target_url)
    /\ delay_before_each_get _config evs
    /\ written evs = []
    /\ truncated evs = [].
Proof.
  destruct (perform_request_events target_url t)
    as (evs & H1 & [H2 H3] & H4 & H5 & H6 & H7).
  exists evs. auto 10.
Qed.

End Runs.

(** A run on a site where everything works writes its two files. *)
Lemma downloaded_files_are_the_files_written_witness :
  exists evs,
    snd (process_search_and_download (Examples.env_up Examples.detail_page)
           default_configuration "Acme" []) = [] ++ evs
    /\ written evs = downloaded_files Examples.acme_outcome
    /\ written (snd (process_search_and_download (Examples.env_up Examples.detail_page)
                       default_configuration "Acme" []))
       = written [] ++ downloaded_files Examples.acme_outcome
    /\ (errors Examples.acme_outcome <> [] -> written evs = [] /\ truncated evs = []).
Proof.
  apply (downloaded_files_are_the_files_written (Examples.env_up Examples.detail_page)
           default_configuration "Acme" []).
  vm_compute. reflexivity.
Defined.

(* ------------------------------------------------------------------ *)
(** ** The transport at its edges *)

Section TransportEdges.

Variable env : Env.
Variable _config : ScraperConfiguration.

Local Abbreviation delay := (seconds (request_delay_seconds _config)).
Local Abbreviation max_retries := (max_retry_attempts _config).

Lemma qsum_app (a b : list Q) : (qsum (a ++ b) == qsum a + qsum b)%Q.
Proof.
  induction a as [|x a IH]; cbn [app].
  - change (qsum []) with 0%Q. ring.
  - change (qsum (x :: a ++ b)) with (x + qsum (a ++ b))%Q.
    change (qsum (x :: a)) with (x + qsum a)%Q. rewrite IH. ring.
Qed.

Lemma total_sleep_app (a b : Trace) :
  (total_sleep (a ++ b) == total_sleep a + total_sleep b)%Q.
Proof. unfold total_sleep. rewrite sleeps_app. apply qsum_app. Qed.

(** The seconds slept in an attempt and [k] retries. *)
Lemma total_sleep_request_events (target_url : string) (k : nat) :
  (total_sleep (request_events _config target_url k)
   == inject_Z (Z.of_nat k + 1) * delay + inject_Z (Z.of_nat k * (Z.of_nat k + 1)))%Q.
Proof.
  unfold total_sleep. rewrite sleeps_request_events.
  induction k as [|k IH].
  - cbn [seq flat_map fold_right Z.of_nat Z.add Z.mul]. unfold inject_Z. ring.
  - rewrite seq_S, flat_map_app. cbn [flat_map app].
    change (fold_right Qplus 0%Q ?l) with (qsum l) in *.
    change (delay :: ?l ++ ?r) with ((delay :: l) ++ r).
    rewrite qsum_app, IH.
    change (1 + k) with (S k).
    change (qsum [inject_Z (Z.of_nat (S k) * 2); delay])
      with (inject_Z (Z.of_nat (S k) * 2) + (delay + 0))%Q.
    rewrite Nat2Z.inj_succ. unfold Z.succ.
    rewrite !inject_Z_mult, !inject_Z_plus.
    change (inject_Z 1) with 1%Q. change (inject_Z 2) with 2%Q. ring.
Qed.

(** X4.  For a delay and backoffs that [time.sleep] carries out and a
    retry limit that the recursion has room for: when every attempt fails
    with a [RequestException], a call of [_perform_request] has slept, in
    all, the fixed delay once for each of its [max_retry_attempts + 1]
    attempts and [2 + 4 + ... ] seconds of backoff, that is
    [max_retry_attempts * (max_retry_attempts + 1)] seconds. *)
Theorem exhausted_request_sleeps (target_url : string) (t : Trace) :
  sleeps_carried_out env _config max_retries ->
  (0 <= max_retries <= Z.of_nat (recursion_room env t))%Z ->
  attempts_fail env _config target_url t (S (Z.to_nat max_retries)) ->
  (total_sleep (snd (_perform_request env _config target_url 0 t))
   == total_sleep t + inject_Z (max_retries + 1) * delay
      + inject_Z (max_retries * (max_retries + 1)))%Q.
Proof.
  intros Hs Hm Hfail.
  pose proof (Hfail (Z.to_nat max_retries) ltac:(lia)) as Hlast.
  unfold trace_before in *.
  destruct (attempt_outcome env _config target_url
              (trace_before_from _config target_url 0 t (Z.to_nat max_retries)))
    as [r|e] eqn:Ho; [discriminate|].
  unfold _perform_request.
  rewrite (perform_request_rec_exhausts env _config target_url (Z.to_nat max_retries)
             (recursion_room env t) 0%Z t e); auto; try lia.
  - cbn [snd]. rewrite total_sleep_app.
    change (events_from _config target_url 0 (Z.to_nat max_retries))
      with (request_events _config target_url (Z.to_nat max_retries)).
    rewrite total_sleep_request_events, Z2Nat.id by lia. ring.
  - destruct Hs as [Hd Hb]. split; [exact Hd|]. intros j Hj. apply Hb. lia.
  - intros j Hj. apply Hfail. lia.
Qed.

(** What [time.sleep] raises on its argument is a [ValueError] or an
    [OverflowError], and no [RequestException]. *)
Lemma sleep_argument_error_class (length : Seconds) (e : Exn) :
  sleep_argument_error length = Some e ->
  of_class RequestException e = false.
Proof.
  destruct length as [n|[x|negative|]]; cbn [sleep_argument_error].
  - destruct (_ && _)%bool; [destruct (n <? 0)%Z|]; intros H;
      try discriminate H; now injection H as <-.
  - destruct (_ && _)%bool; [destruct (Qle_bool 0 x)|]; intros H;
      try discriminate H; now injection H as <-.
  - intros H. now injection H as <-.
  - intros H. now injection H as <-.
Qed.

(** X5.  When [time.sleep] refuses the configured delay as an argument,
    nothing is ever requested: [_perform_request] passes the exception on
    without a call of [Session.get] and without a retry, a detail fetch
    gives no document, and a run ends with the one error
    ["Unable to search: "] and the text of the exception.  A negative delay
    is refused with the [ValueError] ["sleep length must be non-negative"]
    as long as its nanoseconds fit the clock, and with an [OverflowError]
    below that; a delay whose nanoseconds are beyond the clock, and an
    infinity, with the [OverflowError]; a NaN with a [ValueError] of its
    own. *)
Theorem refused_delay_stops_every_request (e : Exn) :
  sleep_argument_error (FloatSeconds (request_delay_seconds _config)) = Some e ->
  (forall target_url t,
      _perform_request env _config target_url 0 t = (Raise e, t))
  /\ (forall business t,
        fetch_business_documents env _config business t = (Return [], t))
  /\ (forall query search_url t,
        urljoin env (target_base_url _config) (search_endpoint _config) = Return search_url ->
        process_search_and_download env _config query t
        = (Return {| search_query := query; businesses_found := 0;
                     documents_downloaded := 0; downloaded_files := [];
                     errors := ["Unable to search: " +++ exn_str e] |},
           t))
  /\ (forall x,
        request_delay_seconds _config = Finite x -> (x < 0)%Q ->
        e = if Qle_bool (inject_Z (- 2 ^ 63 - 1024)) (x * inject_Z (10 ^ 9))
            then negative_sleep_length else timestamp_too_large)
  /\ (forall x,
        request_delay_seconds _config = Finite x ->
        (inject_Z (2 ^ 63 + 1024) < x * inject_Z (10 ^ 9))%Q ->
        e = timestamp_too_large)
  /\ (forall negative,
        request_delay_seconds _config = Infinity negative -> e = timestamp_too_large)
  /\ (request_delay_seconds _config = NaN ->
      e = mkExn ValueError "Invalid value NaN (not a number)").
Proof.
  intros He.
  assert (Hreq : forall target_url t,
             _perform_request env _config target_url 0 t = (Raise e, t)).
  { intros u t. unfold _perform_request. rewrite perform_request_rec_unfold. cbv zeta.
    unfold sleep_refusal at 1. rewrite He.
    now rewrite (sleep_argument_error_class _ _ He). }
  split; [exact Hreq|]. split; [|split; [|split; [|split; [|split]]]].
  - intros b t. now rewrite fetch_business_documents_spec, Hreq.
  - intros q u t Hu.
    now rewrite process_search_and_download_spec, search_businesses_spec, Hu, Hreq.
  - intros x Hx Hneg. rewrite Hx in He. cbn [sleep_argument_error] in He.
    assert (Hhi : Qle_bool (x * inject_Z (10 ^ 9)) (inject_Z (2 ^ 63 + 1024)) = true).
    { apply Qle_bool_iff. apply Qle_trans with 0%Q; [|discriminate].
      setoid_replace 0%Q with (0 * inject_Z (10 ^ 9))%Q by ring.
      apply Qmult_le_compat_r; [now apply Qlt_le_weak | discriminate]. }
    assert (Hz : Qle_bool 0 x = false).
    { destruct (Qle_bool 0 x) eqn:E; [|reflexivity].
      apply Qle_bool_iff in E. exfalso. apply (Qlt_not_le _ _ Hneg E). }
    rewrite Hhi, Hz, andb_true_r in He.
    destruct (Qle_bool _ _); now injection He as <-.
  - intros x Hx Hbig. rewrite Hx in He. cbn [sleep_argument_error] in He.
    assert (Hhi : Qle_bool (x * inject_Z (10 ^ 9)) (inject_Z (2 ^ 63 + 1024)) = false).
    { destruct (Qle_bool (x * inject_Z (10 ^ 9)) (inject_Z (2 ^ 63 + 1024))) eqn:E;
        [|reflexivity].
      apply Qle_bool_iff in E. exfalso. apply (Qlt_not_le _ _ Hbig E). }
    rewrite Hhi, andb_false_r in He. now injection He as <-.
  - intros negative Hx. rewrite Hx in He. now injection He as <-.
  - intros Hx. rewrite Hx in He. now injection He as <-.
Qed.

(** X6.  When the fixed delay is slept, an attempt that raises something
    else than a [RequestException] ends the call at once: the exception is
    passed on as it is, after the one call of [Session.get], with no
    backoff.  With [max_retry_attempts] at zero or below, a
    [RequestException] on the first attempt is final too: the call fails
    after one attempt. *)
Theorem some_failures_are_not_retried (target_url : string) (t : Trace) (e : Exn) :
  always_sleeps env (FloatSeconds (request_delay_seconds _config)) ->
  attempt_outcome env _config target_url t = Raise e ->
  (of_class RequestException e = false ->
   _perform_request env _config target_url 0 t
   = (Raise e, t ++ attempt_events _config target_url))
  /\ (of_class RequestException e = true -> (max_retries <= 0)%Z ->
      _perform_request env _config target_url 0 t
      = (Raise (mkExn SearchOperationError
                  ("Request failed after retries: " +++ exn_str e)),
         t ++ attempt_events _config target_url)).
Proof.
  intros Hd Ho.
  split; [intros Hc | intros Hc Hm]; unfold _perform_request;
    rewrite (perform_request_rec_step env _config _ _ _ _ Hd); cbv zeta;
    rewrite Ho, Hc; [reflexivity|].
  assert (Hlt : (0 <? max_retries)%Z = false) by (apply Z.ltb_ge; lia).
  now rewrite Hlt.
Qed.


End TransportEdges.

(** With the default configuration: four attempts, 4 * 1.5 + 12 seconds. *)
Lemma exhausted_request_sleeps_witness :
  (total_sleep (snd (_perform_request Examples.env_down default_configuration
                       "https://www.sosnc.gov/biz/1" 0 []))
   == 18)%Q.
Proof.
  rewrite (exhausted_request_sleeps Examples.env_down default_configuration
             "https://www.sosnc.gov/biz/1" []
             (default_sleeps_carried_out Examples.env_down (fun _ _ => eq_refl))
             (default_retries_fit Examples.env_down [] eq_refl)).
  - reflexivity.
  - intros j Hj. reflexivity.
Defined.

(** The command line option [--delay -1]. *)
Lemma refused_delay_stops_every_request_witness :
  fetch_business_documents (Examples.env_up Examples.detail_page)
    (Cli.configuration_of (Cli.mkNamespace "Acme" "./fetched_documents" (Finite (-1)) false))
    Examples.acme_record []
  = (Return [], []).
Proof.
  apply (refused_delay_stops_every_request (Examples.env_up Examples.detail_page)
           (Cli.configuration_of
              (Cli.mkNamespace "Acme" "./fetched_documents" (Finite (-1)) false))
           negative_sleep_length eq_refl).
Defined.

(** A site that cannot be reached for want of a certificate bundle. *)
Lemma some_failures_are_not_retried_witness :
  _perform_request Examples.env_no_bundle default_configuration
    "https://www.sosnc.gov/biz/1" 0 []
  = (Raise Examples.bundle_error,
     attempt_events default_configuration "https://www.sosnc.gov/biz/1").
Proof.
  apply (some_failures_are_not_retried Examples.env_no_bundle default_configuration
           "https://www.sosnc.gov/biz/1" [] Examples.bundle_error
           (proj1 (default_sleeps_carried_out Examples.env_no_bundle (fun _ _ => eq_refl)))
           eq_refl).
  reflexivity.
Defined.


(* ------------------------------------------------------------------ *)
(** ** The search, the detail fetch and the download, taken one by one *)

Section Steps.

Variable env : Env.
Variable _config : ScraperConfiguration.

Local Abbreviation max_retries := (max_retry_attempts _config).

(** X7.  Inside its [try], [search_businesses] turns whatever goes wrong
    into a [SearchOperationError]: when the request raises, and when the
    extraction raises on the response, it raises
    ["Unable to search: "] followed by the text of that exception, at the
    trace of the request; otherwise it returns what the extractor finds in
    the response.  A search whose request uses up its retries therefore
    reaches the outcome of the run as the one error
    ["Unable to search: Request failed after retries: "] followed by the
    text of the last failure. *)
Theorem search_businesses_outcomes (query_term search_url : string) (t : Trace) :
  urljoin env (target_base_url _config) (search_endpoint _config) = Return search_url ->
  (forall e t',
      _perform_request env _config (full_search_url search_url query_term) 0 t
      = (Raise e, t') ->
      search_businesses env _config query_term t
      = (Raise (mkExn SearchOperationError ("Unable to search: " +++ exn_str e)), t'))
  /\ (forall response t' e,
        _perform_request env _config (full_search_url search_url query_term) 0 t
        = (Return response, t') ->
        _extract_business_records env _config (text response) = Raise e ->
        search_businesses env _config query_term t
        = (Raise (mkExn SearchOperationError ("Unable to search: " +++ exn_str e)), t'))
  /\ (forall response t' businesses,
        _perform_request env _config (full_search_url search_url query_term) 0 t
        = (Return response, t') ->
        _extract_business_records env _config (text response) = Return businesses ->
        search_businesses env _config query_term t = (Return businesses, t'))
  /\ (sleeps_carried_out env _config max_retries ->
      (0 <= max_retries <= Z.of_nat (recursion_room env t))%Z ->
      attempts_fail env _config (full_search_url search_url query_term) t
        (S (Z.to_nat max_retries)) ->
      exists last_error,
        attempt_outcome env _config (full_search_url search_url query_term)
          (trace_before _config (full_search_url search_url query_term) t
             (Z.to_nat max_retries)) = Raise last_error
        /\ process_search_and_download env _config query_term t
           = (Return {| search_query := query_term; businesses_found := 0;
                        documents_downloaded := 0; downloaded_files := [];
                        errors := ["Unable to search: Request failed after retries: "
                                   +++ exn_str last_error] |},
              t ++ request_events _config (full_search_url search_url query_term)
                     (Z.to_nat max_retries))).
Proof.
  intros Hu. split; [|split; [|split]].
  - intros e t' Hreq. now rewrite search_businesses_spec, Hu, Hreq.
  - intros r t' e Hreq He. now rewrite search_businesses_spec, Hu, Hreq, He.
  - intros r t' bs Hreq He. now rewrite search_businesses_spec, Hu, Hreq, He.
  - intros Hs Hm Hfail.
    pose proof (Hfail (Z.to_nat max_retries) ltac:(lia)) as Hlast.
    unfold trace_before in *.
    destruct (attempt_outcome env _config (full_search_url search_url query_term)
                (trace_before_from _config (full_search_url search_url query_term) 0 t
                   (Z.to_nat max_retries)))
      as [r|e] eqn:Ho; [discriminate|].
    exists e. split; [reflexivity|].
    rewrite process_search_and_download_spec, search_businesses_spec, Hu.
    unfold _perform_request.
    rewrite (perform_request_rec_exhausts env _config _ (Z.to_nat max_retries)
               (recursion_room env t) 0%Z t e); auto; try lia.
    + destruct Hs as [Hd Hb]. split; [exact Hd|]. intros j Hj. apply Hb. lia.
    + intros j Hj. apply Hfail. lia.
Qed.

(** X8.  [_download_pdf_file] either raises a [DocumentRetrievalError]
    whose text starts with ["PDF download failed: "], and then it has
    completed no write: either it has touched no file (the request failed,
    or the file could not be opened), or the request gave a response, the
    file was opened and the write failed, which leaves that one file
    incomplete; or it returns a path, and then the last thing it did was to
    write the body of the response it got, as it is, to that path, and it
    has touched no other file. *)
Theorem download_pdf_file_outcomes (pdf_url business_name : string) (t : Trace) :
  (forall e t',
      _download_pdf_file env _config pdf_url business_name t = (Raise e, t') ->
      of_class DocumentRetrievalError e = true
      /\ (exists cause, exn_str e = "PDF download failed: " +++ cause)
      /\ written t' = written t
      /\ (truncated t' = truncated t
          \/ exists response t1 file_path,
               _perform_request env _config pdf_url 0 t = (Return response, t1)
               /\ t' = t1 ++ [ETruncate file_path]
               /\ truncated t' = truncated t ++ [file_path]))
  /\ (forall saved_path t',
        _download_pdf_file env _config pdf_url business_name t = (Return saved_path, t') ->
        exists response t1,
          _perform_request env _config pdf_url 0 t = (Return response, t1)
          /\ t' = t1 ++ [EWrite saved_path (content response)]
          /\ written t' = written t ++ [saved_path]
          /\ truncated t' = truncated t).
Proof.
  destruct (perform_request_events env _config pdf_url t)
    as (evs & Hsnd & [_ Hw] & _ & _ & _ & Htr).
  assert (Hafter : forall t1, t1 = t ++ evs ->
             written t1 = written t /\ truncated t1 = truncated t).
  { intros t1 ->. now rewrite written_app, truncated_app, Hw, Htr, !app_nil_r. }
  split.
  - intros e t' H.
    split; [now apply (download_pdf_file_raises env _config _ _ _ _ _ H)|].
    rewrite download_pdf_file_spec in H.
    destruct (_perform_request env _config pdf_url 0 t) as [[r|e0] t1]; cbn [snd] in Hsnd;
      destruct (Hafter _ Hsnd) as [Hw1 Htr1].
    + cbv zeta in H. destruct (open_file env t1 _) as [e1|].
      * injection H as <- <-. split; [now eexists|]. split; [exact Hw1 | now left].
      * destruct (write_file env t1 _ _) as [e1|]; [|discriminate].
        injection H as <- <-. split; [now eexists|].
        rewrite written_app, truncated_app, Hw1, Htr1. cbn [written truncated flat_map].
        rewrite !app_nil_r. split; [reflexivity|].
        right. now eexists _, _, _.
    + injection H as <- <-. split; [now eexists|]. split; [exact Hw1 | now left].
  - intros p t' H. rewrite download_pdf_file_spec in H.
    destruct (_perform_request env _config pdf_url 0 t) as [[r|e0] t1]; cbn [snd] in Hsnd;
      [|discriminate].
    destruct (Hafter _ Hsnd) as [Hw1 Htr1].
    cbv zeta in H. destruct (open_file env t1 _); [discriminate|].
    destruct (write_file env t1 _ _); [discriminate|].
    injection H as Hp Ht. exists r, t1. split; [reflexivity|].
    rewrite <- Ht, Hp. split; [reflexivity|].
    rewrite written_app, truncated_app, Hw1, Htr1. cbn [written truncated flat_map].
    now rewrite !app_nil_r.
Qed.

(** X9.  No [Exception] leaves [fetch_business_documents].  It returns the
    paths of the writes it completed, in order; there are at most as many
    as the detail page has distinct document links, and none when the
    links cannot be extracted. *)
Theorem fetch_business_documents_never_raises (business : BusinessRecord) (t : Trace) :
  exists doc_paths t',
    fetch_business_documents env _config business t = (Return doc_paths, t')
    /\ written t' = written t ++ doc_paths
    /\ (forall response t1,
          _perform_request env _config (detail_link business) 0 t = (Return response, t1) ->
          match _locate_pdf_links env _config (text response) with
          | Raise _ => doc_paths = [] /\ t' = t1
          | Return pdf_links => List.length doc_paths <= List.length pdf_links
          end).
Proof.
  destruct (fetch_business_documents_events env _config business t)
    as (paths & evs & Hrun & _ & Hw).
  exists paths, (t ++ evs). split; [exact Hrun|]. split; [now rewrite written_app, Hw|].
  intros r t1 Hreq. rewrite fetch_business_documents_spec, Hreq in Hrun.
  destruct (_locate_pdf_links env _config (text r)) as [links|e].
  - destruct (download_all_events env _config (entity_name business) links [] t1)
      as (added & evs' & Hd & _ & Hlen).
    rewrite Hd in Hrun. now injection Hrun as <- _.
  - now injection Hrun as <- <-.
Qed.

End Steps.

(** The search times out four times: the error of the outcome. *)
Lemma search_businesses_outcomes_witness :
  exists last_error,
    attempt_outcome Examples.env_down default_configuration
      (full_search_url
         "https://www.sosnc.gov/online_services/search/by_title/_Business_Registration"
         "Acme")
      (trace_before default_configuration
         (full_search_url
            "https://www.sosnc.gov/online_services/search/by_title/_Business_Registration"
            "Acme") [] 3) = Raise last_error
    /\ process_search_and_download Examples.env_down default_configuration "Acme" []
       = (Return {| search_query := "Acme"; businesses_found := 0;
                    documents_downloaded := 0; downloaded_files := [];
                    errors := ["Unable to search: Request failed after retries: "
                               +++ exn_str last_error] |},
          [] ++ request_events default_configuration
                  (full_search_url
                     "https://www.sosnc.gov/online_services/search/by_title/_Business_Registration"
                     "Acme") 3).
Proof.
  apply (proj2 (proj2 (proj2
           (search_businesses_outcomes Examples.env_down default_configuration "Acme"
              "https://www.sosnc.gov/online_services/search/by_title/_Business_Registration"
              [] eq_refl)))).
  - exact (default_sleeps_carried_out Examples.env_down (fun _ _ => eq_refl)).
  - exact (default_retries_fit Examples.env_down [] eq_refl).
  - intros j Hj. reflexivity.
Defined.

(** The disk is full: the document is fetched, the file is opened, and the
    write fails. *)
Lemma download_pdf_file_outcomes_witness :
  of_class DocumentRetrievalError
    (mkExn DocumentRetrievalError
       "PDF download failed: [Errno 28] No space left on device") = true
  /\ (exists cause,
        exn_str (mkExn DocumentRetrievalError
                   "PDF download failed: [Errno 28] No space left on device")
        = "PDF download failed: " +++ cause)
  /\ written (snd (_download_pdf_file Examples.env_disk_full default_configuration
                     "https://www.sosnc.gov/d/a.pdf" "Acme LLC" []))
     = written []
  /\ (truncated (snd (_download_pdf_file Examples.env_disk_full default_configuration
                        "https://www.sosnc.gov/d/a.pdf" "Acme LLC" []))
      = truncated []
      \/ exists response t1 file_path,
           _perform_request Examples.env_disk_full default_configuration
             "https://www.sosnc.gov/d/a.pdf" 0 [] = (Return response, t1)
           /\ snd (_download_pdf_file Examples.env_disk_full default_configuration
                     "https://www.sosnc.gov/d/a.pdf" "Acme LLC" [])
              = t1 ++ [ETruncate file_path]
           /\ truncated (snd (_download_pdf_file Examples.env_disk_full
                                default_configuration
                                "https://www.sosnc.gov/d/a.pdf" "Acme LLC" []))
              = truncated [] ++ [file_path]).
Proof.
  apply (proj1 (download_pdf_file_outcomes Examples.env_disk_full default_configuration
                  "https://www.sosnc.gov/d/a.pdf" "Acme LLC" [])).
  vm_compute. reflexivity.
Defined.

Lemma fetch_business_documents_never_raises_witness :
  exists doc_paths t',
    fetch_business_documents (Examples.env_up Examples.detail_page)
      default_configuration Examples.acme_record [] = (Return doc_paths, t')
    /\ written t' = written [] ++ doc_paths
    /\ (forall response t1,
          _perform_request (Examples.env_up Examples.detail_page) default_configuration
            (detail_link Examples.acme_record) 0 [] = (Return response, t1) ->
          match _locate_pdf_links (Examples.env_up Examples.detail_page)
                  default_configuration (text response) with
          | Raise _ => doc_paths = [] /\ t' = t1
          | Return pdf_links => List.length doc_paths <= List.length pdf_links
          end).
Proof.
  exact (fetch_business_documents_never_raises (Examples.env_up Examples.detail_page)
           default_configuration Examples.acme_record []).
Defined.

(* ------------------------------------------------------------------ *)
(** ** The search URL, the rows and the links *)

Section Inputs.

Variable env : Env.
Variable _config : ScraperConfiguration.

Local Abbreviation base := (target_base_url _config).

Lemma sforall_concat (p : ascii -> bool) (l : list string) :
  (forall x, In x l -> PyStr.sforall p x = true) ->
  PyStr.sforall p (String.concat "" l) = true.
Proof.
  induction l as [|x l IH]; intros H; [reflexivity|].
  assert (Hx : PyStr.sforall p x = true) by (apply H; now left).
  assert (Hl : PyStr.sforall p (String.concat "" l) = true)
    by (apply IH; intros y Hy; apply H; now right).
  destruct l as [|y l]; [exact Hx|].
  change (String.concat "" (x :: y :: l)) with (x +++ "" +++ String.concat "" (y :: l)).
  now rewrite !sforall_append, Hx, Hl.
Qed.

Lemma upper_hexdigit_safe (n : N) :
  (n < 16)%N ->
  query_safe (if (n <? 10)%N then PyStr.chr (48 + n) else PyStr.chr (55 + n)) = true.
Proof.
  intros H.
  assert (Hin : In n (map N.of_nat (seq 0 16))).
  { apply in_map_iff. exists (N.to_nat n). split; [lia|]. apply in_seq. lia. }
  cbn in Hin. repeat (destruct Hin as [<-|Hin]; [reflexivity|]). contradiction.
Qed.

Lemma quoted_byte_safe (b : N) :
  PyStr.sforall query_safe
    (if UrlParse.always_safe b then String (PyStr.chr b) EmptyString
     else if (b =? 32)%N then "+" else String "%" (PyStr.HEX2 b)) = true.
Proof.
  destruct (UrlParse.always_safe b) eqn:Hs.
  - unfold UrlParse.always_safe in Hs. apply andb_true_iff in Hs. destruct Hs as [_ Hs].
    cbn [PyStr.sforall]. rewrite andb_true_r. unfold query_safe.
    destruct (PyStr.between 65 90 (PyStr.chr b)), (PyStr.between 97 122 (PyStr.chr b)),
      (PyStr.between 48 57 (PyStr.chr b)), (PyStr.code_is 95 (PyStr.chr b)),
      (PyStr.code_is 46 (PyStr.chr b)), (PyStr.code_is 45 (PyStr.chr b)),
      (PyStr.code_is 126 (PyStr.chr b)); try reflexivity; discriminate Hs.
  - destruct (b =? 32)%N; [reflexivity|].
    unfold PyStr.HEX2. cbv zeta. cbn [PyStr.sforall].
    rewrite !upper_hexdigit_safe; [reflexivity | |]; apply N.mod_lt; discriminate.
Qed.

Lemma quote_plus_safe (s : string) :
  PyStr.sforall query_safe (UrlParse.quote_plus s) = true.
Proof.
  unfold UrlParse.quote_plus. apply sforall_concat. intros x Hx.
  apply in_map_iff in Hx. destruct Hx as (b & <- & _). apply quoted_byte_safe.
Qed.

(** A call of [_perform_request] begins with an attempt when the fixed
    delay is slept. *)
Lemma perform_request_first_call (target_url : string) (t : Trace) :
  always_sleeps env (FloatSeconds (request_delay_seconds _config)) ->
  exists rest,
    snd (_perform_request env _config target_url 0 t)
    = t ++ attempt_events _config target_url ++ rest.
Proof.
  intros Hd. unfold _perform_request.
  rewrite (perform_request_rec_step env _config _ _ _ _ Hd). cbv zeta.
  assert (Hstop : exists rest,
             t ++ attempt_events _config target_url
             = t ++ attempt_events _config target_url ++ rest)
    by (exists []; now rewrite app_nil_r).
  destruct (attempt_outcome env _config target_url t) as [r|e]; [exact Hstop|].
  destruct (of_class RequestException e); [|exact Hstop].
  destruct (0 <? max_retry_attempts _config)%Z; [|exact Hstop].
  destruct (recursion_room env t) as [|room]; [exact Hstop|].
  unfold time_sleep. destruct (sleep_refusal env _ _); [exact Hstop|].
  destruct (perform_request_rec_events env _config target_url room (0 + 1)%Z
              ((t ++ attempt_events _config target_url)
                 ++ [ESleep (length_of (IntSeconds ((0 + 1) * 2)))]))
    as (evs & Hsnd & _).
  exists (ESleep (length_of (IntSeconds ((0 + 1) * 2))) :: evs).
  etransitivity; [exact Hsnd|]. now rewrite <- !app_assoc.
Qed.

(** X10.  The search term cannot change the shape of the search URL.
    Every call of [Session.get] that [search_businesses] makes has the same
    URL: the search page, [?Words=] and the encoded term; there is such a
    call whenever the fixed delay is slept.  The encoded term has only
    letters and digits of ASCII and the characters [_.-~+%]: no [&], [#],
    [=], [?], [/] or space of the term gets through. *)
Theorem search_term_is_encoded (query_term search_url : string) (t : Trace) :
  urljoin env base (search_endpoint _config) = Return search_url ->
  (exists evs,
      snd (search_businesses env _config query_term t) = t ++ evs
      /\ (forall u, In u (requested evs) ->
                    u = search_url +++ "?Words=" +++ UrlParse.quote_plus query_term)
      /\ (always_sleeps env (FloatSeconds (request_delay_seconds _config)) ->
          exists rest,
            requested evs
            = (search_url +++ "?Words=" +++ UrlParse.quote_plus query_term) :: rest))
  /\ PyStr.sforall query_safe (UrlParse.quote_plus query_term) = true
  /\ (forall c, query_safe c = false ->
                PyStr.has_char c (UrlParse.quote_plus query_term) = false).
Proof.
  intros Hu. split; [|split; [apply quote_plus_safe|]].
  - destruct (perform_request_events env _config (full_search_url search_url query_term) t)
      as (evs & Hsnd & _ & Hreq & _).
    assert (Hrun : snd (search_businesses env _config query_term t) = t ++ evs).
    { rewrite search_businesses_spec, Hu.
      destruct (_perform_request env _config _ 0 t) as [[r|e1] t1]; cbn [snd] in *;
        [destruct (_extract_business_records env _config (text r))|]; exact Hsnd. }
    exists evs. split; [exact Hrun|]. split; [exact Hreq|].
    intros Hd.
    destruct (perform_request_first_call (full_search_url search_url query_term) t Hd)
      as [rest Hfirst].
    rewrite Hsnd in Hfirst. apply app_inv_head in Hfirst. subst evs.
    now eexists.
  - intros c Hc. apply (has_char_sforall c query_safe); [|apply quote_plus_safe].
    intros x Hx. destruct (Ascii.eqb c x) eqn:E; [|reflexivity].
    apply Ascii.eqb_eq in E. subst x. congruence.
Qed.

(** The records added by the loop over the rows, row by row. *)
Lemma for_each_extract_rows (rows : list Soup.Node) (acc bs : list BusinessRecord) :
  for_each (extract_row env _config) rows acc = Return bs ->
  exists added,
    bs = acc ++ added
    /\ Forall2 (fun row record =>
                  exists link_element link,
                    row_link row = Some link_element
                    /\ urljoin env base (Soup.get "href" "" link_element) = Return link
                    /\ record = record_of_row row link_element link)
               (filter has_row_link rows) added.
Proof.
  revert acc. induction rows as [|row rows IH]; intros acc H.
  - injection H as <-. exists []. rewrite app_nil_r. split; [reflexivity | constructor].
  - cbn [for_each filter] in H |- *. unfold has_row_link at 1.
    rewrite extract_row_spec in H.
    destruct (row_link row) as [link|] eqn:Hl.
    + destruct (urljoin env base (Soup.get "href" "" link)) as [u|e'] eqn:Hu; [|discriminate].
      destruct (IH _ H) as (added & -> & Hall).
      exists (record_of_row row link u :: added). rewrite <- app_assoc.
      split; [reflexivity|]. constructor; [|exact Hall]. now exists link, u.
    + apply IH, H.
Qed.

(** X12.  The records [_extract_business_records] returns are, in the
    order of the rows, one for each row after the first that has at least
    three cells and a link in the first: the name is the text of the link,
    the detail link its resolved target, the identifier and the status the
    text of the second and third cell, and the date the text of the fourth
    cell, or the empty string in a row of three cells. *)
Theorem extracted_records_follow_the_rows
        (html_content result_table : Soup.Node) (businesses : list BusinessRecord) :
  locate_result_table html_content = Some result_table ->
  _extract_business_records env _config html_content = Return businesses ->
  Forall2 (fun row record =>
             exists link_element link,
               row_link row = Some link_element
               /\ urljoin env base (Soup.get "href" "" link_element) = Return link
               /\ entity_name record = Soup.get_text_strip link_element
               /\ detail_link record = link
               /\ sos_identifier record = cell_text (Soup.find_all "td" row) 1
               /\ status_text record = cell_text (Soup.find_all "td" row) 2
               /\ date_registered record = cell_text (Soup.find_all "td" row) 3
               /\ (List.length (Soup.find_all "td" row) = 3 -> date_registered record = ""))
          (filter has_row_link (tl (Soup.find_all "tr" result_table))) businesses.
Proof.
  intros Hloc H. unfold _extract_business_records in H. rewrite Hloc in H.
  apply for_each_extract_rows in H. destruct H as (added & -> & Hall). cbn [app].
  eapply Forall2_impl; [|exact Hall].
  intros row record (link & u & Hl & Hu & ->). exists link, u.
  repeat (split; [first [assumption | reflexivity]|]).
  intros Hlen. cbn. unfold cell_text.
  destruct (Soup.find_all "td" row) as [|c0 [|c1 [|c2 [|c3 cells]]]];
    cbn in Hlen; try discriminate; reflexivity.
Qed.

Lemma smap_append (f : ascii -> ascii) (a b : string) :
  PyStr.smap f (a +++ b) = PyStr.smap f a +++ PyStr.smap f b.
Proof. induction a as [|c a IH]; cbn; [reflexivity | now rewrite IH]. Qed.

Lemma smap_append_inv (f : ascii -> ascii) (a b s : string) :
  PyStr.smap f s = a +++ b ->
  exists s1 s2, s = s1 +++ s2 /\ PyStr.smap f s1 = a /\ PyStr.smap f s2 = b.
Proof.
  revert s. induction a as [|c a IH]; intros s H.
  - now exists EmptyString, s.
  - destruct s as [|x s]; [discriminate|]. cbn in H. injection H as Hc H.
    destruct (IH s H) as (s1 & s2 & -> & H1 & H2).
    exists (String x s1), s2. cbn. now rewrite Hc, H1.
Qed.

Lemma rev_onto_append (a b acc : string) :
  PyStr.rev_onto (a +++ b) acc = PyStr.rev_onto b (PyStr.rev_onto a acc).
Proof. revert acc. induction a as [|c a IH]; intros acc; cbn; [reflexivity | apply IH]. Qed.

Lemma rev_onto_acc (s acc : string) :
  PyStr.rev_onto s acc = PyStr.rev_onto s EmptyString +++ acc.
Proof.
  revert acc. induction s as [|c s IH]; intros acc; cbn; [reflexivity|].
  rewrite (IH (String c acc)), (IH (String c EmptyString)), append_assoc. reflexivity.
Qed.

Lemma srev_append (a b : string) : PyStr.srev (a +++ b) = PyStr.srev b +++ PyStr.srev a.
Proof. unfold PyStr.srev. now rewrite rev_onto_append, rev_onto_acc. Qed.

Lemma srev_involutive (s : string) : PyStr.srev (PyStr.srev s) = s.
Proof.
  induction s as [|c s IH]; [reflexivity|].
  change (String c s) with (String c EmptyString +++ s) at 1.
  rewrite srev_append, srev_append, IH. reflexivity.
Qed.

Lemma startswith_iff (p s : string) :
  PyStr.startswith p s = true <-> exists r, s = p +++ r.
Proof.
  revert s. induction p as [|c p IH]; intros s; cbn.
  - split; [now exists s | reflexivity].
  - destruct s as [|x s].
    + split; [discriminate | intros [r H]; discriminate].
    + rewrite andb_true_iff, IH, Ascii.eqb_eq. split.
      * intros [-> [r ->]]. now exists r.
      * intros [r H]. injection H as -> ->. split; [reflexivity | now exists r].
Qed.

(** [s.endswith(p)] says that [s] is some text followed by [p]. *)
Lemma endswith_iff (p s : string) :
  PyStr.endswith p s = true <-> exists a, s = a +++ p.
Proof.
  unfold PyStr.endswith. rewrite startswith_iff. split.
  - intros [r H]. exists (PyStr.srev r).
    rewrite <- (srev_involutive s), H, srev_append, srev_involutive. reflexivity.
  - intros [a ->]. exists (PyStr.srev a). apply srev_append.
Qed.

(** The first element of a list that passes a test: it passes, and nothing
    before it does. *)
Lemma find_first {A} (f : A -> bool) (l : list A) (x : A) :
  List.find f l = Some x ->
  exists before after,
    l = before ++ x :: after /\ f x = true /\ forall y, In y before -> f y = false.
Proof.
  induction l as [|a l IH]; cbn [List.find]; [discriminate|].
  destruct (f a) eqn:Ha.
  - intros H. injection H as <-. exists [], l. repeat split; auto. intros y [].
  - intros H. destruct (IH H) as (before & after & -> & Hx & Hb).
    exists (a :: before), after. repeat split; auto.
    intros y [<-|Hy]; [exact Ha | now apply Hb].
Qed.

Lemma ends_in_pdf_iff (href : string) :
  PyStr.endswith ".pdf" (PyStr.lower href) = true
  <-> exists stem ext, href = stem +++ ext /\ PyStr.lower ext = ".pdf".
Proof.
  rewrite endswith_iff. split.
  - intros [a H]. apply smap_append_inv in H. destruct H as (s1 & s2 & -> & _ & H2).
    now exists s1, s2.
  - intros (stem & ext & -> & H). exists (PyStr.lower stem).
    unfold PyStr.lower in *. now rewrite smap_append, H.
Qed.

(** X13.  The loop of [_locate_pdf_links] takes a link for a document
    exactly when its [href] is some text followed by four characters that
    are [.pdf] up to the case of the letters: [.pdf], [.PDF], [.Pdf] and so
    on.  Any other link is passed over without being resolved, so that it
    cannot make the extractor raise.  The URLs returned are the resolved
    targets of the links taken, and nothing else. *)
Theorem document_links_end_in_pdf (html_content : Soup.Node) :
  (forall pdf_urls link,
      (forall stem ext, Soup.get "href" "" link = stem +++ ext -> PyStr.lower ext <> ".pdf") ->
      locate_link env _config pdf_urls link = Return pdf_urls)
  /\ (forall pdf_urls link stem ext,
        Soup.get "href" "" link = stem +++ ext -> PyStr.lower ext = ".pdf" ->
        locate_link env _config pdf_urls link
        = match urljoin env base (Soup.get "href" "" link) with
          | Raise e => Raise e
          | Return full_url => Return (add_unseen pdf_urls full_url)
          end)
  /\ (forall urls,
        _locate_pdf_links env _config html_content = Return urls ->
        forall u, In u urls <->
          exists link stem ext,
            In link (Soup.find_all_with "a" "href" html_content)
            /\ Soup.get "href" "" link = stem +++ ext
            /\ PyStr.lower ext = ".pdf"
            /\ urljoin env base (Soup.get "href" "" link) = Return u).
Proof.
  split; [|split].
  - intros acc link Hno. unfold locate_link.
    destruct (PyStr.endswith ".pdf" (PyStr.lower (Soup.get "href" "" link))) eqn:E;
      [|reflexivity].
    apply ends_in_pdf_iff in E. destruct E as (stem & ext & H1 & H2).
    now destruct (Hno stem ext H1).
  - intros acc link stem ext H1 H2. unfold locate_link, add_unseen.
    assert (E : PyStr.endswith ".pdf" (PyStr.lower (Soup.get "href" "" link)) = true)
      by (apply ends_in_pdf_iff; now exists stem, ext).
    rewrite E. destruct (urljoin env base (Soup.get "href" "" link)) as [full_url|e];
      [|reflexivity].
    now destruct (not_in full_url acc).
  - intros urls H u.
    destruct (locate_pdf_links_spec env _config html_content) as [_ Hspec].
    destruct (Hspec urls H) as [_ Hin]. rewrite (Hin u). split.
    + intros (link & Hl & He & Hu). apply ends_in_pdf_iff in He.
      destruct He as (stem & ext & H1 & H2). now exists link, stem, ext.
    + intros (link & stem & ext & Hl & H1 & H2 & Hu). exists link.
      split; [exact Hl|]. split; [|exact Hu].
      apply ends_in_pdf_iff. now exists stem, ext.
Qed.

(** X14.  The table [_extract_business_records] works on is a [table] of
    the page: the first in the order of the document whose class matches
    [result] when there is one, wherever a table whose id matches [search]
    stands; otherwise the first whose id matches [search]; and when the
    page has neither, there are no records. *)
Theorem results_table_choice (html_content : Soup.Node) :
  (forall result_table,
      locate_result_table html_content = Some result_table ->
      exists before after,
        Soup.descendants html_content = before ++ result_table :: after
        /\ Soup.is_tag "table" result_table = true
        /\ ((Soup.attr_matches "class" "result" result_table = true
             /\ forall d, In d before -> Soup.is_tag "table" d = true ->
                          Soup.attr_matches "class" "result" d = false)
            \/ (Soup.attr_matches "id" "search" result_table = true
                /\ (forall d, In d (Soup.descendants html_content) ->
                              Soup.is_tag "table" d = true ->
                              Soup.attr_matches "class" "result" d = false)
                /\ forall d, In d before -> Soup.is_tag "table" d = true ->
                             Soup.attr_matches "id" "search" d = false)))
  /\ (forall d,
        In d (Soup.descendants html_content) ->
        Soup.is_tag "table" d = true ->
        Soup.attr_matches "class" "result" d = true ->
        exists result_table,
          locate_result_table html_content = Some result_table
          /\ Soup.attr_matches "class" "result" result_table = true)
  /\ (locate_result_table html_content = None
      <-> forall d, In d (Soup.descendants html_content) -> results_like d = false)
  /\ (locate_result_table html_content = None ->
      _extract_business_records env _config html_content = Return []).
Proof.
  assert (Hsplit : forall (f : Soup.Node -> bool) d before,
             (forall y, In y before -> (Soup.is_tag "table" y && f y)%bool = false) ->
             In d before -> Soup.is_tag "table" d = true -> f d = false).
  { intros f d before Hb Hd Ht. specialize (Hb d Hd). now rewrite Ht in Hb. }
  unfold locate_result_table, Soup.find_matching. split; [|split; [|split]].
  - intros table H.
    destruct (List.find _ (Soup.descendants html_content)) as [t1|] eqn:H1.
    + injection H as <-. apply find_first in H1.
      destruct H1 as (before & after & Heq & Hm & Hb).
      apply andb_true_iff in Hm. destruct Hm as [Ht Hc].
      exists before, after. split; [exact Heq|]. split; [exact Ht|]. left.
      split; [exact Hc|]. intros d Hd Hdt. now apply (Hsplit _ d before Hb).
    + pose proof (find_none _ _ H1) as Hnone.
      apply find_first in H. destruct H as (before & after & Heq & Hm & Hb).
      apply andb_true_iff in Hm. destruct Hm as [Ht Hi].
      exists before, after. split; [exact Heq|]. split; [exact Ht|]. right.
      split; [exact Hi|]. split.
      * intros d Hd Hdt. specialize (Hnone d Hd). cbn in Hnone. now rewrite Hdt in Hnone.
      * intros d Hd Hdt. now apply (Hsplit _ d before Hb).
  - intros d Hd Ht Hc.
    destruct (List.find _ (Soup.descendants html_content)) as [t1|] eqn:H1.
    + exists t1. split; [reflexivity|]. apply find_some in H1.
      destruct H1 as [_ Hm]. apply andb_true_iff in Hm. tauto.
    + pose proof (find_none _ _ H1 d Hd) as Hn. cbn in Hn.
      now rewrite Ht, Hc in Hn.
  - unfold results_like.
    destruct (List.find
                (fun d => Soup.is_tag "table" d && Soup.attr_matches "class" "result" d)
                (Soup.descendants html_content)) as [t1|] eqn:H1.
    + split; [discriminate|]. intros H. exfalso.
      apply find_some in H1. destruct H1 as [Hin Hm]. specialize (H t1 Hin).
      apply andb_true_iff in Hm. destruct Hm as [Ht Hc]. now rewrite Ht, Hc in H.
    + destruct (List.find
                  (fun d => Soup.is_tag "table" d && Soup.attr_matches "id" "search" d)
                  (Soup.descendants html_content)) as [t2|] eqn:H2.
      * split; [discriminate|]. intros H. exfalso.
        apply find_some in H2. destruct H2 as [Hin Hm]. specialize (H t2 Hin).
        apply andb_true_iff in Hm. destruct Hm as [Ht Hi].
        rewrite Ht, Hi, orb_true_r in H. discriminate H.
      * split; [|reflexivity]. intros _ d Hd.
        pose proof (find_none _ _ H1 d Hd) as Hc. pose proof (find_none _ _ H2 d Hd) as Hi.
        cbn in Hc, Hi. destruct (Soup.is_tag "table" d); [|reflexivity].
        cbn in *. now rewrite Hc, Hi.
  - intros H. unfold _extract_business_records, locate_result_table, Soup.find_matching.
    now rewrite H.
Qed.

End Inputs.

(** A term with an ampersand, a space and a hash. *)
Lemma search_term_is_encoded_witness :
  PyStr.has_char "&" (UrlParse.quote_plus "Acme & Sons #1") = false.
Proof.
  apply (proj2 (proj2 (search_term_is_encoded Examples.env_down default_configuration
                         "Acme & Sons #1"
                         "https://www.sosnc.gov/online_services/search/by_title/_Business_Registration"
                         [] eq_refl))).
  reflexivity.
Defined.

(** Scenario A: the page with one row of four cells. *)
Lemma extracted_records_follow_the_rows_witness :
  Forall2 (fun row record =>
             exists link_element link,
               row_link row = Some link_element
               /\ urljoin Examples.env_down (target_base_url default_configuration)
                    (Soup.get "href" "" link_element) = Return link
               /\ entity_name record = Soup.get_text_strip link_element
               /\ detail_link record = link
               /\ sos_identifier record = cell_text (Soup.find_all "td" row) 1
               /\ status_text record = cell_text (Soup.find_all "td" row) 2
               /\ date_registered record = cell_text (Soup.find_all "td" row) 3
               /\ (List.length (Soup.find_all "td" row) = 3 -> date_registered record = ""))
          (filter has_row_link
             (tl (Soup.find_all "tr" (Examples.results_table [Examples.acme_row]))))
          [Examples.acme_record].
Proof.
  apply (extracted_records_follow_the_rows Examples.env_down default_configuration
           Examples.search_page (Examples.results_table [Examples.acme_row])
           [Examples.acme_record]).
  - reflexivity.
  - vm_compute. reflexivity.
Defined.

(** The link [/d/B.PDF] of the detail page is taken. *)
Lemma document_links_end_in_pdf_witness :
  locate_link Examples.env_down default_configuration []
    (Examples.a_href "/d/B.PDF" "Report")
  = Return ["https://www.sosnc.gov/d/B.PDF"].
Proof.
  apply (proj1 (proj2 (document_links_end_in_pdf Examples.env_down default_configuration
                         Examples.detail_page))
           [] (Examples.a_href "/d/B.PDF" "Report") "/d/B" ".PDF");
    reflexivity.
Defined.

(** The class wins over the id that comes first. *)
Lemma results_table_choice_witness :
  exists result_table,
    locate_result_table Examples.two_tables_page = Some result_table
    /\ Soup.attr_matches "class" "result" result_table = true.
Proof.
  apply (proj1 (proj2 (results_table_choice Examples.env_down default_configuration
                         Examples.two_tables_page))
           (Examples.results_table [Examples.acme_row])).
  - cbn. repeat (first [left; reflexivity | right]).
  - reflexivity.
  - reflexivity.
Defined.

(* ------------------------------------------------------------------ *)
(** ** The exit status of [main] *)

Lemma exit_status_0_or_1 (results : Summary) :
  Cli.exit_status results = 0%Z \/ Cli.exit_status results = 1%Z.
Proof. unfold Cli.exit_status. destruct (errors results); auto. Qed.

(** What the [try] of [main] gives after the run: the status 130 and the
    message of the cancellation as the last line when an interrupt arrives
    in time, the whole report and the status of the outcome otherwise. *)
Lemma report_status (results : Summary) (interrupt : option nat) (out : list string)
      (status : Z) :
  Cli.report results interrupt = (out, status) ->
  (status = 130%Z /\ interrupt <> None /\ last out "" = Cli.cancelled)
  \/ (status <> 130%Z /\ out = Cli.printed results /\ status = Cli.exit_status results).
Proof.
  assert (Hplain : (Cli.printed results, Cli.exit_status results) = (out, status) ->
                   status <> 130%Z /\ out = Cli.printed results
                   /\ status = Cli.exit_status results).
  { intros H. injection H as <- <-. split; [|now split].
    destruct (exit_status_0_or_1 results) as [-> | ->]; discriminate. }
  unfold Cli.report. destruct interrupt as [lines|]; [|now right; apply Hplain].
  destruct (lines <? List.length (Cli.printed results))%nat; [|now right; apply Hplain].
  intros H. injection H as <- <-. left. split; [reflexivity|]. split; [discriminate|].
  apply last_last.
Qed.

Lemma skipn_length_app {A} (a b : list A) : skipn (List.length a) (a ++ b) = b.
Proof. induction a as [|x a IH]; [reflexivity | exact IH]. Qed.

(** [main] when the storage directory is there, by the time of the
    interrupt. *)
Lemma main_spec (interrupt : option Cli.Interrupt) (env : Env) (args : Cli.Namespace)
      (t : Trace) :
  let run := process_search_and_download env (Cli.configuration_of args)
               (Cli.business_query args) t in
  let events := skipn (List.length t) (snd run) in
  let after_run (lines : option nat) :=
    match fst run with
    | Raise e => (Raise e, snd run)
    | Return results => (Return (Cli.report results lines), snd run)
    end in
  Cli.main None interrupt env args t =
  match interrupt with
  | None => after_run None
  | Some (Cli.DuringReport lines) => after_run (Some lines)
  | Some (Cli.DuringRun completed under_way) =>
      match nth_error events completed with
      | Some ev =>
          (Return ([Cli.cancelled], 130%Z),
           t ++ firstn completed events ++ (if under_way then Cli.cut_short ev else []))
      | None => after_run (Some 0)
      end
  end.
Proof.
  cbv zeta. unfold Cli.main.
  destruct (process_search_and_download env (Cli.configuration_of args)
              (Cli.business_query args) t) as [outcome t1].
  reflexivity.
Qed.

(** X11.  The exit status of [main].  When the storage directory cannot be
    created, [main] raises before anything is requested.  Otherwise,
    whenever it returns, the status is 0, 1 or 130.  It is 130 only when
    the user interrupted it, and then the last line printed is the message
    of the cancellation; an interrupt while the run is at work always gives
    130, and leaves of the run what was done until then: the operations
    completed, and of the operation under way what it had already done.
    When the status is not 130, [main] has printed the report of the
    outcome of the run.  Without an interrupt the status is 1 exactly when
    the search step failed with a [SearchOperationError], and 0 whenever
    the search returned, whatever happened to the detail pages and the
    documents. *)
Theorem main_exit_status (env : Env) (args : Cli.Namespace) (t : Trace) :
  (forall e interrupt, Cli.main (Some e) interrupt env args t = (Raise e, t))
  /\ (forall interrupt out status t',
        Cli.main None interrupt env args t = (Return (out, status), t') ->
        (status = 0%Z \/ status = 1%Z \/ status = 130%Z)
        /\ (status = 130%Z -> interrupt <> None /\ last out "" = Cli.cancelled)
        /\ (status <> 130%Z ->
            exists results,
              process_search_and_download env (Cli.configuration_of args)
                (Cli.business_query args) t = (Return results, t')
              /\ out = Cli.printed results
              /\ status = Cli.exit_status results))
  /\ (forall completed under_way out status t',
        Cli.main None (Some (Cli.DuringRun completed under_way)) env args t
        = (Return (out, status), t') ->
        status = 130%Z
        /\ exists done rest,
             snd (process_search_and_download env (Cli.configuration_of args)
                    (Cli.business_query args) t) = t ++ done ++ rest
             /\ (t' = t ++ done
                 \/ exists ev later,
                      rest = ev :: later /\ t' = t ++ done ++ Cli.cut_short ev))
  /\ (forall out status t',
        Cli.main None None env args t = (Return (out, status), t') ->
        (status = 1%Z <->
         exists e t1,
           search_businesses env (Cli.configuration_of args)
             (Cli.business_query args) t = (Raise e, t1)
           /\ of_class SearchOperationError e = true)
        /\ (status = 0%Z <->
            exists businesses t1,
              search_businesses env (Cli.configuration_of args)
                (Cli.business_query args) t = (Return businesses, t1))).
Proof.
  split; [reflexivity|].
  assert (Hafter : forall lines out status t',
             match fst (process_search_and_download env (Cli.configuration_of args)
                          (Cli.business_query args) t) with
             | Raise e =>
                 (Raise e, snd (process_search_and_download env (Cli.configuration_of args)
                                  (Cli.business_query args) t))
             | Return results =>
                 (Return (Cli.report results lines),
                  snd (process_search_and_download env (Cli.configuration_of args)
                         (Cli.business_query args) t))
             end = (Return (out, status), t') ->
             exists results,
               process_search_and_download env (Cli.configuration_of args)
                 (Cli.business_query args) t = (Return results, t')
               /\ Cli.report results lines = (out, status)).
  { intros lines out status t' H.
    destruct (process_search_and_download env (Cli.configuration_of args)
                (Cli.business_query args) t) as [[results|e] t1]; cbn [fst snd] in H;
      [|discriminate].
    injection H as H <-. now exists results. }
  assert (Hreport : forall (interrupt : option Cli.Interrupt) lines out status t' results,
             (interrupt = None -> lines = None) ->
             process_search_and_download env (Cli.configuration_of args)
               (Cli.business_query args) t = (Return results, t') ->
             Cli.report results lines = (out, status) ->
             (status = 0%Z \/ status = 1%Z \/ status = 130%Z)
             /\ (status = 130%Z -> interrupt <> None /\ last out "" = Cli.cancelled)
             /\ (status <> 130%Z ->
                 exists results,
                   process_search_and_download env (Cli.configuration_of args)
                     (Cli.business_query args) t = (Return results, t')
                   /\ out = Cli.printed results
                   /\ status = Cli.exit_status results)).
  { intros interrupt lines out status t' results Hl Hrun Hrep.
    destruct (report_status _ _ _ _ Hrep) as [(-> & Hi & Hlast)|(Hs & -> & ->)].
    - split; [auto|]. split; [|congruence]. intros _. split; [|exact Hlast].
      intros Hnone. apply Hi, Hl, Hnone.
    - split; [destruct (exit_status_0_or_1 results) as [-> | ->]; auto|].
      split; [congruence|]. intros _. now exists results. }
  destruct (process_search_and_download_events env (Cli.configuration_of args)
              (Cli.business_query args) t) as (evs & Hsnd & _).
  split; [|split].
  - intros interrupt out status t' H. rewrite main_spec in H. cbv zeta in H.
    destruct interrupt as [[completed under_way|lines]|].
    + destruct (nth_error _ completed) as [ev|].
      * injection H as <- <- <-. split; [auto|].
        split; [intros _; split; [discriminate | reflexivity]|].
        intros Hne. now destruct Hne.
      * destruct (Hafter _ _ _ _ H) as (results & Hrun & Hrep).
        apply (Hreport _ (Some 0) _ _ _ results); auto. discriminate.
    + destruct (Hafter _ _ _ _ H) as (results & Hrun & Hrep).
      apply (Hreport _ (Some lines) _ _ _ results); auto. discriminate.
    + destruct (Hafter _ _ _ _ H) as (results & Hrun & Hrep).
      apply (Hreport _ None _ _ _ results); auto.
  - intros completed under_way out status t' H. rewrite main_spec in H. cbv zeta in H.
    rewrite Hsnd, skipn_length_app in H.
    destruct (nth_error evs completed) as [ev|] eqn:E.
    + injection H as <- <- <-. split; [reflexivity|].
      apply nth_error_split in E. destruct E as (l1 & l2 & -> & Hlen).
      exists l1, (ev :: l2). split; [exact Hsnd|].
      assert (Hfirst : firstn completed (l1 ++ ev :: l2) = l1).
      { rewrite <- Hlen, firstn_app, Nat.sub_diag, firstn_all. cbn. apply app_nil_r. }
      rewrite Hfirst. destruct under_way.
      * right. now exists ev, l2.
      * left. now rewrite app_nil_r.
    + rewrite <- Hsnd in H. destruct (Hafter _ _ _ _ H) as (results & Hrun & Hrep).
      unfold Cli.report, Cli.printed in Hrep. cbn [app List.length Nat.ltb Nat.leb] in Hrep.
      injection Hrep as _ <-. split; [reflexivity|].
      exists evs, []. rewrite app_nil_r. split; [exact Hsnd|]. left.
      rewrite Hrun in Hsnd. exact Hsnd.
  - intros out status t' H. rewrite main_spec in H. cbv zeta in H.
    destruct (Hafter _ _ _ _ H) as (results & Hrun & Hrep).
    unfold Cli.report in Hrep. injection Hrep as _ <-.
    rewrite process_search_and_download_spec in Hrun.
    destruct (search_businesses env (Cli.configuration_of args) (Cli.business_query args) t)
      as [[bs|e] t1] eqn:Hs.
    + destruct (fetch_each env (Cli.configuration_of args) bs t1) as [pb t2].
      injection Hrun as <- _. cbn [Cli.exit_status errors]. split.
      * split; [discriminate|]. intros (e & t3 & He & _). discriminate.
      * split; [intros _; now exists bs, t1 | reflexivity].
    + destruct (of_class SearchOperationError e) eqn:Hc; [|discriminate].
      injection Hrun as <- _. cbn [Cli.exit_status errors]. split.
      * split; [intros _; now exists e, t1 | reflexivity].
      * split; [discriminate|]. intros (bs & t3 & Hb). discriminate.
Qed.

(** A search that times out: status 1. *)
Lemma main_exit_status_witness :
  exists e t1,
    search_businesses Examples.env_down
      (Cli.configuration_of
         (Cli.mkNamespace "Acme" "./fetched_documents" (Finite (3 # 2)) false))
      "Acme" [] = (Raise e, t1)
    /\ of_class SearchOperationError e = true.
Proof.
  apply (proj1 (proj1 (proj2 (proj2 (proj2
           (main_exit_status Examples.env_down
              (Cli.mkNamespace "Acme" "./fetched_documents" (Finite (3 # 2)) false) [])))
           (Cli.printed
              {| search_query := "Acme"; businesses_found := 0;
                 documents_downloaded := 0; downloaded_files := [];
                 errors := ["Unable to search: Request failed after retries: Read timed out."] |})
           1%Z
           (snd (process_search_and_download Examples.env_down
                   (Cli.configuration_of
                      (Cli.mkNamespace "Acme" "./fetched_documents" (Finite (3 # 2)) false))
                   "Acme" []))
           ltac:(vm_compute; reflexivity)))).
  reflexivity.
Defined.

(** Ctrl-C while the first request of a run is under way: the sleep is
    done, the call of [Session.get] has been made, and [main] returns 130. *)
Lemma main_interrupted_example :
  Cli.main None (Some (Cli.DuringRun 1 true)) (Examples.env_up Examples.detail_page)
    (Cli.mkNamespace "Acme" "./fetched_documents" (Finite (3 # 2)) false) []
  = (Return ([Cli.cancelled], 130%Z),
     [ESleep (3 # 2); EGet Examples.search_url 30]).
Proof. vm_compute. reflexivity. Qed.

(* ------------------------------------------------------------------ *)
(** ** Records without a name *)

Lemma flat_map_nil {A B} (f : A -> list B) (l : list A) :
  (forall x, In x l -> f x = []) -> flat_map f l = [].
Proof.
  induction l as [|x l IH]; intros H; [reflexivity|]. cbn.
  rewrite (H x (or_introl eq_refl)), IH; [reflexivity|].
  intros y Hy. apply H. now right.
Qed.

(** X15.  The extractor does not ask for a name: a row of at least three
    cells whose link has no text, or only whitespace, still gives a record;
    its [entity_name] is the empty string. *)
Theorem link_without_text_gives_empty_name
        (env : Env) (_config : ScraperConfiguration)
        (row link_element : Soup.Node) (link : string) :
  row_link row = Some link_element ->
  (forall s, In (Soup.NavigableString s) (Soup.descendants link_element) ->
             PyStr.strip s = "") ->
  urljoin env (target_base_url _config) (Soup.get "href" "" link_element) = Return link ->
  entity_name (record_of_row row link_element link) = ""
  /\ forall business_list,
       extract_row env _config business_list row
       = Return (business_list ++ [record_of_row row link_element link]).
Proof.
  intros Hl Hblank Hu. split.
  - cbn. unfold Soup.get_text_strip, Soup.stripped_strings.
    rewrite flat_map_nil; [reflexivity|].
    intros d Hd. destruct d as [name attrs cs|s|s]; try reflexivity.
    now rewrite (Hblank s Hd).
  - intros acc. now rewrite extract_row_spec, Hl, Hu.
Qed.

Lemma link_without_text_gives_empty_name_witness :
  extract_row Examples.env_down default_configuration [] Examples.logo_row
  = Return [new_BusinessRecord "" "9" "Active" "" "https://www.sosnc.gov/biz/9"].
Proof.
  apply (proj2 (link_without_text_gives_empty_name Examples.env_down default_configuration
                  Examples.logo_row
                  (Soup.Tag "a" [("href", "/biz/9")]
                     [Soup.Tag "img" [("src", "/logo.png")] [];
                      Soup.NavigableString "  "])
                  "https://www.sosnc.gov/biz/9"
                  eq_refl
                  ltac:(intros s Hs; cbn in Hs;
                        destruct Hs as [Hs|[Hs|[]]]; [discriminate Hs|];
                        injection Hs as <-; reflexivity)
                  eq_refl) []).
Defined.

(** A whole run on a site where everything works. *)
Lemma every_request_of_a_run_is_delayed_witness :
  delay_before_each_get default_configuration
    (snd (process_search_and_download (Examples.env_up Examples.detail_page)
            default_configuration "Acme" [])).
Proof.
  destruct (every_request_of_a_run_is_delayed (Examples.env_up Examples.detail_page)
              default_configuration "Acme" []) as (evs & _ & _ & H).
  apply H. intros pre post u timeout Heq. destruct pre; discriminate Heq.
Defined.
